(** * DataMate: the request handler and the analyst agent

    A shallow embedding of [agent.py] and [app.py].  Python text is modelled
    as [string], one [ascii] per character (code points below 256); the
    process state (file system, working directory, [sys.stdout] and
    [sys.stderr]) is threaded explicitly through a small state-and-exception
    monad; the external collaborators (the generation service, the Python
    interpreter running a generated script, the JSON decoder, the UTF-8
    decoder) are the fields of an environment record. *)

From Stdlib Require Import Ascii String.
From stdpp Require Import gmap strings list fin_maps.

(** ** Python [str] operations *)

Module Text.

(** [str.isspace] on one character, which is also the class [\s] of a
    [str] pattern: TAB..CR, FS..US, SPACE, NEL and NBSP. *)
Definition isspace (c : ascii) : bool :=
  let n := nat_of_ascii c in
  ((9 <=? n) && (n <=? 13)) || ((28 <=? n) && (n <=? 31))
  || (n =? 32) || (n =? 133) || (n =? 160).

Definition is_empty (s : string) : bool :=
  match s with EmptyString => true | String _ _ => false end.

(** [s.lstrip()] *)
Fixpoint lstrip (s : string) : string :=
  match s with
  | EmptyString => EmptyString
  | String c s' => if isspace c then lstrip s' else s
  end.

(** [s.rstrip()] *)
Fixpoint rstrip (s : string) : string :=
  match s with
  | EmptyString => EmptyString
  | String c s' =>
      let r := rstrip s' in
      if is_empty r && isspace c then EmptyString else String c r
  end.

(** [s.strip()] *)
Definition strip (s : string) : string := rstrip (lstrip s).

(** [s.startswith(p)] *)
Fixpoint startswith (p s : string) : bool :=
  match p, s with
  | EmptyString, _ => true
  | String a p', String b s' => if Ascii.eqb a b then startswith p' s' else false
  | String _ _, EmptyString => false
  end.

(** [p in s] *)
Fixpoint contains (p s : string) : bool :=
  startswith p s ||
  match s with
  | EmptyString => false
  | String _ s' => contains p s'
  end.

(** [s[n:]] *)
Fixpoint skip (n : nat) (s : string) : string :=
  match n, s with
  | S n', String _ s' => skip n' s'
  | _, _ => s
  end.

(** [sep.join(l)] *)
Fixpoint join (sep : string) (l : list string) : string :=
  match l with
  | [] => ""
  | [x] => x
  | x :: l' => x +:+ sep +:+ join sep l'
  end.

Definition newline : string := String "010"%char EmptyString.
Definition dquote : string := String "034"%char EmptyString.
Definition slash : ascii := "/"%char.
Definition backtick : ascii := "`"%char.

(** [os.path.basename(p)] (POSIX): what follows the last slash. *)
Fixpoint basename (p : string) : string :=
  match p with
  | EmptyString => EmptyString
  | String c p' =>
      if contains (String slash EmptyString) p' then basename p'
      else if Ascii.eqb c slash then p' else p
  end.

(** The text [s] holds no backtick. *)
Fixpoint no_backtick (s : string) : bool :=
  match s with
  | EmptyString => true
  | String c s' => negb (Ascii.eqb c backtick) && no_backtick s'
  end.


End Text.

(** ** A backtracking matcher for the patterns handed to [re.search] *)

Module Regex.

(** The constructs the agent's pattern uses: literals, character classes,
    sequencing, the greedy optional [r?], greedy repetition of a class
    ([c*], [c+]) and numbered capture groups. *)
Inductive regex : Type :=
| Eps
| Lit (c : ascii)
| Class (p : ascii -> bool)
| Seq (r1 r2 : regex)
| Opt (r : regex)
| Star (p : ascii -> bool)
| Plus (p : ascii -> bool)
| Group (n : nat) (r : regex).

(** The groups matched so far, the latest binding first. *)
Definition captures : Type := list (nat * string).

Fixpoint group (n : nat) (caps : captures) : option string :=
  match caps with
  | [] => None
  | (m, s) :: caps' => if Nat.eqb n m then Some s else group n caps'
  end.

(** The first [String.length s - String.length rest] characters of [s]:
    what a group consumed when it started at [s] and stopped at [rest]. *)
Definition consumed (s rest : string) : string :=
  String.substring 0 (String.length s - String.length rest) s.

(** Greedy [c*] followed by the continuation [k]: the longest run first,
    then one character less at a time. *)
Fixpoint star {R : Type} (p : ascii -> bool) (s : string)
    (k : string -> option R) : option R :=
  match s with
  | EmptyString => k s
  | String c s' =>
      if p c then
        match star p s' k with
        | Some r => Some r
        | None => k s
        end
      else k s
  end.

(** [matches r s caps k]: match [r] at the start of [s], then hand the rest
    of the text and the groups to [k]; [None] makes the matcher backtrack. *)
Fixpoint matches {R : Type} (r : regex) (s : string) (caps : captures)
    (k : string -> captures -> option R) : option R :=
  match r with
  | Eps => k s caps
  | Lit c =>
      match s with
      | String d s' => if Ascii.eqb c d then k s' caps else None
      | EmptyString => None
      end
  | Class p =>
      match s with
      | String d s' => if p d then k s' caps else None
      | EmptyString => None
      end
  | Seq r1 r2 => matches r1 s caps (fun s' caps' => matches r2 s' caps' k)
  | Opt r1 =>
      match matches r1 s caps k with
      | Some x => Some x
      | None => k s caps
      end
  | Star p => star p s (fun s' => k s' caps)
  | Plus p =>
      match s with
      | String d s' => if p d then star p s' (fun s'' => k s'' caps) else None
      | EmptyString => None
      end
  | Group n r1 =>
      matches r1 s caps (fun s' caps' => k s' ((n, consumed s s') :: caps'))
  end.

(** The continuation at the end of the pattern: the match is complete. *)
Definition accept : string -> captures -> option captures :=
  fun _ caps => Some caps.

(** [re.search]: the first start position, left to right, with a match. *)
Fixpoint search (r : regex) (s : string) : option captures :=
  match matches r s [] accept with
  | Some caps => Some caps
  | None =>
      match s with
      | EmptyString => None
      | String _ s' => search r s'
      end
  end.

(** A literal word. *)
Fixpoint lit (w : string) : regex :=
  match w with
  | EmptyString => Eps
  | String c w' => Seq (Lit c) (lit w')
  end.

(** The class [[\s\S]]. *)
Definition space_or_not (c : ascii) : bool :=
  Text.isspace c || negb (Text.isspace c).

End Regex.

(** ** Code extraction ([agent.py], lines 99-104) *)

(** The pattern given to [re.search]: a fence of three backticks; as an
    optional first group the word [python] and the whitespace that follows
    it, greedily; as the second group one or more characters of any kind,
    greedily; a fence of three backticks. *)
Definition language_tag : Regex.regex :=
  Regex.Group 1 (Regex.Seq (Regex.lit "python") (Regex.Star Text.isspace)).

Definition block_body : Regex.regex :=
  Regex.Seq (Regex.Group 2 (Regex.Plus Regex.space_or_not)) (Regex.lit "```").

Definition code_block_pattern : Regex.regex :=
  Regex.Seq (Regex.lit "```") (Regex.Seq (Regex.Opt language_tag) block_body).

(** [code_to_execute] as computed from [response.text]. *)
Definition extract_code (response_text : string) : string :=
  match Regex.search code_block_pattern response_text with
  | Some caps => Text.strip (default "" (Regex.group 2 caps))
  | None => Text.strip response_text
  end.

(** ** Exceptions *)

(** The exception classes the two files raise, catch or let through.
    [SystemExit] and [KeyboardInterrupt] derive from [BaseException] only;
    every other class derives from [Exception]. *)
Inductive exc_class : Type :=
| RetryError
| DeadlineExceeded
| ValueError
| JSONDecodeError
| PlainException
| FileExistsError
| FileNotFoundError
| NotADirectoryError
| IsADirectoryError
| UnicodeDecodeError
| OtherException (name : string)
| SystemExit
| KeyboardInterrupt.

(** An exception object: its class, [str(e)], and the stack frames that
    [traceback] prints for it. *)
Record exn : Type := mk_exn {
  exn_class : exc_class;
  exn_msg : string;
  exn_frames : string
}.

(** [isinstance(e, Exception)] *)
Definition is_Exception (e : exn) : bool :=
  match exn_class e with
  | SystemExit | KeyboardInterrupt => false
  | _ => true
  end.

(** [isinstance(e, (google_exceptions.RetryError,
    google_exceptions.DeadlineExceeded))] *)
Definition is_api_timeout (e : exn) : bool :=
  match exn_class e with
  | RetryError | DeadlineExceeded => true
  | _ => false
  end.

Definition is_FileExistsError (e : exn) : bool :=
  match exn_class e with
  | FileExistsError => true
  | _ => false
  end.

Definition class_name (c : exc_class) : string :=
  match c with
  | RetryError => "google.api_core.exceptions.RetryError"
  | DeadlineExceeded => "google.api_core.exceptions.DeadlineExceeded"
  | ValueError => "ValueError"
  | JSONDecodeError => "json.decoder.JSONDecodeError"
  | PlainException => "Exception"
  | FileExistsError => "FileExistsError"
  | FileNotFoundError => "FileNotFoundError"
  | NotADirectoryError => "NotADirectoryError"
  | IsADirectoryError => "IsADirectoryError"
  | UnicodeDecodeError => "UnicodeDecodeError"
  | OtherException name => name
  | SystemExit => "SystemExit"
  | KeyboardInterrupt => "KeyboardInterrupt"
  end.

(** An exception raised by the modelled code itself. *)
Definition new_exn (c : exc_class) (msg : string) : exn :=
  {| exn_class := c; exn_msg := msg; exn_frames := "" |}.

(** [traceback.format_exc()] while [e] is being handled: the header, the
    frames, then the class and the message. *)
Definition format_exc (e : exn) : string :=
  "Traceback (most recent call last):" +:+ Text.newline +:+ exn_frames e
  +:+ class_name (exn_class e) +:+ ": " +:+ exn_msg e +:+ Text.newline.

(** ** The process state *)

Inductive node : Type :=
| Dir
| File (content : string).

(** An absolute location: the components below the root. *)
Definition path : Type := list string.

(** A path as Python code writes it, relative to the working directory
    unless [absolute]. *)
Record ospath : Type := mk_ospath {
  absolute : bool;
  parts : list string
}.

Definition relative (l : list string) : ospath :=
  {| absolute := false; parts := l |}.

(** [os.path.join(p, name)] for a [name] with no slash in it. *)
Definition path_join (p : ospath) (name : string) : ospath :=
  {| absolute := absolute p; parts := parts p ++ [name] |}.

(** [str(p)] *)
Definition path_str (p : ospath) : string :=
  (if absolute p then "/" else "") +:+ Text.join "/" (parts p).

(** The file system, the working directory, the stream objects
    [sys.stdout] and [sys.stderr] are bound to, the text every stream
    object has received, and which stream objects are open [io.StringIO]
    objects: on them alone [getvalue] returns. *)
Record World : Type := mk_World {
  fs : gmap path node;
  cwd : path;
  sys_stdout : nat;
  sys_stderr : nat;
  streams : gmap nat string;
  buffers : gset nat
}.

Definition set_fs (f : gmap path node) (w : World) : World :=
  {| fs := f; cwd := cwd w; sys_stdout := sys_stdout w;
     sys_stderr := sys_stderr w; streams := streams w;
     buffers := buffers w |}.

Definition set_cwd (d : path) (w : World) : World :=
  {| fs := fs w; cwd := d; sys_stdout := sys_stdout w;
     sys_stderr := sys_stderr w; streams := streams w;
     buffers := buffers w |}.

Definition set_std (out err : nat) (w : World) : World :=
  {| fs := fs w; cwd := cwd w; sys_stdout := out;
     sys_stderr := err; streams := streams w;
     buffers := buffers w |}.

Definition set_streams (m : gmap nat string) (w : World) : World :=
  {| fs := fs w; cwd := cwd w; sys_stdout := sys_stdout w;
     sys_stderr := sys_stderr w; streams := m;
     buffers := buffers w |}.

Definition set_buffers (b : gset nat) (w : World) : World :=
  {| fs := fs w; cwd := cwd w; sys_stdout := sys_stdout w;
     sys_stderr := sys_stderr w; streams := streams w;
     buffers := b |}.

Definition resolve (w : World) (p : ospath) : path :=
  if absolute p then parts p else cwd w ++ parts p.

Definition is_dir (f : gmap path node) (p : path) : bool :=
  match f !! p with
  | Some Dir => true
  | _ => false
  end.

(** The text a stream object holds. *)
Definition getvalue (w : World) (h : nat) : string :=
  default "" (streams w !! h).

(** [p] lies at or below [d]. *)
Definition below (d p : path) : bool :=
  bool_decide (d `prefix_of` p).

(** ** The monad of Python statements: state and exceptions *)

Inductive result (A : Type) : Type :=
| Ok (a : A)
| Raise (e : exn).
Arguments Ok {A} a.
Arguments Raise {A} e.

Definition M (A : Type) : Type := World -> result A * World.

Definition ret {A : Type} (a : A) : M A := fun w => (Ok a, w).

Definition raise {A : Type} (e : exn) : M A := fun w => (Raise e, w).

Definition bind {A B : Type} (m : M A) (k : A -> M B) : M B :=
  fun w =>
    match m w with
    | (Ok a, w') => k a w'
    | (Raise e, w') => (Raise e, w')
    end.

Declare Scope py_scope.
Delimit Scope py_scope with py.
Notation "'let*' x ':=' m 'in' k" := (bind m (fun x => k))
  (at level 10, x pattern, m at level 100, k at level 200) : py_scope.
Notation "m ';;' k" := (bind m (fun _ => k))
  (at level 100, k at level 200, right associativity) : py_scope.
Local Open Scope py_scope.

(** [try: body / except <clause 1>: ... / except <clause n>: ...]: the
    first clause whose test accepts the exception handles it; an exception
    no clause accepts, or one raised by a handler, goes on. *)
Fixpoint select_handler {A : Type}
    (handlers : list ((exn -> bool) * (exn -> M A))) (e : exn) : M A :=
  match handlers with
  | [] => raise e
  | (test, handler) :: rest =>
      if test e then handler e else select_handler rest e
  end.

Definition try_except {A : Type} (body : M A)
    (handlers : list ((exn -> bool) * (exn -> M A))) : M A :=
  fun w =>
    match body w with
    | (Ok a, w') => (Ok a, w')
    | (Raise e, w') => select_handler handlers e w'
    end.

(** [try: body / finally: final]: [final] runs on every way out of [body];
    an exception of [final] replaces the outcome of [body]. *)
Definition try_finally {A B : Type} (body : M A) (final : M B) : M (A * B) :=
  fun w =>
    match body w with
    | (r, w') =>
        match final w' with
        | (Raise e, w'') => (Raise e, w'')
        | (Ok b, w'') =>
            match r with
            | Ok a => (Ok (a, b), w'')
            | Raise e => (Raise e, w'')
            end
        end
    end.

(** ** Streams, [print] and the [os] functions *)

Definition get {A : Type} (f : World -> A) : M A := fun w => (Ok (f w), w).

Definition modify (f : World -> World) : M unit := fun w => (Ok tt, f w).

(** [stream.write(s)] on the stream object [h]. *)
Definition stream_write (h : nat) (s : string) : M unit :=
  modify (fun w => set_streams (<[h := getvalue w h +:+ s]> (streams w)) w).

(** [print(s)]: [s] and a line break, on whatever [sys.stdout] is now. *)
Definition print (s : string) : M unit :=
  let* out := get sys_stdout in stream_write out (s +:+ Text.newline).

(** [traceback.print_exc()] while [e] is being handled. *)
Definition print_exc (e : exn) : M unit :=
  let* err := get sys_stderr in stream_write err (format_exc e).

(** [io.StringIO()]: a new, empty stream object, distinct from every
    stream object there is. *)
Definition new_StringIO : M nat :=
  fun w =>
    let h := fresh ({[sys_stdout w; sys_stderr w]} ∪ dom (streams w)
                    ∪ buffers w) in
    (Ok h, set_buffers ({[h]} ∪ buffers w)
             (set_streams (<[h := ""]> (streams w)) w)).

(** [os.getcwd()]; it fails when the working directory is gone. *)
Definition os_getcwd : M ospath :=
  fun w =>
    if is_dir (fs w) (cwd w)
    then (Ok {| absolute := true; parts := cwd w |}, w)
    else (Raise (new_exn FileNotFoundError "[Errno 2] No such file or directory"), w).

(** [os.chdir(p)] *)
Definition os_chdir (p : ospath) : M unit :=
  fun w =>
    if is_dir (fs w) (resolve w p)
    then (Ok tt, set_cwd (resolve w p) w)
    else (Raise (new_exn FileNotFoundError
                   ("[Errno 2] No such file or directory: " +:+ path_str p)), w).

(** [os.path.exists(p)] *)
Definition os_path_exists (p : ospath) : M bool :=
  get (fun w => bool_decide (is_Some (fs w !! resolve w p))).

(** A file name that names a new entry: not empty, not [.] and not [..]. *)
Definition plain_name (name : string) : bool :=
  negb (Text.is_empty name) && negb (String.eqb name ".")
  && negb (String.eqb name "..").

(** [os.mkdir(p)] *)
Definition os_mkdir (p : ospath) : M unit :=
  fun w =>
    let target := resolve w p in
    match fs w !! target with
    | Some _ =>
        (Raise (new_exn FileExistsError
                  ("[Errno 17] File exists: " +:+ path_str p)), w)
    | None =>
        match fs w !! removelast target with
        | Some Dir =>
            if plain_name (List.last (parts p) "")
            then (Ok tt, set_fs (<[target := Dir]> (fs w)) w)
            else (Raise (new_exn FileNotFoundError
                           ("[Errno 2] No such file or directory: " +:+ path_str p)), w)
        | Some (File _) =>
            (Raise (new_exn NotADirectoryError
                      ("[Errno 20] Not a directory: " +:+ path_str p)), w)
        | None =>
            (Raise (new_exn FileNotFoundError
                      ("[Errno 2] No such file or directory: " +:+ path_str p)), w)
        end
    end.

(** [os.makedirs(p)]: the missing parent first (a parent that appeared in
    the meantime is no error), then the leaf.  [depth] bounds the
    recursion on the parents; [os_makedirs] starts it at the number of
    components. *)
Fixpoint makedirs_from (depth : nat) (p : ospath) : M unit :=
  match depth with
  | O => os_mkdir p
  | S depth' =>
      let head := {| absolute := absolute p; parts := removelast (parts p) |} in
      (if bool_decide (parts head <> []) then
         let* there := os_path_exists head in
         if there then ret tt
         else try_except (makedirs_from depth' head)
                [(is_FileExistsError, fun _ => ret tt)]
       else ret tt) ;;
      os_mkdir p
  end.

Definition os_makedirs (p : ospath) : M unit :=
  makedirs_from (length (parts p)) p.

(** [shutil.rmtree(p)]: the directory and everything below it.  Access
    rights are no part of the state, so a call that fails for lack of
    them is not among the cases. *)
Definition shutil_rmtree (p : ospath) : M unit :=
  fun w =>
    let target := resolve w p in
    match fs w !! target with
    | Some Dir =>
        (Ok tt, set_fs (filter (fun kv => below target (fst kv) = false) (fs w)) w)
    | Some (File _) =>
        (Raise (new_exn NotADirectoryError
                  ("[Errno 20] Not a directory: " +:+ path_str p)), w)
    | None =>
        (Raise (new_exn FileNotFoundError
                  ("[Errno 2] No such file or directory: " +:+ path_str p)), w)
    end.

(** Opening [p] for writing and writing [content]: the parent has to be a
    directory and [p] must not be one. *)
Definition write_file (p : ospath) (content : string) : M unit :=
  fun w =>
    let target := resolve w p in
    if negb (plain_name (List.last (parts p) "")) || is_dir (fs w) target
    then (Raise (new_exn IsADirectoryError
                   ("[Errno 21] Is a directory: " +:+ path_str p)), w)
    else if is_dir (fs w) (removelast target)
    then (Ok tt, set_fs (<[target := File content]> (fs w)) w)
    else (Raise (new_exn FileNotFoundError
                   ("[Errno 2] No such file or directory: " +:+ path_str p)), w).

(** Opening [p] for reading and reading all of it, as bytes. *)
Definition read_file (p : ospath) : M string :=
  fun w =>
    match fs w !! resolve w p with
    | Some (File content) => (Ok content, w)
    | Some Dir =>
        (Raise (new_exn IsADirectoryError
                  ("[Errno 21] Is a directory: " +:+ path_str p)), w)
    | None =>
        (Raise (new_exn FileNotFoundError
                  ("[Errno 2] No such file or directory: " +:+ path_str p)), w)
    end.

(** [p] under the new name, when it lies at or below [src]. *)
Definition renamed (src dst p : path) : path :=
  if below src p then dst ++ drop (length src) p else p.

(** [d] names nothing but, at most, itself. *)
Definition nothing_below (f : gmap path node) (d : path) : bool :=
  forallb (fun kv => negb (below d (fst kv)) || bool_decide (fst kv = d))
    (map_to_list f).

(** [os.rename(src, dst)]: the entry and everything below it get the new
    name, and so does the working directory when it lies there, since the
    process holds the directory and not its name.  A file replaces a
    file, and a directory an empty directory. *)
Definition os_rename (src dst : ospath) : M unit :=
  fun w =>
    let s := resolve w src in
    let d := resolve w dst in
    let names := " -> " +:+ path_str dst in
    match fs w !! s with
    | None =>
        (Raise (new_exn FileNotFoundError
                  ("[Errno 2] No such file or directory: " +:+ path_str src
                   +:+ names)), w)
    | Some entry =>
        if bool_decide (s = d) then (Ok tt, w)
        else if below s d
        then (Raise (new_exn (OtherException "OSError")
                       ("[Errno 22] Invalid argument: " +:+ path_str src
                        +:+ names)), w)
        else if negb (is_dir (fs w) (removelast d))
        then (Raise (new_exn FileNotFoundError
                       ("[Errno 2] No such file or directory: "
                        +:+ path_str src +:+ names)), w)
        else
          let moved :=
            set_cwd (renamed s d (cwd w))
              (set_fs (list_to_map
                         (map (fun kv => (renamed s d (fst kv), snd kv))
                            (List.filter
                               (fun kv => negb (bool_decide (fst kv = d)))
                               (map_to_list (fs w))))) w) in
          match entry, fs w !! d with
          | _, None => (Ok tt, moved)
          | File _, Some (File _) => (Ok tt, moved)
          | File _, Some Dir =>
              (Raise (new_exn IsADirectoryError
                        ("[Errno 21] Is a directory: " +:+ path_str src
                         +:+ names)), w)
          | Dir, Some (File _) =>
              (Raise (new_exn NotADirectoryError
                        ("[Errno 20] Not a directory: " +:+ path_str src
                         +:+ names)), w)
          | Dir, Some Dir =>
              if nothing_below (fs w) d then (Ok tt, moved)
              else (Raise (new_exn (OtherException "OSError")
                             ("[Errno 39] Directory not empty: "
                              +:+ path_str src +:+ names)), w)
          end
    end.

(** ** The external collaborators *)

(** A JSON value, as [json.loads] returns it and [jsonify] takes it;
    a number is kept as the text that denotes it. *)
#[warnings="-register-all"]
Inductive json : Type :=
| JNull
| JBool (b : bool)
| JNumber (lexeme : string)
| JString (s : string)
| JArray (items : list json)
| JObject (members : list (string * json)).

(** What a generated script does when it runs, as long as it leaves the
    process alone: it writes to [sys.stdout] and [sys.stderr], changes the
    working directory, creates files and directories, and then completes
    or raises.  A script that binds the streams to other objects, or
    removes or renames a directory, is no list of events: [Unconfined]
    below has the two files for every script. *)
Inductive event : Type :=
| StdoutWrite (s : string)
| StderrWrite (s : string)
| ChangeDir (p : ospath)
| SaveFile (p : ospath) (content : string)
| MakeDir (p : ospath).

Inductive ending : Type :=
| Completes
| Raises (e : exn).

Record behaviour : Type := mk_behaviour {
  events : list event;
  outcome : ending
}.

(** The answer of the generation service. *)
Record GenResponse : Type := mk_GenResponse {
  candidates : list string;
  prompt_feedback : string;
  text : exn + string
}.

Record Env : Type := mk_Env {
  (** [model.generate_content(prompt, request_options=...)] *)
  generate_content : string -> exn + GenResponse;
  (** the Python interpreter on a script, started in a given state *)
  python_exec : string -> World -> behaviour;
  (** [json.loads]: the value, or the message of the [JSONDecodeError] *)
  json_loads : string -> string + json;
  (** the text of a file's bytes, read in text mode as UTF-8 *)
  decode_utf8 : string -> option string
}.

(** ** [agent.py] *)

(** The dictionary [execute_python_code] returns. *)
Record ExecResult : Type := mk_ExecResult {
  stdout : string;
  stderr : string
}.

(** A call whose failure changes nothing and is the script's own business. *)
Definition attempt (m : M unit) : M unit :=
  fun w => (Ok tt, snd (m w)).

Definition perform (ev : event) : M unit :=
  match ev with
  | StdoutWrite s => let* out := get sys_stdout in stream_write out s
  | StderrWrite s => let* err := get sys_stderr in stream_write err s
  | ChangeDir p => attempt (os_chdir p)
  | SaveFile p content => attempt (write_file p content)
  | MakeDir p => attempt (os_mkdir p)
  end.

Fixpoint perform_all (evs : list event) : M unit :=
  match evs with
  | [] => ret tt
  | ev :: evs' => perform ev ;; perform_all evs'
  end.

(** [exec(code, execution_globals)] *)
Definition exec_code (env : Env) (code : string) : M unit :=
  fun w =>
    let b := python_exec env code w in
    (perform_all (events b) ;;
     match outcome b with
     | Completes => ret tt
     | Raises e => raise e
     end) w.

Definition execute_python_code (env : Env) (code : string) : M ExecResult :=
  let* old_stdout := get sys_stdout in
  let* old_stderr := get sys_stderr in
  let* new_stdout := new_StringIO in
  let* new_stderr := new_StringIO in
  modify (set_std new_stdout new_stderr) ;;
  let* (_, (captured_stdout, captured_stderr)) :=
    try_finally
      (try_except (exec_code env code)
         [(is_Exception,
           fun e =>
             let tb_string := format_exc e in
             let* err := get sys_stderr in
             stream_write err tb_string)])
      (let* out := get sys_stdout in
       let* captured_stdout := get (fun w => getvalue w out) in
       let* err := get sys_stderr in
       let* captured_stderr := get (fun w => getvalue w err) in
       modify (set_std old_stdout old_stderr) ;;
       ret (captured_stdout, captured_stderr)) in
  ret {| stdout := captured_stdout; stderr := captured_stderr |}.

Record DataAnalystAgent : Type := mk_DataAnalystAgent {
  api_key : string;
  work_dir : ospath
}.

(** The prompt of [run], around the file list and the question. *)
Definition build_prompt (file_list_str question : string) : string :=
  Text.join Text.newline [
    "You are an expert Python data analyst. Your task is to write a single, self-contained Python script to answer the user's request.";
    "";
    "User's files available in the current directory: [" +:+ file_list_str +:+ "]";
    "User's request:";
    "---";
    question;
    "---";
    "";
    "CRITICAL INSTRUCTIONS:";
    "1.  Your output MUST be a single Python script wrapped in ```python ... ```.";
    "2.  **MATPLOTLIB SETUP:** If you need to generate a plot, the first three lines of your script MUST be exactly:";
    "    ```python";
    "    import matplotlib";
    "    matplotlib.use('Agg')";
    "    import matplotlib.pyplot as plt";
    "    ```";
    "    This prevents server errors.";
    "3.  **PLOT GENERATION:** The script must generate plots, save them to an in-memory buffer (`io.BytesIO`), encode them to a base64 string, and format as a data URI (`data:image/png;base64,...`).";
    "4.  **FINAL OUTPUT:** The **very last line of your script** MUST be a single `print()` statement that outputs a valid JSON array or object containing all the answers. Convert numpy types (like np.int64) to standard Python types (int, float) before creating the JSON.";
    "";
    "Example of a final line for a script requesting a number, a string, and a plot:";
    "`print(json.dumps([int(some_numpy_number), " +:+ Text.dquote +:+ "some_string"
      +:+ Text.dquote +:+ ", plot_data_uri]))`";
    ""
  ].

(** Raising what a library call raised, or going on with what it returned. *)
Definition call {A : Type} (r : exn + A) : M A :=
  match r with
  | inl e => raise e
  | inr a => ret a
  end.

(** Lines 90-106 of [run]: ask the service for a script and extract it. *)
Definition generate_script (env : Env) (prompt : string) : M string :=
  print "Calling Gemini API to generate Python script..." ;;
  let* response := call (generate_content env prompt) in
  (if bool_decide (candidates response = [])
   then raise (new_exn ValueError
                 ("API call failed: The request was likely blocked. Feedback: "
                  +:+ prompt_feedback response))
   else ret tt) ;;
  let* code_to_execute := call (text response) in
  let code_to_execute := extract_code code_to_execute in
  print ("--- Agent Generated This Script ---" +:+ Text.newline
         +:+ code_to_execute +:+ Text.newline
         +:+ "-----------------------------------") ;;
  ret code_to_execute.

(** Lines 112-125 of [run]: decide on the captured output. *)
Definition check_result (env : Env) (result : ExecResult) : M string :=
  (if Text.contains "Traceback" (stderr result)
   then raise (new_exn PlainException
                 ("Error during Python script execution: " +:+ stderr result))
   else ret tt) ;;
  let final_json_output := Text.strip (stdout result) in
  (if Text.is_empty final_json_output
   then
     if negb (Text.is_empty (stderr result))
     then raise (new_exn ValueError
                   ("The generated script did not print any output. Warnings: "
                    +:+ stderr result))
     else raise (new_exn ValueError
                   "The generated script did not print any output.")
   else ret tt) ;;
  match json_loads env final_json_output with
  | inl msg => raise (new_exn JSONDecodeError msg)
  | inr _ =>
      print "SUCCESS: Script produced valid JSON output." ;;
      ret final_json_output
  end.

(** The [try] block of [run]. *)
Definition run_try (env : Env) (prompt : string) : M string :=
  let* code_to_execute := generate_script env prompt in
  let* result := execute_python_code env code_to_execute in
  check_result env result.

(** The two [except] clauses of [run]: both log and raise again. *)
Definition run_handlers : list ((exn -> bool) * (exn -> M string)) :=
  [(is_api_timeout,
    fun e =>
      print ("API Timeout/RetryError: The service is likely overloaded. "
             +:+ exn_msg e) ;;
      raise e);
   (is_Exception,
    fun e =>
      print ("An unexpected error occurred in agent.run: " +:+ exn_msg e) ;;
      print_exc e ;;
      raise e)].

(** The [try] block of [run] under its [except] clauses. *)
Definition run_guarded (env : Env) (prompt : string) : M string :=
  try_except (run_try env prompt) run_handlers.

(** [", ".join(files) if files else "No files were uploaded."] *)
Definition file_list_str (files : list string) : string :=
  match files with
  | [] => "No files were uploaded."
  | _ => Text.join ", " files
  end.

(** [DataAnalystAgent.run] *)
Definition run (env : Env) (self : DataAnalystAgent)
    (question : string) (files : list string) : M string :=
  let* original_dir := os_getcwd in
  os_chdir (work_dir self) ;;
  let prompt := build_prompt (file_list_str files) question in
  let* (answer, _) :=
    try_finally (run_guarded env prompt) (os_chdir original_dir) in
  ret answer.

(** ** [app.py] *)

(** [request.files]: the uploaded parts in order, each the name of its
    form field and its bytes. *)
Definition Files : Type := list (string * string).

(** ['name' in request.files] *)
Definition has_part (name : string) (files : Files) : bool :=
  existsb (fun part => String.eqb (fst part) name) files.

(** [request.files.items()]: one pair per field name, with the first part
    of that name; [seen] are the names already yielded. *)
Fixpoint items_from (seen : list string) (files : Files) : Files :=
  match files with
  | [] => []
  | part :: rest =>
      if existsb (String.eqb (fst part)) seen
      then items_from seen rest
      else part :: items_from (fst part :: seen) rest
  end.

Definition items (files : Files) : Files := items_from [] files.

(** What the view returns: the value given to [jsonify] and the status. *)
Record Response : Type := mk_Response {
  status : nat;
  body : json
}.

Definition error_body (msg : string) : json :=
  JObject [("error", JString msg)].

Definition error_details_body (msg details : string) : json :=
  JObject [("error", JString msg); ("details", JString details)].

(** [os.path.join(temp, request_id)]: the scratch directory of a request. *)
Definition scratch (request_id : string) : ospath :=
  path_join (relative ["temp"]) request_id.

(** The loop of lines 41-46: save every part under its base name and
    collect the names that are not the question file. *)
Fixpoint save_uploads (temp_dir : ospath) (parts_left : Files)
    (uploaded_files : list string) : M (list string) :=
  match parts_left with
  | [] => ret uploaded_files
  | (filename, file_storage) :: rest =>
      let sanitized_filename := Text.basename filename in
      let file_path := path_join temp_dir sanitized_filename in
      write_file file_path file_storage ;;
      save_uploads temp_dir rest
        (if negb (String.eqb sanitized_filename "questions.txt")
         then uploaded_files ++ [sanitized_filename]
         else uploaded_files)
  end.

(** The [try] block of the view (lines 40-57). *)
Definition handle_try (env : Env) (key : string) (temp_dir : ospath)
    (files : Files) : M Response :=
  let* uploaded_files := save_uploads temp_dir (items files) [] in
  let question_path := path_join temp_dir "questions.txt" in
  let* raw := read_file question_path in
  let* question_content :=
    match decode_utf8 env raw with
    | Some t => ret t
    | None => raise (new_exn UnicodeDecodeError
                       "'utf-8' codec can't decode bytes")
    end in
  let agent := {| api_key := key; work_dir := temp_dir |} in
  let* result_json_str := run env agent question_content uploaded_files in
  let* response_data :=
    match json_loads env result_json_str with
    | inl msg => raise (new_exn JSONDecodeError msg)
    | inr v => ret v
    end in
  print "Successfully processed request. Sending JSON response." ;;
  ret {| status := 200; body := response_data |}.

(** The two [except] clauses of the view: both answer with an error
    envelope. *)
Definition handle_handlers (request_id : string)
    : list ((exn -> bool) * (exn -> M Response)) :=
  [(is_api_timeout,
    fun e =>
      print ("API Timeout/RetryError for request " +:+ request_id +:+ ": "
             +:+ exn_msg e) ;;
      ret {| status := 503;
             body := error_details_body
               "The analysis service API is currently overloaded or the request timed out."
               (exn_msg e) |});
   (is_Exception,
    fun e =>
      print ("An unexpected internal error occurred for request "
             +:+ request_id +:+ ": " +:+ exn_msg e) ;;
      print_exc e ;;
      ret {| status := 500;
             body := error_details_body "An internal server error occurred."
                       (exn_msg e) |})].

(** The [finally] clause of the view (lines 71-74). *)
Definition cleanup (temp_dir : ospath) : M unit :=
  let* there := os_path_exists temp_dir in
  if there then
    shutil_rmtree temp_dir ;;
    print ("Cleaned up temporary directory: " +:+ path_str temp_dir)
  else ret tt.

(** [handle_analysis_request], for the configured key [GOOGLE_API_KEY]
    ([None] when the variable is not set), the identifier [uuid.uuid4()]
    hands out, and the parts of the request. *)
Definition handle_analysis_request (env : Env)
    (GOOGLE_API_KEY : option string) (request_id : string)
    (files : Files) : M Response :=
  print "Received a new request to /api/" ;;
  match GOOGLE_API_KEY with
  | None | Some EmptyString =>
      print "ERROR: GOOGLE_API_KEY is not set." ;;
      ret {| status := 500;
             body := error_body "API key is not configured on the server." |}
  | Some key =>
      if negb (has_part "questions.txt" files)
      then ret {| status := 400;
                  body := error_body "'questions.txt' is a required file part." |}
      else
        let temp_dir := scratch request_id in
        os_makedirs temp_dir ;;
        print ("Created temporary directory: " +:+ path_str temp_dir) ;;
        let* (response, _) :=
          try_finally
            (try_except (handle_try env key temp_dir files)
               (handle_handlers request_id))
            (cleanup temp_dir) in
        ret response
  end.

(** ** A reference decoder for JSON texts

    The grammar [json.loads] accepts, used where an environment has to be
    concrete: values between optional blanks, with the constants [NaN],
    [Infinity] and [-Infinity] among the numbers.  A string is kept as it
    is written between its quotes, and the message of a failure is cut
    down to its first words. *)

Module RefJson.

Definition is_ws (c : ascii) : bool :=
  let n := nat_of_ascii c in
  (n =? 32) || (n =? 9) || (n =? 10) || (n =? 13).

Definition is_digit (c : ascii) : bool :=
  let n := nat_of_ascii c in (48 <=? n) && (n <=? 57).

Definition is_hex (c : ascii) : bool :=
  let n := nat_of_ascii c in
  is_digit c || ((65 <=? n) && (n <=? 70)) || ((97 <=? n) && (n <=? 102)).

Fixpoint skip_ws (s : string) : string :=
  match s with
  | String c s' => if is_ws c then skip_ws s' else s
  | EmptyString => s
  end.

(** The longest run of digits at the start of [s], and what follows. *)
Fixpoint digits (s : string) : string * string :=
  match s with
  | String c s' =>
      if is_digit c
      then let (d, rest) := digits s' in (String c d, rest)
      else (EmptyString, s)
  | EmptyString => (EmptyString, s)
  end.

(** An optional part that needs at least one digit after its [lead]. *)
Definition digits_after (lead s : string) : string * string :=
  if Text.startswith lead s then
    match digits (Text.skip (String.length lead) s) with
    | (EmptyString, _) => (EmptyString, s)
    | (d, rest) => (lead +:+ d, rest)
    end
  else (EmptyString, s).

Definition exponent (s : string) : string * string :=
  match s with
  | String c s' =>
      if Ascii.eqb c "e" || Ascii.eqb c "E" then
        match digits_after "+" s', digits_after "-" s', digits s' with
        | (String a p, rest), _, _ => (String c (String a p), rest)
        | _, (String a p, rest), _ => (String c (String a p), rest)
        | _, _, (String a p, rest) => (String c (String a p), rest)
        | _, _, _ => (EmptyString, s)
        end
      else (EmptyString, s)
  | EmptyString => (EmptyString, s)
  end.

(** A number: sign, integer part without leading zero, fraction, exponent. *)
Definition number (s : string) : option (string * string) :=
  let (sign, s1) :=
    if Text.startswith "-" s then ("-", Text.skip 1 s) else ("", s) in
  match s1 with
  | String c s2 =>
      if is_digit c then
        let (int, s3) :=
          if Ascii.eqb c "0" then ("0", s2)
          else let (d, rest) := digits s2 in (String c d, rest) in
        let (frac, s4) := digits_after "." s3 in
        let (exp, s5) := exponent s4 in
        Some (sign +:+ int +:+ frac +:+ exp, s5)
      else None
  | EmptyString => None
  end.

(** The inside of a string, after the opening quote, up to the closing one. *)
Fixpoint string_body (s : string) : option (string * string) :=
  match s with
  | EmptyString => None
  | String c s' =>
      if Ascii.eqb c (ascii_of_nat 34) then Some (EmptyString, s')
      else if Ascii.eqb c (ascii_of_nat 92) then
        match s' with
        | String e s'' =>
            if Ascii.eqb e "u" then
              match s'' with
              | String h1 (String h2 (String h3 (String h4 _))) =>
                  if is_hex h1 && is_hex h2 && is_hex h3 && is_hex h4 then
                    match string_body s'' with
                    | Some (b, rest) => Some (String c (String e b), rest)
                    | None => None
                    end
                  else None
              | _ => None
              end
            else if Text.contains (String e EmptyString)
                      (String (ascii_of_nat 34) (String (ascii_of_nat 92) "/bfnrt"))
            then
              match string_body s'' with
              | Some (b, rest) => Some (String c (String e b), rest)
              | None => None
              end
            else None
        | EmptyString => None
        end
      else if nat_of_ascii c <? 32 then None
      else
        match string_body s' with
        | Some (b, rest) => Some (String c b, rest)
        | None => None
        end
  end.

(** The items of an array after its opening bracket and a first value
    position: values separated by commas, up to the closing bracket. *)
Fixpoint elements (value : string -> option (json * string)) (fuel : nat)
    (s : string) : option (list json * string) :=
  match fuel with
  | O => None
  | S fuel' =>
      match value s with
      | None => None
      | Some (v, rest) =>
          match skip_ws rest with
          | String c rest' =>
              if Ascii.eqb c "," then
                match elements value fuel' (skip_ws rest') with
                | Some (vs, rest'') => Some (v :: vs, rest'')
                | None => None
                end
              else if Ascii.eqb c "]" then Some ([v], rest')
              else None
          | EmptyString => None
          end
      end
  end.

(** The members of an object: quoted names, colons and values, separated
    by commas, up to the closing brace. *)
Fixpoint members (value : string -> option (json * string)) (fuel : nat)
    (s : string) : option (list (string * json) * string) :=
  match fuel with
  | O => None
  | S fuel' =>
      match s with
      | String q s1 =>
          if Ascii.eqb q (ascii_of_nat 34) then
            match string_body s1 with
            | None => None
            | Some (name, s2) =>
                match skip_ws s2 with
                | String colon s3 =>
                    if Ascii.eqb colon ":" then
                      match value (skip_ws s3) with
                      | None => None
                      | Some (v, s4) =>
                          match skip_ws s4 with
                          | String c s5 =>
                              if Ascii.eqb c "," then
                                match members value fuel' (skip_ws s5) with
                                | Some (ms, s6) => Some ((name, v) :: ms, s6)
                                | None => None
                                end
                              else if Ascii.eqb c "}" then Some ([(name, v)], s5)
                              else None
                          | EmptyString => None
                          end
                      end
                    else None
                | EmptyString => None
                end
            end
          else None
      | EmptyString => None
      end
  end.

(** One value at the start of [s], and what follows it. *)
Fixpoint value (fuel : nat) (s : string) : option (json * string) :=
  match fuel with
  | O => None
  | S fuel' =>
      match s with
      | EmptyString => None
      | String c s' =>
          if Ascii.eqb c (ascii_of_nat 34) then
            match string_body s' with
            | Some (b, rest) => Some (JString b, rest)
            | None => None
            end
          else if Ascii.eqb c "[" then
            match skip_ws s' with
            | String d rest =>
                if Ascii.eqb d "]" then Some (JArray [], rest)
                else
                  match elements (value fuel') fuel' (skip_ws s') with
                  | Some (vs, rest') => Some (JArray vs, rest')
                  | None => None
                  end
            | EmptyString => None
            end
          else if Ascii.eqb c "{" then
            match skip_ws s' with
            | String d rest =>
                if Ascii.eqb d "}" then Some (JObject [], rest)
                else
                  match members (value fuel') fuel' (skip_ws s') with
                  | Some (ms, rest') => Some (JObject ms, rest')
                  | None => None
                  end
            | EmptyString => None
            end
          else if Text.startswith "null" s then Some (JNull, Text.skip 4 s)
          else if Text.startswith "true" s then Some (JBool true, Text.skip 4 s)
          else if Text.startswith "false" s then Some (JBool false, Text.skip 5 s)
          else if Text.startswith "NaN" s then Some (JNumber "NaN", Text.skip 3 s)
          else if Text.startswith "Infinity" s
          then Some (JNumber "Infinity", Text.skip 8 s)
          else if Text.startswith "-Infinity" s
          then Some (JNumber "-Infinity", Text.skip 9 s)
          else
            match number s with
            | Some (lexeme, rest) => Some (JNumber lexeme, rest)
            | None => None
            end
      end
  end.

(** [json.loads(s)]: one value between blanks and nothing else. *)
Definition loads (s : string) : string + json :=
  match value (S (String.length s)) (skip_ws s) with
  | Some (v, rest) =>
      match skip_ws rest with
      | EmptyString => inr v
      | String _ _ => inl "Extra data"
      end
  | None => inl "Expecting value"
  end.

(** [json.dumps(v)], with its default separators. *)
Fixpoint dumps (v : json) : string :=
  match v with
  | JNull => "null"
  | JBool true => "true"
  | JBool false => "false"
  | JNumber lexeme => lexeme
  | JString b => Text.dquote +:+ b +:+ Text.dquote
  | JArray vs => "[" +:+ Text.join ", " (map dumps vs) +:+ "]"
  | JObject ms =>
      "{" +:+ Text.join ", "
                (map (fun m => Text.dquote +:+ fst m +:+ Text.dquote +:+ ": "
                               +:+ dumps (snd m)) ms) +:+ "}"
  end.

End RefJson.

(** ** Views of a run used to state the properties *)

(** What a script wrote to [sys.stdout], in order. *)
Fixpoint written_out (evs : list event) : string :=
  match evs with
  | [] => ""
  | StdoutWrite s :: evs' => s +:+ written_out evs'
  | _ :: evs' => written_out evs'
  end.

(** What a script wrote to [sys.stderr], in order. *)
Fixpoint written_err (evs : list event) : string :=
  match evs with
  | [] => ""
  | StderrWrite s :: evs' => s +:+ written_err evs'
  | _ :: evs' => written_err evs'
  end.

(** The state in which [execute_python_code] hands the script to the
    interpreter: two new streams in place of [sys.stdout], [sys.stderr]. *)
Definition redirected (w : World) : World :=
  snd ((let* new_stdout := new_StringIO in
        let* new_stderr := new_StringIO in
        modify (set_std new_stdout new_stderr)) w).

(** [run] from its first line to the execution result of line 108. *)
Definition run_to_result (env : Env) (self : DataAnalystAgent)
    (question : string) (files : list string) : M ExecResult :=
  os_getcwd ;;
  os_chdir (work_dir self) ;;
  let* code_to_execute :=
    generate_script env (build_prompt (file_list_str files) question) in
  execute_python_code env code_to_execute.

(** The view up to its [try] statement, for a configured key and a request
    with its question part (lines 27-37). *)
Definition handle_prefix (request_id : string) : M unit :=
  print "Received a new request to /api/" ;;
  os_makedirs (scratch request_id) ;;
  print ("Created temporary directory: " +:+ path_str (scratch request_id)).

(** The [try] block of the view under its [except] clauses. *)
Definition handle_guarded (env : Env) (key request_id : string)
    (files : Files) : M Response :=
  try_except (handle_try env key (scratch request_id) files)
    (handle_handlers request_id).



(** [GOOGLE_API_KEY] is set and not empty. *)
Definition configured (key : option string) : bool :=
  match key with
  | None | Some EmptyString => false
  | Some _ => true
  end.

(** What follows the first fence of [s]. *)
Fixpoint after_fence (s : string) : option string :=
  match s with
  | EmptyString => None
  | String c s' =>
      if Text.startswith "```" s then Some (Text.skip 3 s)
      else after_fence s'
  end.

(** What precedes the first fence of [s]. *)
Fixpoint before_fence (s : string) : option string :=
  match s with
  | EmptyString => None
  | String c s' =>
      if Text.startswith "```" s then Some EmptyString
      else match before_fence s' with
           | Some b => Some (String c b)
           | None => None
           end
  end.

(** Code extraction as the specification words it: the inner text of the
    first fenced block, that is the text between the first fence and the
    next fence after it, without a [python] tag, trimmed. *)
Definition spec_first_block (response_text : string) : option string :=
  match after_fence response_text with
  | None => None
  | Some rest =>
      match before_fence rest with
      | None => None
      | Some inner =>
          Some (Text.strip (if Text.startswith "python" inner
                            then Text.skip 6 inner else inner))
      end
  end.


(** The module-level statements of [app.py] (lines 18-19): make [temp]
    unless something of that name exists. *)
Definition startup : M unit :=
  let* there := os_path_exists (relative ["temp"]) in
  if negb there then os_makedirs (relative ["temp"]) else ret tt.

(** ** The two files when the script may do anything

    [exec(code, execution_globals)] runs the script inside the server
    process, with the rights of the process: the script can bind
    [sys.stdout] and [sys.stderr] to other objects, and rename or remove
    any directory.  An [event] says none of that.  Below, the interpreter
    is any statement on the process state, and [getvalue] is the method
    of [io.StringIO] objects only; everything else is as above, and on the
    interpreter [exec_code env] the functions below are the functions
    above. *)

Module Unconfined.

Definition interpreter : Type := string -> M unit.

(** [stream.getvalue()]: an open [io.StringIO] object returns its text;
    on anything else the call fails, here with the exception of a stream
    of the process, which has no such method. *)
Definition no_getvalue : exn :=
  new_exn (OtherException "AttributeError")
    "'_io.TextIOWrapper' object has no attribute 'getvalue'".

Definition stream_getvalue (h : nat) : M string :=
  fun w =>
    if bool_decide (h ∈ buffers w)
    then (Ok (getvalue w h), w)
    else (Raise no_getvalue, w).

(** The [try] statement round [exec] (lines 30-34). *)
Definition script_guarded (exec : interpreter) (code : string) : M unit :=
  try_except (exec code)
    [(is_Exception,
      fun e =>
        let tb_string := format_exc e in
        let* err := get sys_stderr in
        stream_write err tb_string)].

Definition execute_python_code (exec : interpreter) (code : string)
    : M ExecResult :=
  let* old_stdout := get sys_stdout in
  let* old_stderr := get sys_stderr in
  let* new_stdout := new_StringIO in
  let* new_stderr := new_StringIO in
  modify (set_std new_stdout new_stderr) ;;
  let* (_, (captured_stdout, captured_stderr)) :=
    try_finally
      (try_except (exec code)
         [(is_Exception,
           fun e =>
             let tb_string := format_exc e in
             let* err := get sys_stderr in
             stream_write err tb_string)])
      (let* out := get sys_stdout in
       let* captured_stdout := stream_getvalue out in
       let* err := get sys_stderr in
       let* captured_stderr := stream_getvalue err in
       modify (set_std old_stdout old_stderr) ;;
       ret (captured_stdout, captured_stderr)) in
  ret {| stdout := captured_stdout; stderr := captured_stderr |}.

(** The [try] block of [run]. *)
Definition run_try (env : Env) (exec : interpreter) (prompt : string)
    : M string :=
  let* code_to_execute := generate_script env prompt in
  let* result := execute_python_code exec code_to_execute in
  check_result env result.

(** The [try] block of [run] under its [except] clauses. *)
Definition run_guarded (env : Env) (exec : interpreter) (prompt : string)
    : M string :=
  try_except (run_try env exec prompt) run_handlers.

(** [DataAnalystAgent.run] *)
Definition run (env : Env) (exec : interpreter) (self : DataAnalystAgent)
    (question : string) (files : list string) : M string :=
  let* original_dir := os_getcwd in
  os_chdir (work_dir self) ;;
  let prompt := build_prompt (file_list_str files) question in
  let* (answer, _) :=
    try_finally (run_guarded env exec prompt) (os_chdir original_dir) in
  ret answer.

(** The [try] block of the view (lines 40-57). *)
Definition handle_try (env : Env) (exec : interpreter) (key : string)
    (temp_dir : ospath) (files : Files) : M Response :=
  let* uploaded_files := save_uploads temp_dir (items files) [] in
  let question_path := path_join temp_dir "questions.txt" in
  let* raw := read_file question_path in
  let* question_content :=
    match decode_utf8 env raw with
    | Some t => ret t
    | None => raise (new_exn UnicodeDecodeError
                       "'utf-8' codec can't decode bytes")
    end in
  let agent := {| api_key := key; work_dir := temp_dir |} in
  let* result_json_str := run env exec agent question_content uploaded_files in
  let* response_data :=
    match json_loads env result_json_str with
    | inl msg => raise (new_exn JSONDecodeError msg)
    | inr v => ret v
    end in
  print "Successfully processed request. Sending JSON response." ;;
  ret {| status := 200; body := response_data |}.

(** The [try] block of the view under its [except] clauses. *)
Definition handle_guarded (env : Env) (exec : interpreter)
    (key request_id : string) (files : Files) : M Response :=
  try_except (handle_try env exec key (scratch request_id) files)
    (handle_handlers request_id).

(** [handle_analysis_request] *)
Definition handle_analysis_request (env : Env) (exec : interpreter)
    (GOOGLE_API_KEY : option string) (request_id : string)
    (files : Files) : M Response :=
  print "Received a new request to /api/" ;;
  match GOOGLE_API_KEY with
  | None | Some EmptyString =>
      print "ERROR: GOOGLE_API_KEY is not set." ;;
      ret {| status := 500;
             body := error_body "API key is not configured on the server." |}
  | Some key =>
      if negb (has_part "questions.txt" files)
      then ret {| status := 400;
                  body := error_body "'questions.txt' is a required file part." |}
      else
        let temp_dir := scratch request_id in
        os_makedirs temp_dir ;;
        print ("Created temporary directory: " +:+ path_str temp_dir) ;;
        let* (response, _) :=
          try_finally
            (try_except (handle_try env exec key temp_dir files)
               (handle_handlers request_id))
            (cleanup temp_dir) in
        ret response
  end.

(** The state in which the [finally] clause of the view starts, for a
    configured key and a request with its question part. *)
Definition before_cleanup (env : Env) (exec : interpreter)
    (key request_id : string) (files : Files) (w : World) : World :=
  snd (handle_guarded env exec key request_id files
         (snd (handle_prefix request_id w))).

(** The state in which the [finally] clause of [run] starts. *)
Definition before_chdir_back (env : Env) (exec : interpreter)
    (self : DataAnalystAgent) (question : string) (files : list string)
    (w : World) : World :=
  snd (run_guarded env exec (build_prompt (file_list_str files) question)
         (set_cwd (resolve w (work_dir self)) w)).

(** The state in which the script ends, started by
    [execute_python_code] in the state [w]. *)
Definition after_script (exec : interpreter) (code : string) (w : World)
    : World :=
  snd (exec code (redirected w)).

End Unconfined.

(** ** What a statement leaves as it was *)

(** Every directory is still a directory afterwards. *)
Definition dirs_kept (w w' : World) : Prop :=
  forall p, is_dir (fs w) p = true -> is_dir (fs w') p = true.

(** The working directory is the same afterwards. *)
Definition cwd_kept (w w' : World) : Prop := cwd w' = cwd w.

(** The file system is the same afterwards. *)
Definition fs_kept (w w' : World) : Prop := fs w' = fs w.

(** [sys.stdout] and [sys.stderr] are the same objects afterwards. *)
Definition std_kept (w w' : World) : Prop :=
  sys_stdout w' = sys_stdout w /\ sys_stderr w' = sys_stderr w.

(** The stream objects hold what they held. *)
Definition streams_kept (w w' : World) : Prop := streams w' = streams w.

(** The [io.StringIO] objects are the same afterwards. *)
Definition buffers_kept (w w' : World) : Prop := buffers w' = buffers w.

(** The statement [m] does not look at the stream objects: with other
    streams it ends the same way and leaves the same files. *)
Definition stream_blind {A : Type} (m : M A) : Prop :=
  forall (s : gmap nat string) (w : World),
    m (set_streams s w) = (fst (m w), set_streams s (snd (m w))).

(** The statement [m] relates every state to the state it leaves by [R]. *)
Definition preserves {A : Type} (R : relation World) (m : M A) : Prop :=
  forall w, R w (snd (m w)).

#[local] Instance dirs_kept_preorder : PreOrder dirs_kept.
Proof. split; [intros w p H; exact H | intros x y z H1 H2 p H; exact (H2 p (H1 p H))]. Qed.

#[local] Instance cwd_kept_preorder : PreOrder cwd_kept.
Proof. split; [intros w; reflexivity | intros x y z H1 H2; unfold cwd_kept in *; congruence]. Qed.

#[local] Instance fs_kept_preorder : PreOrder fs_kept.
Proof. split; [intros w; reflexivity | intros x y z H1 H2; unfold fs_kept in *; congruence]. Qed.

#[local] Instance std_kept_preorder : PreOrder std_kept.
Proof.
  split; [intros w; split; reflexivity|].
  intros x y z [H1 H2] [H3 H4]. split; congruence.
Qed.

#[local] Instance streams_kept_preorder : PreOrder streams_kept.
Proof.
  split; [intros w; reflexivity|].
  intros x y z H1 H2. unfold streams_kept in *. congruence.
Qed.

#[local] Instance buffers_kept_preorder : PreOrder buffers_kept.
Proof.
  split; [intros w; reflexivity|].
  intros x y z H1 H2. unfold buffers_kept in *. congruence.
Qed.

(** ** Concrete environments and states *)

Module Demo.

Definition nl : string := Text.newline.

(** A server started in [/srv], printing to the streams 0 and 1. *)
Definition world : World :=
  {| fs := {[ [] := Dir; ["srv"] := Dir ]};
     cwd := ["srv"];
     sys_stdout := 0;
     sys_stderr := 1;
     streams := ∅;
     buffers := ∅ |}.

(** The same server with the scratch directory [temp/r1] in place. *)
Definition world_with_scratch : World :=
  set_fs (<[ ["srv"; "temp"; "r1"] := Dir ]>
            (<[ ["srv"; "temp"] := Dir ]> (fs world))) world.

Definition syntax_error : exn :=
  {| exn_class := OtherException "SyntaxError";
     exn_msg := "invalid syntax";
     exn_frames := "" |}.

(** The service answers with [script] in a fenced block; the interpreter
    does [b] on [script] and rejects any other text. *)
Definition env (script : string) (b : behaviour) : Env :=
  {| generate_content := fun _ =>
       inr {| candidates := ["candidate"];
              prompt_feedback := "";
              text := inr ("Here is the script:" +:+ nl +:+ "```python" +:+ nl
                           +:+ script +:+ nl +:+ "```" +:+ nl) |};
     python_exec := fun code _ =>
       if String.eqb code script then b
       else {| events := []; outcome := Raises syntax_error |};
     json_loads := RefJson.loads;
     decode_utf8 := Some |}.

(** The service does not answer in time. *)
Definition env_timeout : Env :=
  {| generate_content := fun _ =>
       inl {| exn_class := DeadlineExceeded;
              exn_msg := "504 Deadline Exceeded";
              exn_frames := "" |};
     python_exec := fun _ _ => {| events := []; outcome := Completes |};
     json_loads := RefJson.loads;
     decode_utf8 := Some |}.

Definition agent : DataAnalystAgent :=
  {| api_key := "key"; work_dir := scratch "r1" |}.

Definition request : Files :=
  [("questions.txt", "How many rows are there?"); ("data.csv", "a,b")].

(** A script that prints one JSON array. *)
Definition script_json : string := "print(json.dumps([1, 2]))".
Definition answer : json := JArray [JNumber "1"; JNumber "2"].
Definition prints_json : behaviour :=
  {| events := [StdoutWrite (RefJson.dumps answer +:+ nl)];
     outcome := Completes |}.


(** A script that prints one JSON array over two lines. *)
Definition script_split : string :=
  "print('[1,')" +:+ nl +:+ "print('2]')".
Definition prints_split : behaviour :=
  {| events := [StdoutWrite ("[1," +:+ nl); StdoutWrite ("2]" +:+ nl)];
     outcome := Completes |}.



Definition silent : behaviour := {| events := []; outcome := Completes |}.


(** A response with two fenced blocks and prose between them. *)
Definition two_blocks : string :=
  "```python" +:+ nl +:+ "x = 1" +:+ nl +:+ "```" +:+ nl
  +:+ "Then run:" +:+ nl
  +:+ "```python" +:+ nl +:+ "y = 2" +:+ nl +:+ "```".

(** The interpreter of a process in which the script [script] does
    [what]; any other text is rejected. *)
Definition interpreter (script : string) (what : M unit)
    : Unconfined.interpreter :=
  fun code => if String.eqb code script then what else raise syntax_error.

(** The service that answers with [script] in a fenced block. *)
Definition service (script : string) : Env := env script silent.

(** A script that prints and then binds [sys.stdout] to the stream of the
    process again. *)
Definition script_rebinds : string :=
  "import sys; print(1); sys.stdout = sys.__stdout__".
Definition rebinds : M unit :=
  print "1" ;;
  modify (fun w => set_std (sys_stdout world) (sys_stderr w) w).
(** A script that gives the directory of the server another name. *)
Definition script_renames : string := "import os; os.rename('/srv', '/old')".
Definition renames : M unit :=
  os_rename {| absolute := true; parts := ["srv"] |}
    {| absolute := true; parts := ["old"] |}.
Definition server_gone : exn :=
  new_exn FileNotFoundError "[Errno 2] No such file or directory: /srv".

(** A script that moves elsewhere and prints its answer. *)
Definition script_moves : string := "import os; os.chdir('/'); print([1])".
Definition moves : M unit :=
  os_chdir {| absolute := true; parts := [] |} ;; print "[1]".

(** A script that puts a file where its scratch directory was. *)
Definition script_replaces : string :=
  "import os, shutil; os.chdir('/'); shutil.rmtree('/srv/temp/r1'); open('/srv/temp/r1', 'w').close()".
Definition replaces : M unit :=
  os_chdir {| absolute := true; parts := [] |} ;;
  shutil_rmtree {| absolute := true; parts := ["srv"; "temp"; "r1"] |} ;;
  write_file {| absolute := true; parts := ["srv"; "temp"; "r1"] |} "".
Definition not_a_directory : exn :=
  new_exn NotADirectoryError "[Errno 20] Not a directory: temp/r1".

End Demo.

(** * Properties *)

#[local] Arguments Ascii.eqb : simpl never.
#[local] Arguments String.eqb : simpl never.
#[local] Arguments Text.isspace : simpl never.

(** ** Text *)

Section TextFacts.

Lemma app_cons (c : ascii) (s t : string) :
  String c s +:+ t = String c (s +:+ t).
Proof. reflexivity. Qed.

Lemma app_empty_l (t : string) : "" +:+ t = t.
Proof. reflexivity. Qed.

Lemma app_empty_r (s : string) : s +:+ "" = s.
Proof.
  induction s as [|c s IH]; [reflexivity|].
  rewrite app_cons, IH. reflexivity.
Qed.

Lemma app_assoc_s (s t u : string) : (s +:+ t) +:+ u = s +:+ (t +:+ u).
Proof.
  induction s as [|c s IH]; [reflexivity|].
  rewrite !app_cons, IH. reflexivity.
Qed.

Lemma length_app_s (s t : string) :
  String.length (s +:+ t) = String.length s + String.length t.
Proof.
  induction s as [|c s IH]; [reflexivity|].
  rewrite app_cons. simpl. rewrite IH. reflexivity.
Qed.

Lemma substring_prefix (s t : string) :
  String.substring 0 (String.length s) (s +:+ t) = s.
Proof.
  induction s as [|c s IH].
  - destruct t; reflexivity.
  - rewrite app_cons. simpl. rewrite IH. reflexivity.
Qed.

Lemma consumed_app (s t : string) : Regex.consumed (s +:+ t) t = s.
Proof.
  unfold Regex.consumed. rewrite length_app_s.
  replace (String.length s + String.length t - String.length t)
    with (String.length s) by lia.
  apply substring_prefix.
Qed.

Lemma backtick_not_space : Text.isspace Text.backtick = false.
Proof. reflexivity. Qed.

Lemma space_or_not_true (c : ascii) : Regex.space_or_not c = true.
Proof. unfold Regex.space_or_not. destruct (Text.isspace c); reflexivity. Qed.

Lemma is_empty_true (s : string) : Text.is_empty s = true <-> s = "".
Proof. destruct s; simpl; split; congruence. Qed.

Lemma is_empty_false (s : string) : Text.is_empty s = false <-> s <> "".
Proof. destruct s; simpl; split; congruence. Qed.

(** Leading whitespace does not survive [strip]. *)
Lemma strip_cons_space (c : ascii) (s : string) :
  Text.isspace c = true -> Text.strip (String c s) = Text.strip s.
Proof. intros H. unfold Text.strip. simpl. rewrite H. reflexivity. Qed.

Lemma strip_space_only (c : ascii) :
  Text.isspace c = true -> Text.strip (String c "") = "".
Proof. intros H. rewrite strip_cons_space by exact H. reflexivity. Qed.

Lemma startswith_app (p s : string) : Text.startswith p (p +:+ s) = true.
Proof.
  induction p as [|c p IH]; [reflexivity|].
  rewrite app_cons. simpl. rewrite Ascii.eqb_refl. exact IH.
Qed.

Lemma skip_app (p s : string) : Text.skip (String.length p) (p +:+ s) = s.
Proof.
  induction p as [|c p IH]; [destruct s; reflexivity|].
  rewrite app_cons. simpl. exact IH.
Qed.

(** A text without backticks has no fence, also behind two backticks. *)
Lemma no_backtick_no_fence (s : string) :
  Text.no_backtick s = true -> Text.contains "```" s = false.
Proof.
  induction s as [|c s IH]; [reflexivity|].
  simpl. intros [Hc Hs]%andb_true_iff. unfold Text.backtick in *.
  rewrite (IH Hs). apply negb_true_iff in Hc. rewrite Ascii.eqb_sym in Hc.
  rewrite Hc. reflexivity.
Qed.

Lemma no_fence_behind_backticks (s : string) :
  Text.no_backtick s = true ->
  Text.contains "```" (String Text.backtick (String Text.backtick s)) = false.
Proof.
  intros H. pose proof (no_backtick_no_fence s H) as Hs.
  destruct s as [|c s]; [reflexivity|].
  simpl in H. apply andb_true_iff in H as [Hc _]. unfold Text.backtick in *.
  apply negb_true_iff in Hc. rewrite Ascii.eqb_sym in Hc.
  change (Text.contains "```" (String "`" (String "`" (String c s))))
    with (Text.startswith "```" (String "`" (String "`" (String c s)))
          || (Text.startswith "```" (String "`" (String c s))
              || Text.contains "```" (String c s))).
  rewrite Hs. simpl. rewrite Hc. reflexivity.
Qed.

End TextFacts.

(** ** The pattern of [run] *)

Section PatternFacts.

Lemma matches_lit {R : Type} (p s : string) (caps : Regex.captures)
    (k : string -> Regex.captures -> option R) :
  Regex.matches (Regex.lit p) s caps k
  = if Text.startswith p s then k (Text.skip (String.length p) s) caps else None.
Proof.
  revert s caps. induction p as [|c p IH]; intros s caps; simpl.
  - reflexivity.
  - destruct s as [|d s]; [reflexivity|].
    destruct (Ascii.eqb c d); [apply IH | reflexivity].
Qed.

Lemma star_cons {R : Type} (p : ascii -> bool) (c : ascii) (s : string)
    (k : string -> option R) :
  Regex.star p (String c s) k
  = if p c then
      match Regex.star p s k with
      | Some r => Some r
      | None => k (String c s)
      end
    else k (String c s).
Proof. reflexivity. Qed.

(** Where no fence follows, the greedy repetition finds no place to stop. *)
Lemma star_no_fence {R : Type} (p : ascii -> bool) (s : string)
    (mk : string -> Regex.captures)
    (k : string -> Regex.captures -> option R) :
  Text.contains "```" s = false ->
  Regex.star p s (fun s' => Regex.matches (Regex.lit "```") s' (mk s') k) = None.
Proof.
  induction s as [|c s IH]; intros H.
  - reflexivity.
  - change (Text.contains "```" (String c s))
      with (Text.startswith "```" (String c s) || Text.contains "```" s) in H.
    apply orb_false_iff in H as [H1 H2].
    rewrite star_cons, (IH H2), matches_lit, H1.
    destruct (p c); reflexivity.
Qed.

(** The greedy repetition stops at the last fence. *)
Lemma star_last_fence (a post : string) (mk : string -> Regex.captures) :
  Text.contains "```" (String "`" (String "`" post)) = false ->
  Regex.star Regex.space_or_not (a +:+ "```" +:+ post)
    (fun s' => Regex.matches (Regex.lit "```") s' (mk s') Regex.accept)
  = Some (mk ("```" +:+ post)).
Proof.
  intros H. induction a as [|c a IH].
  - rewrite app_empty_l, !app_cons, app_empty_l.
    rewrite star_cons, space_or_not_true.
    rewrite (star_no_fence _ _ mk Regex.accept H).
    rewrite matches_lit. reflexivity.
  - rewrite app_cons, star_cons, space_or_not_true, IH. reflexivity.
Qed.

(** The second group takes everything up to the last fence. *)
Lemma block_body_last_fence (a post : string) (caps : Regex.captures) :
  a <> "" ->
  Text.contains "```" (String "`" (String "`" post)) = false ->
  Regex.matches block_body (a +:+ "```" +:+ post) caps Regex.accept
  = Some ((2, a) :: caps).
Proof.
  intros Ha H. destruct a as [|c a]; [congruence|].
  unfold block_body. cbn [Regex.matches].
  rewrite app_cons, space_or_not_true.
  rewrite (star_last_fence a post
             (fun s' => (2, Regex.consumed (String c (a +:+ "```" +:+ post)) s') :: caps) H).
  rewrite <- app_cons, consumed_app. reflexivity.
Qed.

(** Right at the last fence the second group has nothing to take. *)
Lemma block_body_at_last_fence (post : string) (caps : Regex.captures) :
  Text.contains "```" (String "`" (String "`" post)) = false ->
  Regex.matches block_body ("```" +:+ post) caps Regex.accept = None.
Proof.
  intros H. unfold block_body. cbn [Regex.matches].
  rewrite !app_cons, app_empty_l, space_or_not_true.
  apply (star_no_fence _ _
           (fun s' => (2, Regex.consumed (String "`" (String "`" (String "`" post))) s') :: caps)
           Regex.accept H).
Qed.

(** After the tag, the whitespace is given up only as far as the second
    group needs one character. *)
Lemma tag_then_body (rest post : string) (mk : string -> Regex.captures) :
  rest <> "" ->
  Text.contains "```" (String "`" (String "`" post)) = false ->
  exists cap,
    Regex.star Text.isspace (rest +:+ "```" +:+ post)
      (fun s' => Regex.matches block_body s' (mk s') Regex.accept)
    = Some ((2, cap) :: mk (cap +:+ "```" +:+ post))
    /\ Text.strip cap = Text.strip rest.
Proof.
  intros Hne H. induction rest as [|c rest IH]; [congruence|].
  rewrite app_cons, star_cons, <- app_cons.
  destruct (Text.isspace c) eqn:Hc.
  - destruct rest as [|d rest].
    + exists (String c "").
      assert (Regex.star Text.isspace ("" +:+ "```" +:+ post)
                (fun s' => Regex.matches block_body s' (mk s') Regex.accept)
              = None) as ->.
      { change ("" +:+ "```" +:+ post) with (String "`" ("``" +:+ post)).
        rewrite star_cons. change (Text.isspace "`") with false. cbv iota.
        change (String "`" ("``" +:+ post)) with ("```" +:+ post).
        apply block_body_at_last_fence, H. }
      rewrite (block_body_last_fence (String c "") post _ ltac:(congruence) H).
      split; reflexivity.
    + destruct (IH ltac:(congruence)) as (cap & -> & Hcap).
      exists cap. split; [reflexivity|].
      rewrite Hcap. symmetry. apply strip_cons_space, Hc.
  - exists (String c rest).
    rewrite (block_body_last_fence (String c rest) post _ ltac:(congruence) H).
    split; reflexivity.
Qed.

Lemma startswith_before_backtick (p a b : string) :
  Text.no_backtick p = true ->
  Text.startswith p a = false ->
  Text.startswith p (a +:+ String "`" b) = false.
Proof.
  revert a. induction p as [|x p IH]; intros a Hp Ha; [discriminate|].
  simpl in Hp. apply andb_true_iff in Hp as [Hx Hp].
  apply negb_true_iff in Hx. unfold Text.backtick in Hx.
  destruct a as [|y a].
  - rewrite app_empty_l. simpl. rewrite Hx. reflexivity.
  - rewrite app_cons. simpl in *.
    destruct (Ascii.eqb x y); [apply IH; assumption | reflexivity].
Qed.

(** The pattern at an opening fence that carries the tag. *)
Lemma pattern_tagged (rest post : string) :
  rest <> "" ->
  Text.contains "```" (String "`" (String "`" post)) = false ->
  exists cap caps,
    Regex.matches code_block_pattern
      ("```" +:+ "python" +:+ rest +:+ "```" +:+ post) [] Regex.accept
    = Some ((2, cap) :: caps)
    /\ Text.strip cap = Text.strip rest.
Proof.
  intros Hne H.
  unfold code_block_pattern. cbn [Regex.matches].
  rewrite matches_lit, startswith_app, skip_app.
  unfold language_tag at 1. cbn [Regex.matches].
  rewrite matches_lit, startswith_app, skip_app.
  destruct (tag_then_body rest post
              (fun s' => [(1, Regex.consumed ("python" +:+ rest +:+ "```" +:+ post) s')])
              Hne H) as (cap & -> & Hcap).
  eauto.
Qed.

(** The pattern at an opening fence without the tag. *)
Lemma pattern_plain (inner post : string) :
  inner <> "" ->
  Text.startswith "python" inner = false ->
  Text.contains "```" (String "`" (String "`" post)) = false ->
  Regex.matches code_block_pattern
    ("```" +:+ inner +:+ "```" +:+ post) [] Regex.accept
  = Some [(2, inner)].
Proof.
  intros Hne Htag H.
  unfold code_block_pattern. cbn [Regex.matches].
  rewrite matches_lit, startswith_app, skip_app.
  unfold language_tag at 1. cbn [Regex.matches].
  rewrite matches_lit.
  replace (Text.startswith "python" (inner +:+ "```" +:+ post)) with false.
  - apply block_body_last_fence; assumption.
  - symmetry. rewrite !app_cons.
    apply startswith_before_backtick; [reflexivity | assumption].
Qed.

Lemma search_cons (r : Regex.regex) (c : ascii) (s : string) :
  Regex.search r (String c s)
  = match Regex.matches r (String c s) [] Regex.accept with
    | Some caps => Some caps
    | None => Regex.search r s
    end.
Proof. reflexivity. Qed.

Lemma search_here (r : Regex.regex) (s : string) (caps : Regex.captures) :
  Regex.matches r s [] Regex.accept = Some caps ->
  Regex.search r s = Some caps.
Proof. intros H. destruct s; simpl; rewrite H; reflexivity. Qed.

(** No match starts at a character that is no backtick. *)
Lemma pattern_needs_fence (s : string) :
  Text.startswith "```" s = false ->
  Regex.matches code_block_pattern s [] Regex.accept = None.
Proof.
  intros H. unfold code_block_pattern. cbn [Regex.matches].
  rewrite matches_lit, H. reflexivity.
Qed.

Lemma search_skips_prose (pre t : string) :
  Text.no_backtick pre = true ->
  Regex.search code_block_pattern (pre +:+ t)
  = Regex.search code_block_pattern t.
Proof.
  induction pre as [|c pre IH]; intros H; [reflexivity|].
  simpl in H. apply andb_true_iff in H as [Hc H].
  apply negb_true_iff in Hc. unfold Text.backtick in Hc.
  rewrite app_cons, search_cons, pattern_needs_fence; [apply IH, H|].
  simpl. rewrite Ascii.eqb_sym, Hc. reflexivity.
Qed.

Lemma search_no_fence (s : string) :
  Text.contains "```" s = false ->
  Regex.search code_block_pattern s = None.
Proof.
  induction s as [|c s IH]; intros H; [reflexivity|].
  change (Text.contains "```" (String c s))
    with (Text.startswith "```" (String c s) || Text.contains "```" s) in H.
  apply orb_false_iff in H as [H1 H2].
  rewrite search_cons, (pattern_needs_fence _ H1). apply IH, H2.
Qed.

End PatternFacts.

(** ** What the statements leave as it was *)

Section Preserves.

Context (R : relation World) `{!PreOrder R}.

Lemma preserves_ret {A : Type} (a : A) : preserves R (ret a).
Proof. intros w. reflexivity. Qed.

Lemma preserves_raise {A : Type} (e : exn) : preserves R (@raise A e).
Proof. intros w. reflexivity. Qed.

Lemma preserves_get {A : Type} (f : World -> A) : preserves R (get f).
Proof. intros w. reflexivity. Qed.

Lemma preserves_call {A : Type} (r : exn + A) : preserves R (call r).
Proof. destruct r; [apply preserves_raise | apply preserves_ret]. Qed.

Lemma preserves_bind {A B : Type} (m : M A) (k : A -> M B) :
  preserves R m -> (forall a, preserves R (k a)) -> preserves R (bind m k).
Proof.
  intros Hm Hk w. unfold bind. specialize (Hm w).
  destruct (m w) as [[a|e] w1]; simpl in *.
  - etransitivity; [exact Hm | apply Hk].
  - exact Hm.
Qed.

Lemma preserves_select {A : Type}
    (handlers : list ((exn -> bool) * (exn -> M A))) (e : exn) :
  Forall (fun h => forall e', preserves R (snd h e')) handlers ->
  preserves R (select_handler handlers e).
Proof.
  induction 1 as [|[test handler] rest Hh _ IH]; simpl.
  - apply preserves_raise.
  - destruct (test e); [apply Hh | apply IH].
Qed.

Lemma preserves_try_except {A : Type} (body : M A)
    (handlers : list ((exn -> bool) * (exn -> M A))) :
  preserves R body ->
  Forall (fun h => forall e', preserves R (snd h e')) handlers ->
  preserves R (try_except body handlers).
Proof.
  intros Hb Hh w. unfold try_except. specialize (Hb w).
  destruct (body w) as [[a|e] w1]; simpl in *; [exact Hb|].
  etransitivity; [exact Hb | apply preserves_select, Hh].
Qed.

Lemma preserves_try_finally {A B : Type} (body : M A) (final : M B) :
  preserves R body -> preserves R final ->
  preserves R (try_finally body final).
Proof.
  intros Hb Hf w. unfold try_finally. specialize (Hb w).
  destruct (body w) as [r w1]. specialize (Hf w1).
  destruct (final w1) as [[b|e] w2]; simpl in *.
  - destruct r; simpl; etransitivity; eassumption.
  - etransitivity; eassumption.
Qed.

Lemma preserves_attempt (m : M unit) :
  preserves R m -> preserves R (attempt m).
Proof. intros H w. apply H. Qed.

End Preserves.

Create HintDb frame.

(** One step into a compound statement. *)
Ltac frame_step :=
  lazymatch goal with
  | |- preserves _ (bind _ _) => apply preserves_bind; [apply _| |intros ?]
  | |- preserves _ (try_except _ _) => apply preserves_try_except; [apply _| |]
  | |- preserves _ (try_finally _ _) => apply preserves_try_finally; [apply _| |]
  | |- preserves _ (attempt _) => apply preserves_attempt
  | |- preserves _ (ret _) => apply preserves_ret; apply _
  | |- preserves _ (raise _) => apply preserves_raise; apply _
  | |- preserves _ (get _) => apply preserves_get; apply _
  | |- preserves _ (call _) => apply preserves_call; apply _
  | |- preserves _ (match ?x with _ => _ end) => destruct x
  | |- preserves _ (if ?x then _ else _) => destruct x
  | |- Forall _ (_ :: _) => constructor; [simpl; intros ?|]
  | |- Forall _ [] => constructor
  | |- preserves _ _ => solve [auto with frame typeclass_instances]
  end.

Ltac frame := repeat (cbv zeta; frame_step).

Section Primitives.

Lemma stream_write_fs (h : nat) (s : string) :
  preserves fs_kept (stream_write h s).
Proof. intros w. reflexivity. Qed.

Lemma stream_write_cwd (h : nat) (s : string) :
  preserves cwd_kept (stream_write h s).
Proof. intros w. reflexivity. Qed.

Lemma stream_write_dirs (h : nat) (s : string) :
  preserves dirs_kept (stream_write h s).
Proof. intros w p H. exact H. Qed.

Lemma stream_write_std (h : nat) (s : string) :
  preserves std_kept (stream_write h s).
Proof. intros w. split; reflexivity. Qed.

Lemma new_StringIO_dirs : preserves dirs_kept new_StringIO.
Proof. intros w p H. exact H. Qed.

Lemma new_StringIO_cwd : preserves cwd_kept new_StringIO.
Proof. intros w. reflexivity. Qed.

Lemma modify_std_dirs (out err : nat) :
  preserves dirs_kept (modify (set_std out err)).
Proof. intros w p H. exact H. Qed.

Lemma modify_std_cwd (out err : nat) :
  preserves cwd_kept (modify (set_std out err)).
Proof. intros w. reflexivity. Qed.

Lemma os_getcwd_any (R : relation World) `{!PreOrder R} :
  preserves R os_getcwd.
Proof. intros w. unfold os_getcwd. destruct (is_dir _ _); reflexivity. Qed.

Lemma os_path_exists_any (R : relation World) `{!PreOrder R} (p : ospath) :
  preserves R (os_path_exists p).
Proof. intros w. reflexivity. Qed.

Lemma read_file_any (R : relation World) `{!PreOrder R} (p : ospath) :
  preserves R (read_file p).
Proof.
  intros w. unfold read_file.
  destruct (fs w !! resolve w p) as [[|content]|]; reflexivity.
Qed.

Lemma os_chdir_dirs (p : ospath) : preserves dirs_kept (os_chdir p).
Proof.
  intros w q H. unfold os_chdir.
  destruct (is_dir (fs w) (resolve w p)); exact H.
Qed.

Lemma os_chdir_std (p : ospath) : preserves std_kept (os_chdir p).
Proof.
  intros w. unfold os_chdir. destruct (is_dir _ _); split; reflexivity.
Qed.

Lemma is_dir_insert_dir (f : gmap path node) (t p : path) :
  is_dir f p = true -> is_dir (<[t := Dir]> f) p = true.
Proof.
  unfold is_dir. intros H. destruct (decide (t = p)) as [->|Hne].
  - rewrite lookup_insert_eq. reflexivity.
  - rewrite lookup_insert_ne by exact Hne. exact H.
Qed.

Lemma is_dir_insert_file (f : gmap path node) (t p : path) (c : string) :
  is_dir f t = false -> is_dir f p = true ->
  is_dir (<[t := File c]> f) p = true.
Proof.
  unfold is_dir. intros Ht H. destruct (decide (t = p)) as [->|Hne].
  - rewrite H in Ht. discriminate.
  - rewrite lookup_insert_ne by exact Hne. exact H.
Qed.

Lemma os_mkdir_dirs (p : ospath) : preserves dirs_kept (os_mkdir p).
Proof.
  intros w q H. unfold os_mkdir.
  destruct (fs w !! resolve w p); [exact H|].
  destruct (fs w !! removelast (resolve w p)) as [[|c]|]; try exact H.
  destruct (plain_name _); [|exact H].
  simpl. apply is_dir_insert_dir, H.
Qed.

Lemma os_mkdir_cwd (p : ospath) : preserves cwd_kept (os_mkdir p).
Proof.
  intros w. unfold os_mkdir.
  destruct (fs w !! resolve w p); [reflexivity|].
  destruct (fs w !! removelast (resolve w p)) as [[|c]|]; try reflexivity.
  destruct (plain_name _); reflexivity.
Qed.

Lemma os_mkdir_std (p : ospath) : preserves std_kept (os_mkdir p).
Proof.
  intros w. unfold os_mkdir.
  destruct (fs w !! resolve w p); [split; reflexivity|].
  destruct (fs w !! removelast (resolve w p)) as [[|c]|]; try (split; reflexivity).
  destruct (plain_name _); split; reflexivity.
Qed.

Lemma write_file_dirs (p : ospath) (content : string) :
  preserves dirs_kept (write_file p content).
Proof.
  intros w q H. unfold write_file.
  destruct (negb _) eqn:Hplain; simpl; [exact H|].
  destruct (is_dir (fs w) (resolve w p)) eqn:Hd; simpl; [exact H|].
  destruct (is_dir (fs w) (removelast (resolve w p))); [|exact H].
  simpl. apply is_dir_insert_file; assumption.
Qed.

Lemma write_file_cwd (p : ospath) (content : string) :
  preserves cwd_kept (write_file p content).
Proof.
  intros w. unfold write_file.
  destruct (_ || _); [reflexivity|].
  destruct (is_dir _ _); reflexivity.
Qed.

Lemma write_file_std (p : ospath) (content : string) :
  preserves std_kept (write_file p content).
Proof.
  intros w. unfold write_file.
  destruct (_ || _); [split; reflexivity|].
  destruct (is_dir _ _); split; reflexivity.
Qed.

End Primitives.

#[local] Hint Resolve stream_write_fs stream_write_cwd stream_write_dirs
  stream_write_std new_StringIO_dirs new_StringIO_cwd modify_std_dirs
  modify_std_cwd os_getcwd_any os_path_exists_any read_file_any os_chdir_dirs
  os_chdir_std os_mkdir_dirs os_mkdir_cwd os_mkdir_std write_file_dirs
  write_file_cwd write_file_std : frame.

Section Statements.

Variable env : Env.

Lemma print_dirs (s : string) : preserves dirs_kept (print s).
Proof. unfold print. frame. Qed.

Lemma print_cwd (s : string) : preserves cwd_kept (print s).
Proof. unfold print. frame. Qed.

Lemma print_fs (s : string) : preserves fs_kept (print s).
Proof. unfold print. frame. Qed.

Lemma print_std (s : string) : preserves std_kept (print s).
Proof. unfold print. frame. Qed.

Lemma print_exc_dirs (e : exn) : preserves dirs_kept (print_exc e).
Proof. unfold print_exc. frame. Qed.

Lemma print_exc_cwd (e : exn) : preserves cwd_kept (print_exc e).
Proof. unfold print_exc. frame. Qed.

Hint Resolve print_dirs print_cwd print_fs print_std print_exc_dirs
  print_exc_cwd : frame.

Lemma perform_dirs (ev : event) : preserves dirs_kept (perform ev).
Proof. destruct ev; simpl; frame. Qed.

Lemma perform_std (ev : event) : preserves std_kept (perform ev).
Proof. destruct ev; simpl; frame. Qed.

Hint Resolve perform_dirs perform_std : frame.

Lemma perform_all_dirs (evs : list event) :
  preserves dirs_kept (perform_all evs).
Proof. induction evs; simpl; frame. Qed.

Lemma perform_all_std (evs : list event) :
  preserves std_kept (perform_all evs).
Proof. induction evs; simpl; frame. Qed.

Hint Resolve perform_all_dirs perform_all_std : frame.

Lemma exec_code_dirs (code : string) : preserves dirs_kept (exec_code env code).
Proof.
  intros w. unfold exec_code.
  generalize (python_exec env code w). intros b. revert w.
  change (preserves dirs_kept
            (perform_all (events b) ;;
             match outcome b with
             | Completes => ret tt
             | Raises e => raise e
             end)).
  frame.
Qed.

Lemma exec_code_std (code : string) : preserves std_kept (exec_code env code).
Proof.
  intros w. unfold exec_code.
  generalize (python_exec env code w). intros b. revert w.
  change (preserves std_kept
            (perform_all (events b) ;;
             match outcome b with
             | Completes => ret tt
             | Raises e => raise e
             end)).
  frame.
Qed.

Hint Resolve exec_code_dirs exec_code_std : frame.

Lemma execute_python_code_dirs (code : string) :
  preserves dirs_kept (execute_python_code env code).
Proof. unfold execute_python_code. frame. Qed.

Lemma generate_script_dirs (prompt : string) :
  preserves dirs_kept (generate_script env prompt).
Proof. unfold generate_script. frame. Qed.

Lemma check_result_dirs (result : ExecResult) :
  preserves dirs_kept (check_result env result).
Proof. unfold check_result. frame. Qed.

Hint Resolve execute_python_code_dirs generate_script_dirs check_result_dirs
  : frame.

Lemma run_try_dirs (prompt : string) : preserves dirs_kept (run_try env prompt).
Proof. unfold run_try. frame. Qed.

Hint Resolve run_try_dirs : frame.

Lemma run_guarded_dirs (prompt : string) :
  preserves dirs_kept (run_guarded env prompt).
Proof. unfold run_guarded, run_handlers. frame. Qed.

Hint Resolve run_guarded_dirs : frame.

Lemma run_dirs (self : DataAnalystAgent) (question : string)
    (files : list string) :
  preserves dirs_kept (run env self question files).
Proof. unfold run. frame. Qed.

End Statements.

#[local] Hint Resolve print_dirs print_cwd print_fs print_std print_exc_dirs
  print_exc_cwd perform_all_dirs perform_all_std exec_code_dirs exec_code_std
  execute_python_code_dirs generate_script_dirs check_result_dirs
  run_try_dirs run_guarded_dirs run_dirs : frame.

(** ** [run], step by step *)

Section RunFacts.

Variable env : Env.


Lemma bind_Ok {A B : Type} (m : M A) (k : A -> M B) (w w1 : World) (a : A) :
  m w = (Ok a, w1) -> bind m k w = k a w1.
Proof. unfold bind. intros ->. reflexivity. Qed.

(** [run], with the two directory changes carried out. *)
Lemma run_unfold (self : DataAnalystAgent) (question : string)
    (files : list string) (w : World) :
  is_dir (fs w) (cwd w) = true ->
  is_dir (fs w) (resolve w (work_dir self)) = true ->
  run env self question files w
  = let (r, w') :=
      run_guarded env (build_prompt (file_list_str files) question)
        (set_cwd (resolve w (work_dir self)) w) in
    (r, set_cwd (cwd w) w').
Proof.
  intros Hcwd Hwork. unfold run, bind at 1, os_getcwd. rewrite Hcwd.
  unfold bind at 1, os_chdir at 1. rewrite Hwork. cbv zeta.
  unfold bind, try_finally.
  pose proof (run_guarded_dirs env (build_prompt (file_list_str files) question)
                (set_cwd (resolve w (work_dir self)) w) (cwd w) Hcwd) as Hkept.
  destruct (run_guarded env _ _) as [r w'] eqn:Hbody. simpl in Hkept.
  unfold os_chdir, resolve. simpl. rewrite Hkept.
  destruct r; reflexivity.
Qed.

(** Where the switch to the scratch directory fails, nothing has changed. *)
Lemma run_no_switch (self : DataAnalystAgent) (question : string)
    (files : list string) (w : World) :
  is_dir (fs w) (cwd w) && is_dir (fs w) (resolve w (work_dir self)) = false ->
  snd (run env self question files w) = w.
Proof.
  intros H. unfold run, bind at 1, os_getcwd.
  destruct (is_dir (fs w) (cwd w)); [|reflexivity].
  unfold bind at 1, os_chdir at 1. simpl in H. rewrite H. reflexivity.
Qed.

Lemma run_cwd (self : DataAnalystAgent) (question : string)
    (files : list string) :
  preserves cwd_kept (run env self question files).
Proof.
  intros w. unfold cwd_kept.
  destruct (is_dir (fs w) (cwd w) && is_dir (fs w) (resolve w (work_dir self)))
    eqn:H.
  - apply andb_true_iff in H as [H1 H2].
    rewrite (run_unfold _ _ _ _ H1 H2).
    destruct (run_guarded env _ _) as [r w']. reflexivity.
  - rewrite (run_no_switch _ _ _ _ H). reflexivity.
Qed.

(** The [except] clauses of [run] raise what they caught. *)
Lemma run_guarded_fst (prompt : string) (w : World) :
  fst (run_guarded env prompt w) = fst (run_try env prompt w).
Proof.
  unfold run_guarded, try_except.
  destruct (run_try env prompt w) as [[a|e] w']; [reflexivity|].
  unfold run_handlers, select_handler.
  destruct (is_api_timeout e); [reflexivity|].
  destruct (is_Exception e); reflexivity.
Qed.

Lemma run_fst (self : DataAnalystAgent) (question : string)
    (files : list string) (w : World) :
  is_dir (fs w) (cwd w) = true ->
  is_dir (fs w) (resolve w (work_dir self)) = true ->
  fst (run env self question files w)
  = fst (run_try env (build_prompt (file_list_str files) question)
           (set_cwd (resolve w (work_dir self)) w)).
Proof.
  intros H1 H2. rewrite (run_unfold _ _ _ _ H1 H2), <- run_guarded_fst.
  destruct (run_guarded env _ _) as [r w']. reflexivity.
Qed.


Lemma check_result_fst (r : ExecResult) (w : World) :
  fst (check_result env r w)
  = if Text.contains "Traceback" (stderr r)
    then Raise (new_exn PlainException
                  ("Error during Python script execution: " +:+ stderr r))
    else if Text.is_empty (Text.strip (stdout r))
    then Raise (new_exn ValueError
                  (if Text.is_empty (stderr r)
                   then "The generated script did not print any output."
                   else "The generated script did not print any output. Warnings: "
                        +:+ stderr r))
    else match json_loads env (Text.strip (stdout r)) with
         | inl msg => Raise (new_exn JSONDecodeError msg)
         | inr _ => Ok (Text.strip (stdout r))
         end.
Proof.
  unfold check_result, bind.
  destruct (Text.contains "Traceback" (stderr r)); [reflexivity|]. simpl.
  destruct (Text.is_empty (Text.strip (stdout r))).
  - destruct (Text.is_empty (stderr r)); reflexivity.
  - simpl. destruct (json_loads env (Text.strip (stdout r))); reflexivity.
Qed.


Lemma bind_fst_Ok {A B : Type} (m : M A) (k : A -> M B) (w : World) (b : B) :
  fst (bind m k w) = Ok b ->
  exists a, fst (m w) = Ok a /\ fst (k a (snd (m w))) = Ok b.
Proof.
  unfold bind. destruct (m w) as [[a|e] w1]; simpl; intros H.
  - exists a. split; [reflexivity | exact H].
  - discriminate.
Qed.

End RunFacts.

#[local] Hint Resolve run_cwd : frame.

(** ** [execute_python_code], step by step *)

Section ExecFacts.

Variable env : Env.

Lemma os_chdir_streams (p : ospath) : preserves streams_kept (os_chdir p).
Proof.
  intros w. unfold os_chdir. destruct (is_dir _ _); reflexivity.
Qed.

Lemma os_mkdir_streams (p : ospath) : preserves streams_kept (os_mkdir p).
Proof.
  intros w. unfold os_mkdir.
  destruct (fs w !! resolve w p); [reflexivity|].
  destruct (fs w !! removelast (resolve w p)) as [[|c]|]; try reflexivity.
  destruct (plain_name _); reflexivity.
Qed.

Lemma write_file_streams (p : ospath) (content : string) :
  preserves streams_kept (write_file p content).
Proof.
  intros w. unfold write_file.
  destruct (_ || _); [reflexivity|].
  destruct (is_dir _ _); reflexivity.
Qed.

Lemma getvalue_write_same (w : World) (h : nat) (s : string) :
  getvalue (snd (stream_write h s w)) h = getvalue w h +:+ s.
Proof. unfold getvalue. simpl. rewrite lookup_insert_eq. reflexivity. Qed.

Lemma streams_write_other (w : World) (h h' : nat) (s : string) :
  h <> h' -> streams (snd (stream_write h s w)) !! h' = streams w !! h'.
Proof. intros H. simpl. rewrite lookup_insert_ne by exact H. reflexivity. Qed.

(** What a script's events do to the two streams they write to, and to no
    other stream. *)
Lemma perform_all_streams (evs : list event) (w : World) :
  sys_stdout w <> sys_stderr w ->
  fst (perform_all evs w) = Ok tt
  /\ getvalue (snd (perform_all evs w)) (sys_stdout w)
     = getvalue w (sys_stdout w) +:+ written_out evs
  /\ getvalue (snd (perform_all evs w)) (sys_stderr w)
     = getvalue w (sys_stderr w) +:+ written_err evs
  /\ (forall h, h <> sys_stdout w -> h <> sys_stderr w ->
        streams (snd (perform_all evs w)) !! h = streams w !! h).
Proof.
  revert w. induction evs as [|ev evs IH]; intros w Hne.
  - simpl. rewrite !app_empty_r. auto.
  - assert (exists w1, perform ev w = (Ok tt, w1)
              /\ sys_stdout w1 = sys_stdout w /\ sys_stderr w1 = sys_stderr w
              /\ getvalue w1 (sys_stdout w)
                 = getvalue w (sys_stdout w)
                   +:+ match ev with StdoutWrite s => s | _ => "" end
              /\ getvalue w1 (sys_stderr w)
                 = getvalue w (sys_stderr w)
                   +:+ match ev with StderrWrite s => s | _ => "" end
              /\ (forall h, h <> sys_stdout w -> h <> sys_stderr w ->
                    streams w1 !! h = streams w !! h))
      as (w1 & Hev & Ho & He & Hvo & Hve & Hoth).
    { destruct ev as [s|s|p|p c|p]; simpl.
      - eexists. split; [reflexivity|]. simpl.
        unfold getvalue. simpl.
        rewrite lookup_insert_eq, lookup_insert_ne by congruence.
        rewrite app_empty_r. repeat split; try reflexivity.
        intros h H1 H2. rewrite lookup_insert_ne by congruence. reflexivity.
      - eexists. split; [reflexivity|]. simpl.
        unfold getvalue. simpl.
        rewrite lookup_insert_eq, lookup_insert_ne by congruence.
        rewrite app_empty_r. repeat split; try reflexivity.
        intros h H1 H2. rewrite lookup_insert_ne by congruence. reflexivity.
      - eexists. split; [reflexivity|].
        pose proof (os_chdir_streams p w) as Hs.
        pose proof (os_chdir_std p w) as [Hs1 Hs2].
        unfold streams_kept in Hs. unfold getvalue. rewrite Hs, !app_empty_r.
        repeat split; auto.
      - eexists. split; [reflexivity|].
        pose proof (write_file_streams p c w) as Hs.
        pose proof (write_file_std p c w) as [Hs1 Hs2].
        unfold streams_kept in Hs. unfold getvalue. rewrite Hs, !app_empty_r.
        repeat split; auto.
      - eexists. split; [reflexivity|].
        pose proof (os_mkdir_streams p w) as Hs.
        pose proof (os_mkdir_std p w) as [Hs1 Hs2].
        unfold streams_kept in Hs. unfold getvalue. rewrite Hs, !app_empty_r.
        repeat split; auto. }
    cbn [perform_all]. rewrite (bind_Ok _ _ _ _ _ Hev).
    assert (sys_stdout w1 <> sys_stderr w1) as Hne1 by congruence.
    destruct (IH w1 Hne1) as (Hf & Hvo' & Hve' & Hoth').
    rewrite Ho, He in *.
    split; [exact Hf|]. split; [|split].
    + rewrite Hvo', Hvo, app_assoc_s. destruct ev; reflexivity.
    + rewrite Hve', Hve, app_assoc_s. destruct ev; reflexivity.
    + intros h H1 H2. rewrite Hoth', Hoth by assumption. reflexivity.
Qed.

(** The two streams of the redirection are new and distinct. *)
Lemma redirected_streams (w : World) :
  exists h1 h2,
    redirected w
    = set_std h1 h2
        (set_buffers ({[h2]} ∪ ({[h1]} ∪ buffers w))
           (set_streams (<[h2 := ""]> (<[h1 := ""]> (streams w))) w))
    /\ h1 <> h2
    /\ (h1 ∉ dom (streams w)) /\ (h2 ∉ dom (streams w)).
Proof.
  unfold redirected, bind, new_StringIO, modify. simpl.
  set (h1 := fresh ({[sys_stdout w; sys_stderr w]} ∪ dom (streams w)
                    ∪ buffers w)).
  set (h2 := fresh ({[sys_stdout w; sys_stderr w]}
                    ∪ dom (<[h1 := ""]> (streams w))
                    ∪ ({[h1]} ∪ buffers w))).
  exists h1, h2. split; [reflexivity|].
  pose proof (is_fresh ({[sys_stdout w; sys_stderr w]} ∪ dom (streams w)
                        ∪ buffers w)) as F1.
  pose proof (is_fresh ({[sys_stdout w; sys_stderr w]}
                        ∪ dom (<[h1 := ""]> (streams w))
                        ∪ ({[h1]} ∪ buffers w))) as F2.
  fold h1 in F1. fold h2 in F2. rewrite dom_insert_L in F2.
  set_solver.
Qed.

(** [execute_python_code] as one step of the interpreter between the
    redirection and the restoring of the streams. *)
Lemma execute_python_code_unfold (code : string) (w : World) :
  execute_python_code env code w
  = let (res, w4) :=
      try_except (exec_code env code)
        [(is_Exception,
          fun e => let* err := get sys_stderr in stream_write err (format_exc e))]
        (redirected w) in
    (match res with
     | Ok _ => Ok {| stdout := getvalue w4 (sys_stdout w4);
                     stderr := getvalue w4 (sys_stderr w4) |}
     | Raise e => Raise e
     end,
     set_std (sys_stdout w) (sys_stderr w) w4).
Proof.
  unfold execute_python_code, redirected, bind, get, modify, new_StringIO,
    try_finally, ret.
  simpl.
  destruct (try_except _ _ _) as [[u|e] w4]; reflexivity.
Qed.

(** What [execute_python_code] returns or raises, and what it leaves. *)
Lemma execute_python_code_spec (code : string) (w : World) :
  let b := python_exec env code (redirected w) in
  fst (execute_python_code env code w)
  = match outcome b with
    | Completes =>
        Ok {| stdout := written_out (events b);
              stderr := written_err (events b) |}
    | Raises e =>
        if is_Exception e
        then Ok {| stdout := written_out (events b);
                   stderr := written_err (events b) +:+ format_exc e |}
        else Raise e
    end.
Proof.
  intros b. rewrite execute_python_code_unfold.
  destruct (redirected_streams w) as (h1 & h2 & Hw & Hne & _ & _).
  unfold try_except, exec_code. fold b.
  remember (redirected w) as w3 eqn:E3. clear E3. clearbody b.
  assert (sys_stdout w3 = h1 /\ sys_stderr w3 = h2) as [Ho He]
    by (rewrite Hw; split; reflexivity).
  assert (getvalue w3 h1 = "" /\ getvalue w3 h2 = "") as [Hv1 Hv2].
  { rewrite Hw. unfold getvalue. simpl.
    rewrite lookup_insert_ne, !lookup_insert_eq by congruence.
    split; reflexivity. }
  assert (sys_stdout w3 <> sys_stderr w3) as Hne3 by congruence.
  destruct (perform_all_streams (events b) w3 Hne3) as (Hf & Hvo & Hve & _).
  pose proof (perform_all_std (events b) w3) as [Hso Hse].
  unfold bind at 1.
  destruct (perform_all (events b) w3) as [res w4] eqn:Hp.
  simpl in Hf, Hvo, Hve, Hso, Hse. subst res.
  rewrite Ho, Hv1, app_empty_l in Hvo. rewrite He, Hv2, app_empty_l in Hve.
  rewrite Ho in Hso. rewrite He in Hse.
  destruct (outcome b) as [|e]; simpl.
  - rewrite Hso, Hse, Hvo, Hve. reflexivity.
  - destruct (is_Exception e); simpl; [|reflexivity].
    unfold bind, get. simpl. rewrite Hso, Hse.
    change (set_streams (<[h2:=getvalue w4 h2 +:+ format_exc e]> (streams w4)) w4)
      with (snd (stream_write h2 (format_exc e) w4)).
    rewrite getvalue_write_same. unfold getvalue at 1.
    rewrite streams_write_other by congruence.
    fold (getvalue w4 h1). rewrite Hvo, Hve. reflexivity.
Qed.

Lemma execute_python_code_std (code : string) :
  preserves std_kept (execute_python_code env code).
Proof.
  intros w. rewrite execute_python_code_unfold.
  destruct (try_except _ _ _) as [res w4]. split; reflexivity.
Qed.

(** The streams that were there before the call hold what they held. *)
Lemma execute_python_code_old_streams (code : string) (w : World) (h : nat) :
  h ∈ dom (streams w) ->
  streams (snd (execute_python_code env code w)) !! h = streams w !! h.
Proof.
  intros Hh. rewrite execute_python_code_unfold.
  destruct (redirected_streams w) as (h1 & h2 & Hw & Hne & Hn1 & Hn2).
  remember (redirected w) as w3 eqn:E3. clear E3.
  assert (sys_stdout w3 = h1 /\ sys_stderr w3 = h2) as [Ho He]
    by (rewrite Hw; split; reflexivity).
  assert (h <> h1 /\ h <> h2) as [Hh1 Hh2] by (split; intros ->; tauto).
  assert (streams w3 !! h = streams w !! h) as H3.
  { rewrite Hw. simpl. rewrite !lookup_insert_ne by congruence. reflexivity. }
  unfold try_except, exec_code.
  generalize (python_exec env code w3). intros b.
  assert (sys_stdout w3 <> sys_stderr w3) as Hne3 by congruence.
  destruct (perform_all_streams (events b) w3 Hne3) as (Hf & _ & _ & Hoth).
  pose proof (perform_all_std (events b) w3) as [Hso Hse].
  specialize (Hoth h). rewrite Ho, He in Hoth. specialize (Hoth Hh1 Hh2).
  unfold bind at 1.
  destruct (perform_all (events b) w3) as [res w4] eqn:Hp.
  simpl in Hf, Hoth, Hso, Hse. subst res.
  destruct (outcome b) as [|e]; simpl.
  - congruence.
  - destruct (is_Exception e); simpl; [|congruence].
    unfold bind, get. simpl.
    rewrite lookup_insert_ne by congruence. congruence.
Qed.

End ExecFacts.

(** ** The view, step by step *)

Section HandleFacts.

Variable env : Env.

Lemma stream_blind_ret {A : Type} (a : A) : stream_blind (ret a).
Proof. intros s w. reflexivity. Qed.

Lemma stream_blind_bind {A B : Type} (m : M A) (k : A -> M B) :
  stream_blind m -> (forall a, stream_blind (k a)) -> stream_blind (bind m k).
Proof.
  intros Hm Hk s w. unfold bind. rewrite Hm.
  destruct (m w) as [[a|e] w1]; simpl; [apply Hk | reflexivity].
Qed.

Lemma stream_blind_exists (p : ospath) : stream_blind (os_path_exists p).
Proof. intros s w. reflexivity. Qed.

Lemma stream_blind_mkdir (p : ospath) : stream_blind (os_mkdir p).
Proof.
  intros s w. unfold os_mkdir.
  change (resolve (set_streams s w) p) with (resolve w p).
  change (fs (set_streams s w)) with (fs w).
  destruct (fs w !! resolve w p); [reflexivity|].
  destruct (fs w !! removelast (resolve w p)) as [[|c]|]; try reflexivity.
  destruct (plain_name _); reflexivity.
Qed.

Lemma stream_blind_makedirs (depth : nat) (p : ospath) :
  stream_blind (makedirs_from depth p).
Proof.
  revert p. induction depth as [|depth IH]; intros p.
  - apply stream_blind_mkdir.
  - cbn [makedirs_from]. cbv zeta.
    apply stream_blind_bind; [|intros _; apply stream_blind_mkdir].
    destruct (bool_decide _); [|apply stream_blind_ret].
    apply stream_blind_bind; [apply stream_blind_exists|].
    intros [|]; [apply stream_blind_ret|].
    intros s w. unfold try_except. rewrite IH.
    destruct (makedirs_from depth _ w) as [[u|e] w1]; simpl; [reflexivity|].
    destruct (is_FileExistsError e); reflexivity.
Qed.

Lemma makedirs_from_cwd (depth : nat) (p : ospath) :
  preserves cwd_kept (makedirs_from depth p).
Proof.
  revert p. induction depth as [|depth IH]; intros p; cbn [makedirs_from]; frame.
Qed.

Lemma makedirs_from_dirs (depth : nat) (p : ospath) :
  preserves dirs_kept (makedirs_from depth p).
Proof.
  revert p. induction depth as [|depth IH]; intros p; cbn [makedirs_from]; frame.
Qed.

Lemma os_mkdir_Ok (p : ospath) (w : World) :
  fst (os_mkdir p w) = Ok tt ->
  is_dir (fs (snd (os_mkdir p w))) (resolve w p) = true.
Proof.
  unfold os_mkdir.
  destruct (fs w !! resolve w p); [discriminate|].
  destruct (fs w !! removelast (resolve w p)) as [[|c]|]; try discriminate.
  destruct (plain_name _); [|discriminate].
  intros _. unfold is_dir. simpl. rewrite lookup_insert_eq. reflexivity.
Qed.

(** When [os.makedirs] succeeds, the directory is there. *)
Lemma os_makedirs_Ok (p : ospath) (w : World) :
  fst (os_makedirs p w) = Ok tt ->
  is_dir (fs (snd (os_makedirs p w))) (resolve w p) = true
  /\ cwd (snd (os_makedirs p w)) = cwd w.
Proof.
  intros H. split; [|apply makedirs_from_cwd].
  unfold os_makedirs in *.
  destruct (length (parts p)) as [|depth]; cbn [makedirs_from] in *.
  - apply os_mkdir_Ok, H.
  - cbv zeta in *. unfold bind at 1 in H. unfold bind at 1.
    match goal with
    | |- context [match ?m w with _ => _ end] =>
        assert (preserves cwd_kept m) as Hc
          by (pose proof makedirs_from_cwd; frame);
        specialize (Hc w); destruct (m w) as [[u|e] w1]
    end; [|discriminate].
    simpl in Hc. unfold cwd_kept in Hc.
    replace (resolve w p) with (resolve w1 p)
      by (unfold resolve; rewrite Hc; reflexivity).
    apply os_mkdir_Ok, H.
Qed.

Lemma save_uploads_dirs (temp_dir : ospath) (parts_left : Files)
    (uploaded_files : list string) :
  preserves dirs_kept (save_uploads temp_dir parts_left uploaded_files).
Proof.
  revert uploaded_files.
  induction parts_left as [|[filename file_storage] rest IH];
    intros uploaded_files; simpl; frame.
Qed.

Lemma save_uploads_cwd (temp_dir : ospath) (parts_left : Files)
    (uploaded_files : list string) :
  preserves cwd_kept (save_uploads temp_dir parts_left uploaded_files).
Proof.
  revert uploaded_files.
  induction parts_left as [|[filename file_storage] rest IH];
    intros uploaded_files; simpl; frame.
Qed.

Hint Resolve save_uploads_dirs save_uploads_cwd : frame.

Lemma handle_guarded_dirs (key request_id : string) (files : Files) :
  preserves dirs_kept (handle_guarded env key request_id files).
Proof. unfold handle_guarded, handle_try, handle_handlers. frame. Qed.

Lemma handle_guarded_cwd (key request_id : string) (files : Files) :
  preserves cwd_kept (handle_guarded env key request_id files).
Proof. unfold handle_guarded, handle_try, handle_handlers. frame. Qed.

Lemma print_unfold (s : string) (w : World) :
  print s w
  = (Ok tt,
     set_streams (<[sys_stdout w := getvalue w (sys_stdout w) +:+ s +:+ Text.newline]>
                    (streams w)) w).
Proof. reflexivity. Qed.

(** The [finally] clause of the view removes a scratch directory that is
    there, with all that is below it. *)
Lemma cleanup_removes (temp_dir : ospath) (w : World) :
  is_dir (fs w) (resolve w temp_dir) = true ->
  fst (cleanup temp_dir w) = Ok tt
  /\ forall p, below (resolve w temp_dir) p = true ->
               fs (snd (cleanup temp_dir w)) !! p = None.
Proof.
  intros H. unfold is_dir in H.
  destruct (fs w !! resolve w temp_dir) as [[|c]|] eqn:E; try discriminate.
  assert (exists w',
             cleanup temp_dir w = (Ok tt, w')
             /\ fs w' = filter (fun kv => below (resolve w temp_dir) (fst kv) = false)
                          (fs w)) as (w' & -> & Hfs).
  { eexists. split.
    - unfold cleanup, bind, os_path_exists, get. rewrite E.
      rewrite bool_decide_eq_true_2 by eauto.
      unfold shutil_rmtree. cbv zeta. rewrite E, print_unfold. reflexivity.
    - reflexivity. }
  split; [reflexivity|].
  intros p Hp. simpl. rewrite Hfs. apply map_lookup_filter_None. right.
  intros x _. simpl. rewrite Hp. discriminate.
Qed.

(** The view reaches its [try] statement when the scratch directory can be
    made, and then the directory is there. *)
Lemma handle_prefix_Ok (request_id : string) (w : World) :
  fst (os_makedirs (scratch request_id) w) = Ok tt ->
  fst (handle_prefix request_id w) = Ok tt
  /\ is_dir (fs (snd (handle_prefix request_id w)))
       (resolve w (scratch request_id)) = true
  /\ cwd (snd (handle_prefix request_id w)) = cwd w.
Proof.
  intros H. destruct (os_makedirs_Ok _ _ H) as [Hd Hc].
  assert (exists w',
             handle_prefix request_id w = (Ok tt, w')
             /\ fs w' = fs (snd (os_makedirs (scratch request_id) w))
             /\ cwd w' = cwd (snd (os_makedirs (scratch request_id) w)))
    as (w' & -> & Hfs & Hcwd).
  { unfold handle_prefix, bind. rewrite print_unfold.
    unfold os_makedirs at 1. rewrite stream_blind_makedirs.
    fold (os_makedirs (scratch request_id)).
    destruct (os_makedirs (scratch request_id) w) as [[[]|e] w1];
      simpl in H; [|discriminate].
    rewrite print_unfold. eexists. split; [reflexivity|].
    split; reflexivity. }
  simpl. rewrite Hfs, Hcwd. auto.
Qed.

(** The view as its prefix followed by its [try] statement. *)
Lemma handle_unfold (c : ascii) (k request_id : string) (files : Files)
    (w : World) :
  has_part "questions.txt" files = true ->
  handle_analysis_request env (Some (String c k)) request_id files w
  = (handle_prefix request_id ;;
     let* (response, _) :=
       try_finally (handle_guarded env (String c k) request_id files)
         (cleanup (scratch request_id)) in
     ret response) w.
Proof.
  intros H. unfold handle_analysis_request, handle_prefix, handle_guarded.
  rewrite H. simpl negb. cbv iota.
  unfold bind. rewrite print_unfold.
  destruct (os_makedirs (scratch request_id) _) as [[[]|e] w1]; [|reflexivity].
  rewrite print_unfold. reflexivity.
Qed.

(** How the view ends once the scratch directory is made: as its guarded
    [try] block ends, and with nothing left at or below the scratch
    directory. *)
Lemma handle_outcome (c : ascii) (k request_id : string) (files : Files)
    (w : World) :
  has_part "questions.txt" files = true ->
  fst (os_makedirs (scratch request_id) w) = Ok tt ->
  fst (handle_analysis_request env (Some (String c k)) request_id files w)
  = fst (handle_guarded env (String c k) request_id files
           (snd (handle_prefix request_id w)))
  /\ forall p, below (resolve w (scratch request_id)) p = true ->
       fs (snd (handle_analysis_request env (Some (String c k)) request_id
                  files w)) !! p = None.
Proof.
  intros Hpart Hmk. rewrite (handle_unfold _ _ _ _ _ Hpart).
  destruct (handle_prefix_Ok _ _ Hmk) as (Hok & Hd & Hc).
  unfold bind at 1 3.
  destruct (handle_prefix request_id w) as [[u|e] w1]; simpl in Hok;
    [|discriminate].
  simpl in Hd, Hc. simpl snd.
  pose proof (handle_guarded_dirs (String c k) request_id files w1 _ Hd) as Hd2.
  pose proof (handle_guarded_cwd (String c k) request_id files w1) as Hc2.
  unfold cwd_kept in Hc2. unfold bind, try_finally.
  destruct (handle_guarded env (String c k) request_id files w1) as [r w2].
  simpl in Hd2, Hc2. simpl fst.
  assert (resolve w2 (scratch request_id) = resolve w (scratch request_id)) as Hr
    by (unfold resolve; simpl; congruence).
  rewrite <- Hr in Hd2.
  destruct (cleanup_removes _ _ Hd2) as [Hcl Hgone]. rewrite Hr in Hgone.
  destruct (cleanup (scratch request_id) w2) as [[u'|e'] w3]; simpl in Hcl;
    [|discriminate].
  simpl in Hgone. destruct r; simpl; split; auto.
Qed.



End HandleFacts.

(** * The claims *)

(** ** Code extraction *)

(** C2, as amended.  For a response with one fenced block -- prose without
    backticks, an opening fence with the tag [python] or with no tag, a
    non-empty inner text without backticks, the closing fence, prose without
    backticks -- the script is the inner text with the whitespace at both
    ends removed, and the prose is gone.  For a response that holds no
    fence, the script is the whole response with the whitespace at both
    ends removed. *)
Theorem extract_code_one_block :
  (forall pre code post : string,
      Text.no_backtick pre = true ->
      Text.no_backtick code = true ->
      Text.no_backtick post = true ->
      Text.is_empty code = false ->
      extract_code (pre +:+ "```" +:+ "python" +:+ code +:+ "```" +:+ post)
      = Text.strip code)
  /\ (forall pre code post : string,
      Text.no_backtick pre = true ->
      Text.no_backtick code = true ->
      Text.no_backtick post = true ->
      Text.is_empty code = false ->
      Text.startswith "python" code = false ->
      extract_code (pre +:+ "```" +:+ code +:+ "```" +:+ post)
      = Text.strip code)
  /\ (forall response_text : string,
      Text.contains "```" response_text = false ->
      extract_code response_text = Text.strip response_text).
Proof.
  split; [|split].
  - intros pre code post Hpre _ Hpost Hne%is_empty_false.
    unfold extract_code. rewrite (search_skips_prose _ _ Hpre).
    destruct (pattern_tagged code post Hne (no_fence_behind_backticks _ Hpost))
      as (cap & caps & Hm & Hcap).
    rewrite (search_here _ _ _ Hm). simpl. exact Hcap.
  - intros pre code post Hpre _ Hpost Hne%is_empty_false Htag.
    unfold extract_code. rewrite (search_skips_prose _ _ Hpre).
    rewrite (search_here _ _ _
               (pattern_plain code post Hne Htag
                  (no_fence_behind_backticks _ Hpost))).
    reflexivity.
  - intros response_text H. unfold extract_code.
    rewrite (search_no_fence _ H). reflexivity.
Qed.

Lemma extract_code_one_block_witness :
  extract_code
    ("Here is the script:" +:+ "```" +:+ "python"
     +:+ (Demo.nl +:+ "print(1)" +:+ Demo.nl) +:+ "```" +:+ " Done.")
  = Text.strip (Demo.nl +:+ "print(1)" +:+ Demo.nl)
  /\ extract_code ("```" +:+ "x = 1 " +:+ "```" +:+ "")
     = Text.strip "x = 1 "
  /\ extract_code "  print(1) " = Text.strip "  print(1) ".
Proof.
  split; [|split].
  - apply (proj1 extract_code_one_block "Here is the script:"
             (Demo.nl +:+ "print(1)" +:+ Demo.nl) " Done."); reflexivity.
  - apply (proj1 (proj2 extract_code_one_block) "" "x = 1 " ""); reflexivity.
  - apply (proj2 (proj2 extract_code_one_block) "  print(1) "); reflexivity.
Defined.

(** C2 as stated fails twice: a response without a fence is not used
    unchanged (its outer whitespace is removed), and with two fenced blocks
    the script is not the inner text of the first block: it runs on to the
    last fence and keeps the prose between the blocks. *)
Lemma extract_code_counterexample :
  (Text.contains "```" "  print(1) " = false
   /\ extract_code "  print(1) " = "print(1)"
   /\ String.eqb (extract_code "  print(1) ") "  print(1) " = false)
  /\ (spec_first_block Demo.two_blocks = Some "x = 1"
      /\ String.eqb (extract_code Demo.two_blocks) "x = 1" = false
      /\ Text.contains "Then run:" (extract_code Demo.two_blocks) = true).
Proof. vm_compute. repeat split. Qed.

(** ** The verdict of [run] on the execution result *)

Section RunClaims.

Variable env : Env.
Variable self : DataAnalystAgent.
Variable question : string.
Variable files : list string.





(** On a script of events, which removes and renames no directory, [run]
    leaves the working directory as it found it, whatever way it ends;
    and when both directories exist, its guarded block runs in the state
    whose working directory is the scratch directory, and [run] ends as
    that block ends, in the block's final state with the working
    directory set back. *)
Lemma run_restores_cwd_events (w : World) :
  cwd (snd (run env self question files w)) = cwd w
  /\ (is_dir (fs w) (cwd w) = true ->
      is_dir (fs w) (resolve w (work_dir self)) = true ->
      run env self question files w
      = let (res, w') :=
          run_guarded env (build_prompt (file_list_str files) question)
            (set_cwd (resolve w (work_dir self)) w) in
        (res, set_cwd (cwd w) w')).
Proof.
  split; [apply run_cwd | apply run_unfold].
Qed.

End RunClaims.





(** ** [execute_python_code] *)

Section ExecuteClaims.

Variable env : Env.
Variable code : string.


(** On a script of events, which writes to [sys.stdout] and [sys.stderr]
    and binds them to nothing else: after [execute_python_code] they are
    the stream objects they were before, whether the executed code raised
    or not, and every stream that existed before holds what it held; and
    whenever a result is returned, its [stdout] is all the script wrote to
    the redirected [sys.stdout] and its [stderr] is all the script wrote to
    the redirected [sys.stderr], followed by the traceback if the script
    failed. *)
Lemma execute_python_code_restores_events (w : World) :
  sys_stdout (snd (execute_python_code env code w)) = sys_stdout w
  /\ sys_stderr (snd (execute_python_code env code w)) = sys_stderr w
  /\ (forall h, h ∈ dom (streams w) ->
        streams (snd (execute_python_code env code w)) !! h = streams w !! h)
  /\ (forall r, fst (execute_python_code env code w) = Ok r ->
        stdout r = written_out (events (python_exec env code (redirected w)))
        /\ stderr r
           = written_err (events (python_exec env code (redirected w)))
             +:+ match outcome (python_exec env code (redirected w)) with
                 | Completes => ""
                 | Raises e => format_exc e
                 end).
Proof.
  destruct (execute_python_code_std env code w) as [H1 H2].
  split; [exact H1 | split; [exact H2 | split]].
  - intros h Hh. apply execute_python_code_old_streams, Hh.
  - intros r Hr. pose proof (execute_python_code_spec env code w) as S.
    cbv zeta in S. rewrite Hr in S.
    destruct (outcome (python_exec env code (redirected w))) as [|e].
    + inversion S. simpl. rewrite app_empty_r. split; reflexivity.
    + destruct (is_Exception e); [|discriminate].
      inversion S. simpl. split; reflexivity.
Qed.

End ExecuteClaims.



(** ** The view *)

Section HandleClaims.

Variable env : Env.
Variable request_id : string.
Variable files : Files.

(** C4, as amended.  With the API key configured, a request without the
    part [questions.txt] is answered 400 with an error envelope, and the
    file system is as before: no scratch directory was made. *)
Theorem missing_question_part (key : option string) (w : World) :
  configured key = true ->
  has_part "questions.txt" files = false ->
  fst (handle_analysis_request env key request_id files w)
  = Ok {| status := 400;
          body := error_body "'questions.txt' is a required file part." |}
  /\ fs (snd (handle_analysis_request env key request_id files w)) = fs w.
Proof.
  intros Hkey Hpart. destruct key as [[|c k]|]; try discriminate Hkey.
  unfold handle_analysis_request, bind. rewrite print_unfold, Hpart.
  split; reflexivity.
Qed.

(** On a script of events -- one that writes to the streams, changes
    directory and creates files and directories -- nothing exists at or
    below the scratch directory when the view is left, whether it returns
    a response (200, 503 or 500) or lets an exception through. *)
Lemma scratch_removed_events (key : option string) (w : World) :
  configured key = true ->
  has_part "questions.txt" files = true ->
  fst (os_makedirs (scratch request_id) w) = Ok tt ->
  forall p, below (resolve w (scratch request_id)) p = true ->
    fs (snd (handle_analysis_request env key request_id files w)) !! p = None.
Proof.
  intros Hkey Hpart Hmk. destruct key as [[|c k]|]; try discriminate Hkey.
  apply (handle_outcome env c k request_id files w Hpart Hmk).
Qed.


End HandleClaims.

Lemma missing_question_part_witness :
  configured (Some "key") = true
  /\ has_part "questions.txt" [("data.csv", "a,b")] = false
  /\ fst (handle_analysis_request (Demo.env Demo.script_json Demo.prints_json)
            (Some "key") "r1" [("data.csv", "a,b")] Demo.world)
     = Ok {| status := 400;
             body := error_body "'questions.txt' is a required file part." |}
  /\ fs (snd (handle_analysis_request (Demo.env Demo.script_json Demo.prints_json)
                (Some "key") "r1" [("data.csv", "a,b")] Demo.world))
     = fs Demo.world.
Proof.
  split; [reflexivity | split; [reflexivity|]].
  exact (missing_question_part (Demo.env Demo.script_json Demo.prints_json)
           "r1" [("data.csv", "a,b")] (Some "key") Demo.world eq_refl eq_refl).
Defined.

(** C4 as stated fails: on a server whose API key is not set, a request
    without the part [questions.txt] is answered 500, not 400, because the
    key is checked first. *)
Lemma missing_question_part_counterexample :
  has_part "questions.txt" [("data.csv", "a,b")] = false
  /\ fst (handle_analysis_request (Demo.env Demo.script_json Demo.prints_json)
            None "r1" [("data.csv", "a,b")] Demo.world)
     = Ok {| status := 500;
             body := error_body "API key is not configured on the server." |}.
Proof. vm_compute. split; reflexivity. Qed.



(** ** Further properties of the two files *)

(** The second group is greedy: whatever the inner text holds, fences
    included, the script runs from the opening fence to the last fence of
    the response. *)
Theorem extract_code_spans_to_last_fence :
  (forall pre rest post : string,
      Text.no_backtick pre = true ->
      Text.no_backtick post = true ->
      Text.is_empty rest = false ->
      extract_code (pre +:+ "```" +:+ "python" +:+ rest +:+ "```" +:+ post)
      = Text.strip rest)
  /\ (forall pre inner post : string,
      Text.no_backtick pre = true ->
      Text.no_backtick post = true ->
      Text.is_empty inner = false ->
      Text.startswith "python" inner = false ->
      extract_code (pre +:+ "```" +:+ inner +:+ "```" +:+ post)
      = Text.strip inner).
Proof.
  split.
  - intros pre rest post Hpre Hpost Hne%is_empty_false.
    unfold extract_code. rewrite (search_skips_prose _ _ Hpre).
    destruct (pattern_tagged rest post Hne (no_fence_behind_backticks _ Hpost))
      as (cap & caps & Hm & Hcap).
    rewrite (search_here _ _ _ Hm). simpl. exact Hcap.
  - intros pre inner post Hpre Hpost Hne%is_empty_false Htag.
    unfold extract_code. rewrite (search_skips_prose _ _ Hpre).
    rewrite (search_here _ _ _
               (pattern_plain inner post Hne Htag
                  (no_fence_behind_backticks _ Hpost))).
    reflexivity.
Qed.

Lemma extract_code_spans_to_last_fence_witness :
  extract_code
    ("" +:+ "```" +:+ "python"
     +:+ (Demo.nl +:+ "x = 1" +:+ Demo.nl +:+ "```" +:+ Demo.nl +:+ "Then run:"
          +:+ Demo.nl +:+ "```python" +:+ Demo.nl +:+ "y = 2" +:+ Demo.nl)
     +:+ "```" +:+ "")
  = "x = 1" +:+ Demo.nl +:+ "```" +:+ Demo.nl +:+ "Then run:" +:+ Demo.nl
    +:+ "```python" +:+ Demo.nl +:+ "y = 2".
Proof.
  exact (proj1 extract_code_spans_to_last_fence ""
           (Demo.nl +:+ "x = 1" +:+ Demo.nl +:+ "```" +:+ Demo.nl +:+ "Then run:"
            +:+ Demo.nl +:+ "```python" +:+ Demo.nl +:+ "y = 2" +:+ Demo.nl)
           "" eq_refl eq_refl eq_refl).
Defined.

Section MoreClaims.

Variable env : Env.

(** Without a configured key the view answers 500, whatever the request
    holds, and makes no directory. *)
Theorem unconfigured_key (key : option string) (request_id : string)
    (files : Files) (w : World) :
  configured key = false ->
  fst (handle_analysis_request env key request_id files w)
  = Ok {| status := 500;
          body := error_body "API key is not configured on the server." |}
  /\ fs (snd (handle_analysis_request env key request_id files w)) = fs w.
Proof.
  intros Hkey. destruct key as [[|c k]|]; try discriminate Hkey;
    unfold handle_analysis_request, bind; rewrite !print_unfold;
    split; reflexivity.
Qed.


(** [run] raises what the generation service raised, timeouts included,
    and an answer without candidates makes it raise a [ValueError] that
    carries the feedback. *)
Theorem run_service_failures (self : DataAnalystAgent) (question : string)
    (files : list string) (w : World) :
  is_dir (fs w) (cwd w) = true ->
  is_dir (fs w) (resolve w (work_dir self)) = true ->
  match generate_content env (build_prompt (file_list_str files) question) with
  | inl e => fst (run env self question files w) = Raise e
  | inr response =>
      candidates response = [] ->
      fst (run env self question files w)
      = Raise (new_exn ValueError
                 ("API call failed: The request was likely blocked. Feedback: "
                  +:+ prompt_feedback response))
  end.
Proof.
  intros H1 H2. rewrite (run_fst env _ _ _ _ H1 H2).
  unfold run_try, generate_script, bind. rewrite print_unfold.
  destruct (generate_content env _) as [e|response]; [reflexivity|].
  intros Hc. simpl. rewrite Hc. reflexivity.
Qed.

End MoreClaims.

Lemma unconfigured_key_witness :
  fst (handle_analysis_request (Demo.env Demo.script_json Demo.prints_json)
         (Some "") "r1" Demo.request Demo.world)
  = Ok {| status := 500;
          body := error_body "API key is not configured on the server." |}
  /\ fs (snd (handle_analysis_request (Demo.env Demo.script_json Demo.prints_json)
                (Some "") "r1" Demo.request Demo.world))
     = fs Demo.world.
Proof.
  exact (unconfigured_key (Demo.env Demo.script_json Demo.prints_json)
           (Some "") "r1" Demo.request Demo.world eq_refl).
Defined.


Lemma run_service_failures_witness :
  fst (run Demo.env_timeout Demo.agent "How many rows?" []
         Demo.world_with_scratch)
  = Raise {| exn_class := DeadlineExceeded;
             exn_msg := "504 Deadline Exceeded";
             exn_frames := "" |}.
Proof.
  exact (run_service_failures Demo.env_timeout Demo.agent "How many rows?" []
           Demo.world_with_scratch eq_refl eq_refl).
Defined.

(** ** Names, trimming and containment *)

Section MoreTextFacts.

Lemma contains_cons (p : string) (c : ascii) (s : string) :
  Text.contains p (String c s)
  = Text.startswith p (String c s) || Text.contains p s.
Proof. reflexivity. Qed.

Lemma contains_here (p s : string) : Text.contains p (p +:+ s) = true.
Proof. destruct p, s; simpl; rewrite ?Ascii.eqb_refl, ?startswith_app; reflexivity. Qed.

Lemma contains_app_r (p a s : string) :
  Text.contains p s = true -> Text.contains p (a +:+ s) = true.
Proof.
  intros H. induction a as [|c a IH]; [exact H|].
  rewrite app_cons, contains_cons, IH. apply orb_true_r.
Qed.

Lemma startswith_app_l (p s t : string) :
  Text.startswith p s = true -> Text.startswith p (s +:+ t) = true.
Proof.
  revert s. induction p as [|x p IH]; intros s H; [reflexivity|].
  destruct s as [|y s]; [discriminate|].
  rewrite app_cons. simpl in *.
  destruct (Ascii.eqb x y); [apply IH, H | discriminate].
Qed.

Lemma contains_app_l (p s t : string) :
  Text.contains p s = true -> Text.contains p (s +:+ t) = true.
Proof.
  induction s as [|c s IH]; intros H.
  - destruct p; [destruct t; reflexivity | discriminate].
  - rewrite contains_cons in H. rewrite app_cons, contains_cons.
    apply orb_true_iff in H as [H|H].
    + rewrite <- app_cons, (startswith_app_l _ _ _ H). reflexivity.
    + rewrite (IH H). apply orb_true_r.
Qed.

(** A part of the text is in the text. *)
Lemma contains_middle (p a b : string) :
  Text.contains p (a +:+ p +:+ b) = true.
Proof. apply contains_app_r, contains_here. Qed.

(** The base name of a file name holds no slash. *)
Lemma basename_no_slash (p : string) :
  Text.contains "/" (Text.basename p) = false.
Proof.
  induction p as [|c p IH]; [reflexivity|].
  cbn [Text.basename]. unfold Text.slash.
  destruct (Text.contains "/" p) eqn:E; [exact IH|].
  destruct (Ascii.eqb c "/") eqn:Ec; [exact E|].
  rewrite contains_cons, E. simpl. rewrite Ascii.eqb_sym, Ec. reflexivity.
Qed.

(** A name without a slash is its own base name. *)
Lemma basename_plain (p : string) :
  Text.contains "/" p = false -> Text.basename p = p.
Proof.
  destruct p as [|c p]; [reflexivity|].
  rewrite contains_cons. intros [H1 H2]%orb_false_iff.
  cbn [Text.basename]. unfold Text.slash. rewrite H2.
  simpl in H1. rewrite Ascii.eqb_sym.
  destruct (Ascii.eqb "/" c); [discriminate | reflexivity].
Qed.

Lemma rstrip_idem (s : string) : Text.rstrip (Text.rstrip s) = Text.rstrip s.
Proof.
  induction s as [|c s IH]; [reflexivity|].
  cbn [Text.rstrip]. cbv zeta.
  destruct (Text.is_empty (Text.rstrip s) && Text.isspace c) eqn:E;
    [reflexivity|].
  cbn [Text.rstrip]. cbv zeta. rewrite IH, E. reflexivity.
Qed.

(** What [lstrip] returns does not start with whitespace. *)
Lemma lstrip_head (s : string) :
  match Text.lstrip s with
  | EmptyString => True
  | String c _ => Text.isspace c = false
  end.
Proof.
  induction s as [|c s IH]; [exact I|].
  simpl. destruct (Text.isspace c) eqn:E; [exact IH | exact E].
Qed.

Lemma rstrip_cons_nonspace (c : ascii) (t : string) :
  Text.isspace c = false ->
  Text.rstrip (String c t) = String c (Text.rstrip t).
Proof.
  intros H. cbn [Text.rstrip]. cbv zeta. rewrite H, andb_false_r. reflexivity.
Qed.

(** Trimming a trimmed text changes nothing. *)
Lemma strip_idem (s : string) : Text.strip (Text.strip s) = Text.strip s.
Proof.
  unfold Text.strip. pose proof (lstrip_head s) as H.
  destruct (Text.lstrip s) as [|c t]; [reflexivity|].
  rewrite (rstrip_cons_nonspace _ _ H).
  cbn [Text.lstrip]. rewrite H.
  rewrite (rstrip_cons_nonspace _ _ H), rstrip_idem. reflexivity.
Qed.

End MoreTextFacts.

(** ** More on [run] *)

Section MoreRunFacts.

Variable env : Env.

(** Without both directories [run] raises. *)
Lemma run_needs_dirs (self : DataAnalystAgent) (question : string)
    (files : list string) (w : World) (s : string) :
  fst (run env self question files w) = Ok s ->
  is_dir (fs w) (cwd w) = true
  /\ is_dir (fs w) (resolve w (work_dir self)) = true.
Proof.
  unfold run, bind at 1, os_getcwd.
  destruct (is_dir (fs w) (cwd w)); [|discriminate].
  unfold bind at 1, os_chdir at 1.
  destruct (is_dir (fs w) (resolve w (work_dir self))); [auto | discriminate].
Qed.

(** What [run] returns is the trimmed stdout of an execution result that
    [check_result] accepted. *)
Lemma run_Ok_inv (self : DataAnalystAgent) (question : string)
    (files : list string) (w : World) (s : string) :
  fst (run env self question files w) = Ok s ->
  exists r v,
    fst (run_to_result env self question files w) = Ok r
    /\ Text.contains "Traceback" (stderr r) = false
    /\ s = Text.strip (stdout r)
    /\ Text.is_empty s = false
    /\ json_loads env s = inr v.
Proof.
  intros H. destruct (run_needs_dirs _ _ _ _ _ H) as [H1 H2].
  rewrite (run_fst env _ _ _ _ H1 H2) in H. unfold run_try in H.
  apply bind_fst_Ok in H as (code & Hgen & H).
  apply bind_fst_Ok in H as (r & Hexec & H).
  rewrite check_result_fst in H.
  exists r.
  destruct (Text.contains "Traceback" (stderr r)); [discriminate|].
  destruct (Text.is_empty (Text.strip (stdout r))) eqn:He; [discriminate|].
  destruct (json_loads env (Text.strip (stdout r))) as [msg|v] eqn:Hv;
    [discriminate|].
  injection H as <-. exists v. repeat split; try assumption.
  unfold run_to_result, bind at 1, os_getcwd. rewrite H1.
  unfold bind at 1, os_chdir at 1. rewrite H2.
  unfold bind at 1.
  destruct (generate_script env _ _) as [[c|e] w2]; simpl in Hgen;
    [|discriminate].
  injection Hgen as ->. exact Hexec.
Qed.



Lemma execute_python_code_std_hint (code : string) :
  preserves std_kept (execute_python_code env code).
Proof. apply execute_python_code_std. Qed.

Hint Resolve execute_python_code_std_hint : frame.

Lemma run_std (self : DataAnalystAgent) (question : string)
    (files : list string) :
  preserves std_kept (run env self question files).
Proof.
  unfold run, run_guarded, run_try, run_handlers, generate_script,
    check_result, print_exc.
  frame.
Qed.

End MoreRunFacts.

Section MoreRunClaims.

Variable env : Env.
Variable self : DataAnalystAgent.
Variable question : string.
Variable files : list string.

(** Whatever [run] returns is a non-empty text without whitespace at
    either end that [json.loads] accepts: the second [json.loads], in the
    view, cannot fail on it. *)
Theorem run_returns_json (w : World) (s : string) :
  fst (run env self question files w) = Ok s ->
  Text.is_empty s = false
  /\ Text.strip s = s
  /\ exists v, json_loads env s = inr v.
Proof.
  intros H.
  destruct (run_Ok_inv env _ _ _ _ _ H) as (r & v & _ & _ & Hs & He & Hv).
  split; [exact He|]. split; [subst s; apply strip_idem|]. eauto.
Qed.


End MoreRunClaims.

Lemma run_returns_json_witness :
  fst (run (Demo.env Demo.script_split Demo.prints_split)
         Demo.agent "How many rows?" [] Demo.world_with_scratch)
  = Ok ("[1," +:+ Demo.nl +:+ "2]")
  /\ Text.strip ("[1," +:+ Demo.nl +:+ "2]") = "[1," +:+ Demo.nl +:+ "2]"
  /\ exists v, RefJson.loads ("[1," +:+ Demo.nl +:+ "2]") = inr v.
Proof.
  assert (fst (run (Demo.env Demo.script_split Demo.prints_split)
                 Demo.agent "How many rows?" [] Demo.world_with_scratch)
          = Ok ("[1," +:+ Demo.nl +:+ "2]")) as H
    by (vm_compute; reflexivity).
  split; [exact H|].
  exact (proj2 (run_returns_json _ _ _ _ _ _ H)).
Defined.


(** ** More on the view *)

Section MoreHandleFacts.

Variable env : Env.

(** The [try] block of the view returns only 200, with the decoded text
    that [run] returned. *)
Lemma handle_try_Ok (key : string) (temp_dir : ospath) (files : Files)
    (w : World) (resp : Response) :
  fst (handle_try env key temp_dir files w) = Ok resp ->
  status resp = 200
  /\ exists s, Text.is_empty s = false /\ Text.strip s = s
               /\ json_loads env s = inr (body resp).
Proof.
  unfold handle_try. intros H.
  apply bind_fst_Ok in H as (uploaded & _ & H).
  apply bind_fst_Ok in H as (raw & _ & H).
  apply bind_fst_Ok in H as (q & _ & H).
  apply bind_fst_Ok in H as (s & Hrun & H).
  apply bind_fst_Ok in H as (v & Hv & H).
  destruct (run_Ok_inv env _ _ _ _ _ Hrun) as (r & v' & _ & _ & Hs & He & _).
  destruct (json_loads env s) as [msg|v0] eqn:Hl; [discriminate|].
  simpl in Hv. injection Hv as ->.
  unfold bind in H. rewrite print_unfold in H. simpl in H.
  injection H as <-. simpl. split; [reflexivity|].
  exists s. split; [exact He|]. split; [subst s; apply strip_idem | exact Hl].
Qed.

(** How the guarded [try] block of the view can end. *)
Lemma handle_guarded_cases (key request_id : string) (files : Files)
    (w : World) :
  match fst (handle_guarded env key request_id files w) with
  | Ok resp =>
      (status resp = 200
       /\ exists s, Text.is_empty s = false /\ Text.strip s = s
                    /\ json_loads env s = inr (body resp))
      \/ (exists e, fst (handle_try env key (scratch request_id) files w)
                    = Raise e
                    /\ ((is_api_timeout e = true /\ status resp = 503)
                        \/ (is_Exception e = true /\ status resp = 500)))
  | Raise e => is_Exception e = false
  end.
Proof.
  unfold handle_guarded, try_except.
  pose proof (handle_try_Ok key (scratch request_id) files w) as Hok.
  destruct (handle_try env key (scratch request_id) files w) as [[resp|e] w1].
  - left. apply Hok. reflexivity.
  - unfold handle_handlers, select_handler. simpl fst.
    destruct (is_api_timeout e) eqn:Ht.
    + unfold bind. rewrite print_unfold. simpl. right. exists e. auto.
    + destruct (is_Exception e) eqn:Hx.
      * unfold bind, print_exc, get. rewrite print_unfold. simpl.
        right. exists e. auto.
      * simpl. exact Hx.
Qed.

(** When the scratch directory cannot be made, the view raises what
    [os.makedirs] raised. *)
Lemma handle_prefix_fail (c : ascii) (k request_id : string) (files : Files)
    (w : World) (e : exn) :
  has_part "questions.txt" files = true ->
  fst (os_makedirs (scratch request_id) w) = Raise e ->
  fst (handle_analysis_request env (Some (String c k)) request_id files w)
  = Raise e
  /\ fs (snd (handle_analysis_request env (Some (String c k)) request_id
                files w))
     = fs (snd (os_makedirs (scratch request_id) w)).
Proof.
  intros Hpart Hmk. rewrite (handle_unfold env _ _ _ _ _ Hpart).
  unfold handle_prefix, bind. rewrite print_unfold.
  unfold os_makedirs at 1 2. rewrite stream_blind_makedirs.
  fold (os_makedirs (scratch request_id)).
  destruct (os_makedirs (scratch request_id) w) as [[[]|e'] w1];
    simpl in Hmk; [discriminate|].
  injection Hmk as ->. split; reflexivity.
Qed.

End MoreHandleFacts.

Section MoreHandleClaims.

Variable env : Env.
Variable request_id : string.
Variable files : Files.

(** Whenever the view returns, the status is 200, 400, 500 or 503; and
    with 200 the body is what [json.loads] makes of a non-empty text
    without whitespace at either end. *)
Theorem handler_statuses (key : option string) (w : World) (resp : Response) :
  fst (handle_analysis_request env key request_id files w) = Ok resp ->
  (status resp = 200
   /\ exists s, Text.is_empty s = false /\ Text.strip s = s
                /\ json_loads env s = inr (body resp))
  \/ status resp = 400 \/ status resp = 500 \/ status resp = 503.
Proof.
  intros H. destruct key as [[|c k]|].
  - unfold handle_analysis_request, bind in H. rewrite !print_unfold in H.
    injection H as <-. auto.
  - destruct (has_part "questions.txt" files) eqn:Hpart.
    + destruct (fst (os_makedirs (scratch request_id) w)) as [[]|e] eqn:Hmk.
      * rewrite (proj1 (handle_outcome env c k request_id files w Hpart Hmk))
          in H.
        pose proof (handle_guarded_cases env (String c k) request_id files
                      (snd (handle_prefix request_id w))) as G.
        rewrite H in G.
        destruct G as [G | (e & _ & [[_ G] | [_ G]])]; auto.
      * rewrite (proj1 (handle_prefix_fail env c k request_id files w e
                          Hpart Hmk)) in H.
        discriminate.
    + unfold handle_analysis_request, bind in H.
      rewrite print_unfold, Hpart in H. injection H as <-. auto.
  - unfold handle_analysis_request, bind in H. rewrite !print_unfold in H.
    injection H as <-. auto.
Qed.

(** On a script of events the [finally] clause of the view does not fail,
    and the view lets an exception out in two cases only: [os.makedirs]
    failed for the scratch directory, or the exception is no instance of
    [Exception]. *)
Lemma handler_lets_out_events (key : option string) (w : World) (e : exn) :
  fst (handle_analysis_request env key request_id files w) = Raise e ->
  fst (os_makedirs (scratch request_id) w) = Raise e
  \/ is_Exception e = false.
Proof.
  intros H. destruct key as [[|c k]|].
  - unfold handle_analysis_request, bind in H. rewrite !print_unfold in H.
    discriminate.
  - destruct (has_part "questions.txt" files) eqn:Hpart.
    + destruct (fst (os_makedirs (scratch request_id) w)) as [[]|e0] eqn:Hmk.
      * rewrite (proj1 (handle_outcome env c k request_id files w Hpart Hmk))
          in H.
        pose proof (handle_guarded_cases env (String c k) request_id files
                      (snd (handle_prefix request_id w))) as G.
        rewrite H in G. auto.
      * rewrite (proj1 (handle_prefix_fail env c k request_id files w e0
                          Hpart Hmk)) in H.
        injection H as ->. auto.
    + unfold handle_analysis_request, bind in H.
      rewrite print_unfold, Hpart in H. discriminate.
  - unfold handle_analysis_request, bind in H. rewrite !print_unfold in H.
    discriminate.
Qed.

End MoreHandleClaims.

Lemma handler_statuses_witness :
  fst (handle_analysis_request Demo.env_timeout (Some "key") "r1"
         Demo.request Demo.world)
  = Ok {| status := 503;
          body := error_details_body
            "The analysis service API is currently overloaded or the request timed out."
            "504 Deadline Exceeded" |}
  /\ ((503 = 200
       /\ exists s, Text.is_empty s = false /\ Text.strip s = s
            /\ json_loads Demo.env_timeout s
               = inr (error_details_body
                        "The analysis service API is currently overloaded or the request timed out."
                        "504 Deadline Exceeded"))
      \/ 503 = 400 \/ 503 = 500 \/ 503 = 503).
Proof.
  assert (fst (handle_analysis_request Demo.env_timeout (Some "key") "r1"
                 Demo.request Demo.world)
          = Ok {| status := 503;
                  body := error_details_body
                    "The analysis service API is currently overloaded or the request timed out."
                    "504 Deadline Exceeded" |}) as H
    by (vm_compute; reflexivity).
  split; [exact H|].
  exact (handler_statuses Demo.env_timeout "r1" Demo.request (Some "key")
           Demo.world _ H).
Defined.

(** ** The process-wide streams across a request *)

Section StdFacts.

Variable env : Env.

Lemma print_exc_std (e : exn) : preserves std_kept (print_exc e).
Proof. unfold print_exc. frame. Qed.

Lemma makedirs_from_std (depth : nat) (p : ospath) :
  preserves std_kept (makedirs_from depth p).
Proof.
  revert p. induction depth as [|depth IH]; intros p; cbn [makedirs_from]; frame.
Qed.

Lemma shutil_rmtree_std (p : ospath) : preserves std_kept (shutil_rmtree p).
Proof.
  intros w. unfold shutil_rmtree. cbv zeta.
  destruct (fs w !! resolve w p) as [[|c]|]; split; reflexivity.
Qed.

Lemma save_uploads_std (temp_dir : ospath) (parts_left : Files)
    (uploaded_files : list string) :
  preserves std_kept (save_uploads temp_dir parts_left uploaded_files).
Proof.
  revert uploaded_files.
  induction parts_left as [|[filename file_storage] rest IH];
    intros uploaded_files; simpl; frame.
Qed.

Hint Resolve print_exc_std makedirs_from_std shutil_rmtree_std
  save_uploads_std run_std : frame.

Lemma handle_std (key : option string) (request_id : string) (files : Files) :
  preserves std_kept (handle_analysis_request env key request_id files).
Proof.
  unfold handle_analysis_request, handle_try, handle_handlers, cleanup,
    os_makedirs.
  frame.
Qed.

End StdFacts.

(** After [run], and after the view, [sys.stdout] and [sys.stderr] are
    the stream objects they were before, whichever way the call ended:
    the redirection made for the script never outlives the call. *)
Theorem streams_bound_as_before (env : Env) :
  (forall self question files w,
      sys_stdout (snd (run env self question files w)) = sys_stdout w
      /\ sys_stderr (snd (run env self question files w)) = sys_stderr w)
  /\ (forall key request_id files w,
      sys_stdout (snd (handle_analysis_request env key request_id files w))
      = sys_stdout w
      /\ sys_stderr (snd (handle_analysis_request env key request_id files w))
         = sys_stderr w).
Proof.
  split.
  - intros self question files w. apply (run_std env self question files w).
  - intros key request_id files w.
    apply (handle_std env key request_id files w).
Qed.

(** ** Saving the uploaded parts *)

Section UploadFacts.

Lemma resolve_join (w : World) (p : ospath) (name : string) :
  resolve w (path_join p name) = resolve w p ++ [name].
Proof.
  unfold resolve, path_join. simpl.
  destruct (absolute p); [reflexivity | apply app_assoc].
Qed.

Lemma resolve_cwd (w w' : World) (p : ospath) :
  cwd w' = cwd w -> resolve w' p = resolve w p.
Proof. unfold resolve. intros ->. reflexivity. Qed.

(** [write_file] touches the file it writes and nothing else. *)
Lemma write_file_other (p : ospath) (content : string) (w : World) (q : path) :
  q <> resolve w p ->
  fs (snd (write_file p content w)) !! q = fs w !! q.
Proof.
  intros H. unfold write_file. cbv zeta.
  destruct (_ || _); [reflexivity|].
  destruct (is_dir _ _); [|reflexivity].
  simpl. apply lookup_insert_ne. congruence.
Qed.

Lemma write_file_Ok (p : ospath) (content : string) (w : World) :
  fst (write_file p content w) = Ok tt ->
  fs (snd (write_file p content w)) !! resolve w p = Some (File content).
Proof.
  unfold write_file. cbv zeta.
  destruct (_ || _); [discriminate|].
  destruct (is_dir _ _); [|discriminate].
  intros _. simpl. apply lookup_insert_eq.
Qed.

(** A file stays a file under [write_file]. *)
Lemma write_file_keeps_file (p : ospath) (content : string) (w : World)
    (q : path) :
  (exists c, fs w !! q = Some (File c)) ->
  exists c, fs (snd (write_file p content w)) !! q = Some (File c).
Proof.
  intros [c Hc]. unfold write_file. cbv zeta.
  destruct (_ || _); [eauto|].
  destruct (is_dir _ _); [|eauto].
  simpl. destruct (decide (resolve w p = q)) as [->|Hne].
  - rewrite lookup_insert_eq. eauto.
  - rewrite lookup_insert_ne by exact Hne. eauto.
Qed.

Lemma save_uploads_cons (temp_dir : ospath) (filename file_storage : string)
    (rest : Files) (uploaded_files : list string) (w : World) :
  save_uploads temp_dir ((filename, file_storage) :: rest) uploaded_files w
  = match write_file (path_join temp_dir (Text.basename filename))
            file_storage w with
    | (Ok _, w1) =>
        save_uploads temp_dir rest
          (if negb (String.eqb (Text.basename filename) "questions.txt")
           then uploaded_files ++ [Text.basename filename]
           else uploaded_files) w1
    | (Raise e, w1) => (Raise e, w1)
    end.
Proof. reflexivity. Qed.

(** The loop writes below the scratch directory only, one level down,
    under the base names of the parts. *)
Lemma save_uploads_other (temp_dir : ospath) (parts_left : Files)
    (uploaded_files : list string) (w : World) (q : path) :
  (forall part, part ∈ parts_left ->
     q <> resolve w temp_dir ++ [Text.basename (fst part)]) ->
  fs (snd (save_uploads temp_dir parts_left uploaded_files w)) !! q
  = fs w !! q.
Proof.
  revert uploaded_files w.
  induction parts_left as [|[filename file_storage] rest IH];
    intros uploaded_files w H; [reflexivity|].
  rewrite save_uploads_cons.
  pose proof (write_file_other (path_join temp_dir (Text.basename filename))
                file_storage w q) as Ho.
  rewrite resolve_join in Ho.
  specialize (Ho (H (filename, file_storage) ltac:(left))).
  pose proof (write_file_cwd (path_join temp_dir (Text.basename filename))
                file_storage w) as Hc.
  destruct (write_file _ _ w) as [[[]|e] w1]; simpl in Ho, Hc; [|exact Ho].
  rewrite IH; [exact Ho|].
  intros part Hp. rewrite (resolve_cwd _ _ _ Hc). apply H. right. exact Hp.
Qed.

(** The names the loop collects: the base names that are not the question
    file, in the order of the parts. *)
Lemma save_uploads_names (temp_dir : ospath) (parts_left : Files)
    (uploaded_files : list string) (w : World) (l : list string) :
  fst (save_uploads temp_dir parts_left uploaded_files w) = Ok l ->
  l = uploaded_files
      ++ List.filter (fun name => negb (String.eqb name "questions.txt"))
           (map (fun part => Text.basename (fst part)) parts_left).
Proof.
  revert uploaded_files w.
  induction parts_left as [|[filename file_storage] rest IH];
    intros uploaded_files w H.
  - simpl in H. injection H as <-. simpl. rewrite app_nil_r. reflexivity.
  - rewrite save_uploads_cons in H.
    destruct (write_file _ _ w) as [[[]|e] w1]; [|discriminate].
    apply IH in H. rewrite H. simpl.
    destruct (negb (String.eqb (Text.basename filename) "questions.txt"));
      [rewrite <- app_assoc|]; reflexivity.
Qed.

(** Once a part named [questions.txt] is saved, the question file is a
    file until the loop ends. *)
Lemma save_uploads_question (temp_dir : ospath) (parts_left : Files)
    (uploaded_files : list string) (w : World) (l : list string) :
  fst (save_uploads temp_dir parts_left uploaded_files w) = Ok l ->
  (exists c, fs w !! (resolve w temp_dir ++ ["questions.txt"]) = Some (File c))
  \/ (exists part, part ∈ parts_left
                   /\ Text.basename (fst part) = "questions.txt") ->
  exists c,
    fs (snd (save_uploads temp_dir parts_left uploaded_files w))
    !! (resolve w temp_dir ++ ["questions.txt"]) = Some (File c).
Proof.
  revert uploaded_files w.
  induction parts_left as [|[filename file_storage] rest IH];
    intros uploaded_files w H Hq.
  - destruct Hq as [Hq | (part & Hin & _)]; [exact Hq|].
    apply elem_of_nil in Hin. contradiction.
  - rewrite save_uploads_cons in *.
    pose proof (write_file_keeps_file
                  (path_join temp_dir (Text.basename filename)) file_storage w
                  (resolve w temp_dir ++ ["questions.txt"])) as Hk.
    pose proof (write_file_Ok (path_join temp_dir (Text.basename filename))
                  file_storage w) as Hw.
    pose proof (write_file_cwd (path_join temp_dir (Text.basename filename))
                  file_storage w) as Hc.
    rewrite resolve_join in Hw.
    destruct (write_file _ _ w) as [[[]|e] w1]; [|discriminate].
    simpl in Hk, Hw, Hc.
    rewrite <- (resolve_cwd _ _ temp_dir Hc).
    apply (IH _ _ H). rewrite (resolve_cwd _ _ temp_dir Hc).
    destruct Hq as [Hq | (part & Hin & Hb)]; [left; apply Hk, Hq|].
    apply elem_of_cons in Hin as [->|Hin].
    + left. simpl in Hb. rewrite Hb in Hw. eauto.
    + right. eauto.
Qed.

(** A name among the parts is among the pairs [items] yields. *)
Lemma items_from_has_part (name : string) (seen : list string) (files : Files) :
  existsb (String.eqb name) seen = false ->
  has_part name files = true ->
  exists content, (name, content) ∈ items_from seen files.
Proof.
  revert seen. induction files as [|[n c] rest IH]; intros seen Hs H;
    [discriminate|].
  unfold has_part in H. simpl in H. fold (has_part name rest) in H.
  cbn [items_from fst].
  destruct (String.eqb n name) eqn:En.
  - apply String.eqb_eq in En as ->. rewrite Hs.
    exists c. left.
  - simpl in H. destruct (existsb (String.eqb n) seen).
    + apply IH; assumption.
    + destruct (IH (n :: seen)) as [c' Hc']; [|exact H|].
      * simpl. rewrite String.eqb_sym, En. exact Hs.
      * exists c'. right. exact Hc'.
Qed.

End UploadFacts.

Section UploadClaims.

Variable temp_dir : ospath.
Variable files : Files.

(** Saving the uploads changes nothing outside the scratch directory and
    nothing deeper than one level inside it: whatever path holds something
    else after the loop is the scratch directory followed by the base name
    of a part, and a base name holds no slash. *)
Theorem uploads_stay_in_scratch (w : World) (q : path) :
  fs (snd (save_uploads temp_dir (items files) [] w)) !! q <> fs w !! q ->
  exists part,
    part ∈ items files
    /\ q = resolve w temp_dir ++ [Text.basename (fst part)]
    /\ Text.contains "/" (Text.basename (fst part)) = false.
Proof.
  intros H.
  destruct (decide (Exists (fun part =>
              q = resolve w temp_dir ++ [Text.basename (fst part)])
              (items files))) as [E|E].
  - apply Exists_exists in E as (part & Hin & Hq).
    exists part. split; [exact Hin|]. split; [exact Hq|].
    apply basename_no_slash.
  - exfalso. apply H, save_uploads_other.
    intros part Hin Hq. apply E, Exists_exists. eauto.
Qed.

(** When the request has a part named [questions.txt] and every part is
    saved, the loop returns the base names of the parts other than the
    question file, in order, and the question file can be read: opening it
    on line 49 does not fail. *)
Theorem uploads_saved (w : World) (l : list string) :
  has_part "questions.txt" files = true ->
  fst (save_uploads temp_dir (items files) [] w) = Ok l ->
  l = List.filter (fun name => negb (String.eqb name "questions.txt"))
        (map (fun part => Text.basename (fst part)) (items files))
  /\ exists content,
       fst (read_file (path_join temp_dir "questions.txt")
              (snd (save_uploads temp_dir (items files) [] w)))
       = Ok content.
Proof.
  intros Hpart H. split; [apply (save_uploads_names _ _ _ _ _ H)|].
  destruct (items_from_has_part "questions.txt" [] files eq_refl Hpart)
    as [c Hc].
  destruct (save_uploads_question temp_dir (items files) [] w l H) as [c' Hc'].
  { right. exists ("questions.txt", c). split; [exact Hc | reflexivity]. }
  pose proof (save_uploads_cwd temp_dir (items files) [] w) as Hcwd.
  exists c'. unfold read_file.
  rewrite resolve_join, (resolve_cwd _ _ _ Hcwd).
  match goal with
  | |- context [fs ?a !! ?k] =>
      replace (fs a !! k) with (Some (File c')) by (symmetry; exact Hc')
  end.
  reflexivity.
Qed.

End UploadClaims.

Lemma uploads_stay_in_scratch_witness :
  exists part,
    part ∈ items Demo.request
    /\ ["srv"; "temp"; "r1"; "data.csv"]
       = resolve Demo.world_with_scratch (scratch "r1")
         ++ [Text.basename (fst part)]
    /\ Text.contains "/" (Text.basename (fst part)) = false.
Proof.
  apply (uploads_stay_in_scratch (scratch "r1") Demo.request
           Demo.world_with_scratch ["srv"; "temp"; "r1"; "data.csv"]).
  vm_compute. discriminate.
Defined.

Lemma uploads_saved_witness :
  fst (save_uploads (scratch "r1")
         (items [("questions.txt", "How many?"); ("../../etc/data.csv", "a,b");
                 ("questions.txt", "again")]) [] Demo.world_with_scratch)
  = Ok ["data.csv"]
  /\ exists content,
       fst (read_file (path_join (scratch "r1") "questions.txt")
              (snd (save_uploads (scratch "r1")
                      (items [("questions.txt", "How many?");
                              ("../../etc/data.csv", "a,b");
                              ("questions.txt", "again")]) []
                      Demo.world_with_scratch)))
       = Ok content.
Proof.
  assert (fst (save_uploads (scratch "r1")
                 (items [("questions.txt", "How many?");
                         ("../../etc/data.csv", "a,b");
                         ("questions.txt", "again")]) []
                 Demo.world_with_scratch)
          = Ok ["data.csv"]) as H
    by (vm_compute; reflexivity).
  split; [exact H|].
  exact (proj2 (uploads_saved (scratch "r1")
                  [("questions.txt", "How many?");
                   ("../../etc/data.csv", "a,b");
                   ("questions.txt", "again")]
                  Demo.world_with_scratch _ eq_refl H)).
Defined.

(** ** Making the directories *)

Section DirectoryFacts.

Lemma os_mkdir_new (p : ospath) (w : World) :
  fs w !! resolve w p = None ->
  fs w !! removelast (resolve w p) = Some Dir ->
  plain_name (List.last (parts p) "") = true ->
  os_mkdir p w = (Ok tt, set_fs (<[resolve w p := Dir]> (fs w)) w).
Proof. intros H1 H2 H3. unfold os_mkdir. cbv zeta. rewrite H1, H2, H3. reflexivity. Qed.

Lemma os_mkdir_exists (p : ospath) (w : World) :
  is_Some (fs w !! resolve w p) ->
  os_mkdir p w
  = (Raise (new_exn FileExistsError
              ("[Errno 17] File exists: " +:+ path_str p)), w).
Proof. intros [x H]. unfold os_mkdir. cbv zeta. rewrite H. reflexivity. Qed.

Lemma is_dir_lookup (f : gmap path node) (p : path) :
  is_dir f p = true -> f !! p = Some Dir.
Proof.
  unfold is_dir. destruct (f !! p) as [[|c]|]; [reflexivity | discriminate..].
Qed.

Lemma scratch_resolve (request_id : string) (w : World) :
  resolve w (scratch request_id) = cwd w ++ ["temp"; request_id].
Proof. reflexivity. Qed.

Lemma removelast_two (l : list string) (a b : string) :
  removelast (l ++ [a; b]) = l ++ [a].
Proof.
  change (l ++ [a; b]) with (l ++ ([a] ++ [b])).
  rewrite app_assoc. apply removelast_last.
Qed.

(** [os.makedirs] on the scratch path when [temp] is there. *)
Lemma makedirs_scratch_unfold (request_id : string) (w : World) :
  is_Some (fs w !! (cwd w ++ ["temp"])) ->
  os_makedirs (scratch request_id) w = os_mkdir (scratch request_id) w.
Proof.
  intros H. unfold os_makedirs.
  change (length (parts (scratch request_id))) with 2.
  cbn [makedirs_from]. cbv zeta. unfold bind at 1.
  change (removelast (parts (scratch request_id))) with ["temp"].
  rewrite bool_decide_eq_true_2 by discriminate.
  unfold bind, os_path_exists, get.
  change (resolve w {| absolute := absolute (scratch request_id);
                       parts := ["temp"] |})
    with (cwd w ++ ["temp"]).
  rewrite bool_decide_eq_true_2 by exact H. reflexivity.
Qed.

(** [os.makedirs] on the scratch path when [temp] is missing. *)
Lemma makedirs_scratch_fresh (request_id : string) (w : World) :
  fs w !! (cwd w ++ ["temp"]) = None ->
  is_dir (fs w) (cwd w) = true ->
  os_makedirs (scratch request_id) w
  = os_mkdir (scratch request_id)
      (set_fs (<[cwd w ++ ["temp"] := Dir]> (fs w)) w).
Proof.
  intros H Hc. unfold os_makedirs.
  change (length (parts (scratch request_id))) with 2.
  cbn [makedirs_from]. cbv zeta. unfold bind at 1.
  change (removelast (parts (scratch request_id))) with ["temp"].
  rewrite bool_decide_eq_true_2 by discriminate.
  unfold bind at 1, os_path_exists, get.
  change (resolve w {| absolute := absolute (scratch request_id);
                       parts := ["temp"] |})
    with (cwd w ++ ["temp"]).
  rewrite (bool_decide_eq_false_2 (is_Some (fs w !! (cwd w ++ ["temp"]))))
    by (rewrite H; intros [x Hx]; discriminate).
  unfold try_except, bind.
  change (removelast (parts {| absolute := absolute (scratch request_id);
                               parts := ["temp"] |}))
    with (@nil string).
  rewrite (bool_decide_eq_false_2 (_ <> []))
    by (intros Hn; apply Hn; reflexivity).
  unfold ret at 1.
  rewrite os_mkdir_new; [reflexivity | exact H | | reflexivity].
  change (resolve w {| absolute := absolute (scratch request_id);
                       parts := ["temp"] |})
    with (cwd w ++ ["temp"]).
  rewrite removelast_last. exact (is_dir_lookup _ _ Hc).
Qed.

Lemma startup_there (w : World) :
  is_Some (fs w !! resolve w (relative ["temp"])) -> startup w = (Ok tt, w).
Proof.
  intros H. unfold startup, bind, os_path_exists, get.
  rewrite (bool_decide_eq_true_2 _ H). reflexivity.
Qed.

Lemma startup_missing (w : World) :
  fs w !! resolve w (relative ["temp"]) = None ->
  startup w = os_makedirs (relative ["temp"]) w.
Proof.
  intros H. unfold startup, bind, os_path_exists, get.
  rewrite bool_decide_eq_false_2; [reflexivity|].
  rewrite H. intros [x Hx]. discriminate.
Qed.

End DirectoryFacts.

Section DirectoryClaims.

Variable env : Env.
Variable request_id : string.

(** [os.makedirs] makes the scratch directory whenever the identifier is
    a plain name, nothing exists at the scratch path, and [temp] is a
    directory or is missing below a working directory that exists: the
    view makes [temp] itself when it has to. *)
Theorem scratch_made (w : World) :
  plain_name request_id = true ->
  fs w !! (cwd w ++ ["temp"; request_id]) = None ->
  is_dir (fs w) (cwd w ++ ["temp"]) = true
  \/ (fs w !! (cwd w ++ ["temp"]) = None /\ is_dir (fs w) (cwd w) = true) ->
  fst (os_makedirs (scratch request_id) w) = Ok tt
  /\ is_dir (fs (snd (os_makedirs (scratch request_id) w)))
       (cwd w ++ ["temp"; request_id]) = true.
Proof.
  intros Hplain Hnew [Htemp | [Htemp Hcwd]].
  - pose proof (is_dir_lookup _ _ Htemp) as E.
    rewrite makedirs_scratch_unfold by (exists Dir; exact E).
    rewrite os_mkdir_new.
    + split; [reflexivity|]. unfold is_dir. simpl.
      rewrite scratch_resolve, lookup_insert_eq. reflexivity.
    + exact Hnew.
    + rewrite scratch_resolve, removelast_two. exact E.
    + exact Hplain.
  - rewrite (makedirs_scratch_fresh _ _ Htemp Hcwd).
    rewrite os_mkdir_new.
    + split; [reflexivity|]. unfold is_dir. simpl.
      rewrite scratch_resolve. simpl. rewrite lookup_insert_eq. reflexivity.
    + simpl. rewrite scratch_resolve. simpl.
      rewrite lookup_insert_ne; [exact Hnew|].
      intros Heq. apply (f_equal length) in Heq.
      rewrite !length_app in Heq. simpl in Heq. lia.
    + simpl. rewrite scratch_resolve. simpl.
      rewrite removelast_two, lookup_insert_eq. reflexivity.
    + exact Hplain.
Qed.

(** When something already exists at the scratch path, the view raises
    [FileExistsError] from [os.makedirs], outside its [try] statement: no
    response is made, and what exists is left alone. *)
Theorem scratch_collision (key : option string) (files : Files) (w : World) :
  configured key = true ->
  has_part "questions.txt" files = true ->
  is_Some (fs w !! (cwd w ++ ["temp"])) ->
  is_Some (fs w !! (cwd w ++ ["temp"; request_id])) ->
  fst (handle_analysis_request env key request_id files w)
  = Raise (new_exn FileExistsError
             ("[Errno 17] File exists: " +:+ path_str (scratch request_id)))
  /\ fs (snd (handle_analysis_request env key request_id files w)) = fs w.
Proof.
  intros Hkey Hpart Htemp Hthere.
  destruct key as [[|c k]|]; try discriminate Hkey.
  assert (os_makedirs (scratch request_id) w
          = (Raise (new_exn FileExistsError
                      ("[Errno 17] File exists: "
                       +:+ path_str (scratch request_id))), w)) as E.
  { rewrite (makedirs_scratch_unfold _ _ Htemp).
    apply os_mkdir_exists. rewrite scratch_resolve. exact Hthere. }
  destruct (handle_prefix_fail env c k request_id files w _ Hpart
              (f_equal fst E)) as [H1 H2].
  rewrite H1, H2, E. split; reflexivity.
Qed.

(** The module-level statements: when they succeed, something named
    [temp] exists, and running them again changes nothing. *)
Theorem startup_once (w : World) :
  fst (startup w) = Ok tt ->
  is_Some (fs (snd (startup w)) !! (cwd w ++ ["temp"]))
  /\ startup (snd (startup w)) = (Ok tt, snd (startup w)).
Proof.
  intros H.
  destruct (fs w !! resolve w (relative ["temp"])) as [x|] eqn:E.
  - rewrite (startup_there w) by (exists x; exact E).
    split; [exists x; exact E | apply startup_there; exists x; exact E].
  - rewrite (startup_missing w E) in *.
    destruct (os_makedirs_Ok _ _ H) as [Hd Hc].
    pose proof (is_dir_lookup _ _ Hd) as Hs.
    split; [exists Dir; exact Hs|].
    apply startup_there. exists Dir.
    unfold resolve. rewrite Hc. exact Hs.
Qed.

(** The module-level statements make [temp] when it is missing below a
    working directory that exists, and touch nothing else. *)
Theorem startup_makes_temp (w : World) :
  fs w !! (cwd w ++ ["temp"]) = None ->
  is_dir (fs w) (cwd w) = true ->
  fst (startup w) = Ok tt
  /\ fs (snd (startup w)) = <[cwd w ++ ["temp"] := Dir]> (fs w).
Proof.
  intros Hnone Hcwd. rewrite (startup_missing w Hnone).
  unfold os_makedirs. change (length (parts (relative ["temp"]))) with 1.
  cbn [makedirs_from]. cbv zeta. unfold bind.
  rewrite (bool_decide_eq_false_2 (_ <> []))
    by (intros Hn; apply Hn; reflexivity).
  unfold ret. rewrite os_mkdir_new.
  - split; reflexivity.
  - exact Hnone.
  - change (resolve w (relative ["temp"])) with (cwd w ++ ["temp"]).
    rewrite removelast_last. exact (is_dir_lookup _ _ Hcwd).
  - reflexivity.
Qed.

End DirectoryClaims.

Lemma scratch_made_witness :
  plain_name "r1" = true
  /\ fs Demo.world !! (cwd Demo.world ++ ["temp"; "r1"]) = None
  /\ fst (os_makedirs (scratch "r1") Demo.world) = Ok tt
  /\ is_dir (fs (snd (os_makedirs (scratch "r1") Demo.world)))
       (cwd Demo.world ++ ["temp"; "r1"]) = true.
Proof.
  assert (plain_name "r1" = true) as H1 by reflexivity.
  assert (fs Demo.world !! (cwd Demo.world ++ ["temp"; "r1"]) = None) as H2
    by (vm_compute; reflexivity).
  assert (fs Demo.world !! (cwd Demo.world ++ ["temp"]) = None
          /\ is_dir (fs Demo.world) (cwd Demo.world) = true) as H3
    by (split; vm_compute; reflexivity).
  split; [exact H1|]. split; [exact H2|].
  exact (scratch_made "r1" Demo.world H1 H2 (or_intror H3)).
Defined.

Lemma scratch_collision_witness :
  fst (handle_analysis_request
         (Demo.env Demo.script_json Demo.prints_json)
         (Some "key") "r1" Demo.request Demo.world_with_scratch)
  = Raise (new_exn FileExistsError
             ("[Errno 17] File exists: " +:+ path_str (scratch "r1")))
  /\ fs (snd (handle_analysis_request
                (Demo.env Demo.script_json Demo.prints_json)
                (Some "key") "r1" Demo.request Demo.world_with_scratch))
     = fs Demo.world_with_scratch.
Proof.
  assert (is_Some (fs Demo.world_with_scratch
                   !! (cwd Demo.world_with_scratch ++ ["temp"]))) as H1
    by (exists Dir; vm_compute; reflexivity).
  assert (is_Some (fs Demo.world_with_scratch
                   !! (cwd Demo.world_with_scratch ++ ["temp"; "r1"]))) as H2
    by (exists Dir; vm_compute; reflexivity).
  exact (scratch_collision (Demo.env Demo.script_json Demo.prints_json)
           "r1" (Some "key") Demo.request Demo.world_with_scratch
           eq_refl eq_refl H1 H2).
Defined.

Lemma startup_once_witness :
  fst (startup Demo.world) = Ok tt
  /\ is_Some (fs (snd (startup Demo.world)) !! (cwd Demo.world ++ ["temp"]))
  /\ startup (snd (startup Demo.world)) = (Ok tt, snd (startup Demo.world)).
Proof.
  assert (fst (startup Demo.world) = Ok tt) as H by (vm_compute; reflexivity).
  split; [exact H|]. exact (startup_once Demo.world H).
Defined.

Lemma startup_makes_temp_witness :
  fs Demo.world !! (cwd Demo.world ++ ["temp"]) = None
  /\ is_dir (fs Demo.world) (cwd Demo.world) = true
  /\ fst (startup Demo.world) = Ok tt
  /\ fs (snd (startup Demo.world))
     = <[cwd Demo.world ++ ["temp"] := Dir]> (fs Demo.world).
Proof.
  assert (fs Demo.world !! (cwd Demo.world ++ ["temp"]) = None) as H1
    by (vm_compute; reflexivity).
  assert (is_dir (fs Demo.world) (cwd Demo.world) = true) as H2
    by (vm_compute; reflexivity).
  split; [exact H1|]. split; [exact H2|].
  exact (startup_makes_temp Demo.world H1 H2).
Defined.


(** ** A response cut off inside its block *)

Section UnclosedFence.

Lemma contains_tail (p : string) (c : ascii) (s : string) :
  Text.contains p (String c s) = false -> Text.contains p s = false.
Proof.
  rewrite contains_cons. intros H. apply orb_false_iff in H. apply H.
Qed.

Lemma contains_skip (p : string) (n : nat) (s : string) :
  Text.contains p s = false -> Text.contains p (Text.skip n s) = false.
Proof.
  revert s. induction n as [|n IH]; intros s H; [destruct s; exact H|].
  destruct s as [|c s]; [exact H|]. simpl. apply IH, (contains_tail _ _ _ H).
Qed.

(** Without a fence ahead, the second group and the closing fence fail. *)
Lemma block_body_no_fence (s : string) (caps : Regex.captures) :
  Text.contains "```" s = false ->
  Regex.matches block_body s caps Regex.accept = None.
Proof.
  intros H. unfold block_body. cbn [Regex.matches].
  destruct s as [|c s]; [reflexivity|].
  rewrite space_or_not_true.
  apply (star_no_fence _ _
           (fun s' => (2, Regex.consumed (String c s) s') :: caps)
           Regex.accept (contains_tail _ _ _ H)).
Qed.

(** Giving whitespace back does not help either. *)
Lemma tag_no_fence (s : string) (mk : string -> Regex.captures) :
  Text.contains "```" s = false ->
  Regex.star Text.isspace s
    (fun s' => Regex.matches block_body s' (mk s') Regex.accept) = None.
Proof.
  induction s as [|c s IH]; intros H.
  - reflexivity.
  - rewrite star_cons, (IH (contains_tail _ _ _ H)).
    rewrite (block_body_no_fence _ _ H).
    destruct (Text.isspace c); reflexivity.
Qed.

(** At an opening fence that no other fence follows, the pattern fails. *)
Lemma pattern_unclosed (rest : string) :
  Text.contains "```" rest = false ->
  Regex.matches code_block_pattern ("```" +:+ rest) [] Regex.accept = None.
Proof.
  intros H. unfold code_block_pattern. cbn [Regex.matches].
  rewrite matches_lit.
  change (Text.startswith "```" ("```" +:+ rest)) with true. cbv iota.
  change (Text.skip (String.length "```") ("```" +:+ rest)) with rest.
  unfold language_tag at 1. cbn [Regex.matches].
  rewrite matches_lit, (block_body_no_fence _ _ H).
  destruct (Text.startswith "python" rest); [|reflexivity].
  rewrite (tag_no_fence _ _ (contains_skip _ _ _ H)). reflexivity.
Qed.

(** A response whose only fence is the opening one: prose without
    backticks, a fence, and a text in which no further fence begins, not
    even one that shares backticks with the opening fence.  The pattern
    does not match, and the script is the whole response with the
    whitespace at both ends removed, the prose and the fence included. *)
Theorem extract_code_unclosed (pre rest : string) :
  Text.no_backtick pre = true ->
  Text.contains "```" ("``" +:+ rest) = false ->
  extract_code (pre +:+ "```" +:+ rest)
  = Text.strip (pre +:+ "```" +:+ rest).
Proof.
  intros Hpre H. unfold extract_code.
  rewrite (search_skips_prose _ _ Hpre).
  change ("``" +:+ rest) with (String "`" (String "`" rest)) in H.
  assert (Text.contains "```" rest = false) as Hrest
    by (apply (contains_tail _ "`"), (contains_tail _ "`"), H).
  change ("```" +:+ rest) with (String "`" ("``" +:+ rest)).
  rewrite search_cons.
  change (String "`" ("``" +:+ rest)) with ("```" +:+ rest).
  rewrite (pattern_unclosed _ Hrest).
  change ("``" +:+ rest) with (String "`" (String "`" rest)).
  rewrite (search_no_fence _ H). reflexivity.
Qed.

End UnclosedFence.

Lemma extract_code_unclosed_witness :
  extract_code ("Here is the script:" +:+ "```" +:+ "python print(1)")
  = Text.strip ("Here is the script:" +:+ "```" +:+ "python print(1)").
Proof.
  exact (extract_code_unclosed "Here is the script:" "python print(1)"
           eq_refl eq_refl).
Defined.

(** ** What the prompt carries *)

Section PromptFacts.

Lemma join_cons (sep x y : string) (l : list string) :
  Text.join sep (x :: y :: l) = x +:+ sep +:+ Text.join sep (y :: l).
Proof. reflexivity. Qed.

(** A text found in one element is found in the joined text. *)
Lemma contains_join (p sep : string) (l : list string) (x : string) :
  x ∈ l -> Text.contains p x = true ->
  Text.contains p (Text.join sep l) = true.
Proof.
  intros Hin Hp. induction l as [|y l IH]; [inversion Hin|].
  destruct l as [|z l].
  - apply elem_of_cons in Hin as [->|Hin]; [exact Hp | inversion Hin].
  - rewrite join_cons.
    apply elem_of_cons in Hin as [->|Hin].
    + apply contains_app_l, Hp.
    + apply contains_app_r, contains_app_r, IH, Hin.
Qed.

Lemma contains_self (p : string) : Text.contains p p = true.
Proof.
  destruct p as [|c p]; [reflexivity|].
  rewrite contains_cons.
  replace (Text.startswith (String c p) (String c p)) with true; [reflexivity|].
  symmetry. induction (String c p) as [|d q IH]; [reflexivity|].
  simpl. rewrite Ascii.eqb_refl. exact IH.
Qed.

End PromptFacts.

Section PromptClaims.

(** The prompt carries the question as it was read from the question
    file, character for character, and the name of every file handed to
    [run]: nothing is escaped or left out. *)
Theorem prompt_carries_request (files : list string) (question name : string) :
  name ∈ files ->
  Text.contains question (build_prompt (file_list_str files) question) = true
  /\ Text.contains name (build_prompt (file_list_str files) question) = true.
Proof.
  intros Hin. split.
  - unfold build_prompt.
    apply (contains_join _ _ _ question); [|apply contains_self].
    do 5 apply list_elem_of_further. apply list_elem_of_here.
  - unfold build_prompt.
    eapply contains_join.
    + do 2 apply list_elem_of_further. apply list_elem_of_here.
    + apply contains_app_r, contains_app_l.
      unfold file_list_str. destruct files as [|f files]; [inversion Hin|].
      apply (contains_join _ _ _ name Hin), contains_self.
Qed.

End PromptClaims.

Lemma prompt_carries_request_witness :
  Text.contains "How many rows?"
    (build_prompt (file_list_str ["data.csv"; "more.csv"]) "How many rows?")
  = true
  /\ Text.contains "more.csv"
       (build_prompt (file_list_str ["data.csv"; "more.csv"]) "How many rows?")
     = true.
Proof.
  assert ("more.csv" ∈ ["data.csv"; "more.csv"]) as H
    by (apply list_elem_of_further, list_elem_of_here).
  exact (prompt_carries_request ["data.csv"; "more.csv"] "How many rows?"
           "more.csv" H).
Defined.


(** * Scripts that do anything *)

(** ** [execute_python_code] *)

Section UnconfinedExecFacts.

Variable exec : Unconfined.interpreter.

Lemma stream_getvalue_buffer (h : nat) (w : World) :
  h ∈ buffers w -> Unconfined.stream_getvalue h w = (Ok (getvalue w h), w).
Proof.
  intros H. unfold Unconfined.stream_getvalue.
  rewrite bool_decide_eq_true_2 by exact H. reflexivity.
Qed.

Lemma stream_getvalue_other (h : nat) (w : World) :
  h ∉ buffers w ->
  Unconfined.stream_getvalue h w = (Raise Unconfined.no_getvalue, w).
Proof.
  intros H. unfold Unconfined.stream_getvalue.
  rewrite bool_decide_eq_false_2 by exact H. reflexivity.
Qed.

(** How the [try] statement round [exec] ends: an instance of
    [Exception] is turned into a traceback on [sys.stderr]. *)
Lemma script_guarded_unfold (code : string) (w : World) :
  Unconfined.script_guarded exec code w
  = match exec code w with
    | (Ok u, w2) => (Ok u, w2)
    | (Raise e, w2) =>
        if is_Exception e
        then (Ok tt, snd (stream_write (sys_stderr w2) (format_exc e) w2))
        else (Raise e, w2)
    end.
Proof.
  unfold Unconfined.script_guarded, try_except.
  destruct (exec code w) as [[u|e] w2]; [reflexivity|].
  unfold select_handler. destruct (is_Exception e); reflexivity.
Qed.

(** [execute_python_code] as one step of the interpreter between the
    redirection and the [finally] clause, which restores the streams only
    after both calls of [getvalue]. *)
Lemma unconfined_execute_unfold (code : string) (w : World) :
  Unconfined.execute_python_code exec code w
  = let (res, w4) := Unconfined.script_guarded exec code (redirected w) in
    if bool_decide (sys_stdout w4 ∈ buffers w4) then
      if bool_decide (sys_stderr w4 ∈ buffers w4) then
        (match res with
         | Ok _ => Ok {| stdout := getvalue w4 (sys_stdout w4);
                         stderr := getvalue w4 (sys_stderr w4) |}
         | Raise e => Raise e
         end,
         set_std (sys_stdout w) (sys_stderr w) w4)
      else (Raise Unconfined.no_getvalue, w4)
    else (Raise Unconfined.no_getvalue, w4).
Proof.
  unfold Unconfined.execute_python_code, Unconfined.script_guarded,
    redirected, bind, get, modify, new_StringIO, try_finally, ret,
    Unconfined.stream_getvalue.
  simpl.
  destruct (try_except _ _ _) as [[u|e] w4];
    destruct (bool_decide (sys_stdout w4 ∈ buffers w4));
    destruct (bool_decide (sys_stderr w4 ∈ buffers w4)); reflexivity.
Qed.

End UnconfinedExecFacts.

Section UnconfinedExecClaims.

Variable exec : Unconfined.interpreter.
Variable code : string.

(** C10, as amended.  Whenever [sys.stdout] and [sys.stderr] are bound to
    [io.StringIO] objects when the executed code ends -- as they are
    unless the code binds them to something else -- [execute_python_code]
    leaves [sys.stdout] and [sys.stderr] bound to the objects they were
    bound to before the call, whether the code raised or not; and, unless
    the code raised an exception that is no instance of [Exception],
    which passes through, it returns the dictionary whose [stdout] and
    [stderr] are the texts of those two objects: everything written to
    them, with the traceback after it on [stderr] when the code raised. *)
Theorem execute_python_code_restores_buffers (w : World) :
  let w2 := Unconfined.after_script exec code w in
  sys_stdout w2 ∈ buffers w2 ->
  sys_stderr w2 ∈ buffers w2 ->
  sys_stdout (snd (Unconfined.execute_python_code exec code w)) = sys_stdout w
  /\ sys_stderr (snd (Unconfined.execute_python_code exec code w))
     = sys_stderr w
  /\ fst (Unconfined.execute_python_code exec code w)
     = match fst (exec code (redirected w)) with
       | Ok _ =>
           Ok {| stdout := getvalue w2 (sys_stdout w2);
                 stderr := getvalue w2 (sys_stderr w2) |}
       | Raise e =>
           if is_Exception e
           then Ok {| stdout := getvalue w2 (sys_stdout w2)
                                +:+ (if bool_decide (sys_stdout w2 = sys_stderr w2)
                                     then format_exc e else "");
                      stderr := getvalue w2 (sys_stderr w2) +:+ format_exc e |}
           else Raise e
       end.
Proof.
  intros w2 Hout Herr. subst w2. unfold Unconfined.after_script in *.
  rewrite unconfined_execute_unfold, script_guarded_unfold.
  destruct (exec code (redirected w)) as [[u|e] w2]; simpl in Hout, Herr;
    simpl fst; simpl snd; cbv beta iota.
  - rewrite !bool_decide_eq_true_2 by assumption. auto.
  - destruct (is_Exception e).
    + simpl sys_stdout. simpl sys_stderr. simpl buffers.
      rewrite !bool_decide_eq_true_2 by assumption.
      split; [reflexivity|]. split; [reflexivity|].
      simpl fst. f_equal. f_equal.
      * unfold getvalue at 1. simpl streams.
        destruct (decide (sys_stdout w2 = sys_stderr w2)) as [Heq|Hne].
        -- rewrite bool_decide_eq_true_2 by exact Heq.
           rewrite Heq, lookup_insert_eq. reflexivity.
        -- rewrite bool_decide_eq_false_2 by exact Hne.
           rewrite lookup_insert_ne by congruence.
           rewrite app_empty_r. reflexivity.
      * unfold getvalue at 1. simpl streams.
        rewrite lookup_insert_eq. reflexivity.
    + rewrite !bool_decide_eq_true_2 by assumption. auto.
Qed.

End UnconfinedExecClaims.

Lemma execute_python_code_restores_buffers_witness :
  sys_stdout (snd (Unconfined.execute_python_code
                     (Demo.interpreter Demo.script_moves Demo.moves)
                     Demo.script_moves Demo.world)) = 0
  /\ sys_stderr (snd (Unconfined.execute_python_code
                        (Demo.interpreter Demo.script_moves Demo.moves)
                        Demo.script_moves Demo.world)) = 1
  /\ fst (Unconfined.execute_python_code
            (Demo.interpreter Demo.script_moves Demo.moves)
            Demo.script_moves Demo.world)
     = Ok {| stdout := "[1]" +:+ Demo.nl; stderr := "" |}.
Proof.
  assert (sys_stdout (Unconfined.after_script
                        (Demo.interpreter Demo.script_moves Demo.moves)
                        Demo.script_moves Demo.world)
          ∈ buffers (Unconfined.after_script
                       (Demo.interpreter Demo.script_moves Demo.moves)
                       Demo.script_moves Demo.world)) as H1
    by (vm_compute; reflexivity).
  assert (sys_stderr (Unconfined.after_script
                        (Demo.interpreter Demo.script_moves Demo.moves)
                        Demo.script_moves Demo.world)
          ∈ buffers (Unconfined.after_script
                       (Demo.interpreter Demo.script_moves Demo.moves)
                       Demo.script_moves Demo.world)) as H2
    by (vm_compute; reflexivity).
  exact (execute_python_code_restores_buffers
           (Demo.interpreter Demo.script_moves Demo.moves)
           Demo.script_moves Demo.world H1 H2).
Defined.

(** A script that binds [sys.stdout] to the stream of the process again:
    [getvalue] fails in the [finally] clause, before the line that
    restores the streams, so the call raises [AttributeError], returns no
    dictionary, and leaves [sys.stderr] bound to its [io.StringIO]
    object. *)
Lemma execute_python_code_rebound_counterexample :
  fst (Unconfined.execute_python_code
         (Demo.interpreter Demo.script_rebinds Demo.rebinds)
         Demo.script_rebinds Demo.world)
  = Raise Unconfined.no_getvalue
  /\ sys_stderr Demo.world = 1
  /\ sys_stderr (snd (Unconfined.execute_python_code
                        (Demo.interpreter Demo.script_rebinds Demo.rebinds)
                        Demo.script_rebinds Demo.world)) = 3.
Proof. vm_compute. repeat split. Qed.

(** ** [run] *)

Section UnconfinedRunFacts.

Variable env : Env.
Variable exec : Unconfined.interpreter.

(** [run] once both directories exist: the guarded block runs in the
    scratch directory, and [os.chdir(original_dir)] decides how [run]
    ends. *)
Lemma unconfined_run_unfold (self : DataAnalystAgent) (question : string)
    (files : list string) (w : World) :
  is_dir (fs w) (cwd w) = true ->
  is_dir (fs w) (resolve w (work_dir self)) = true ->
  Unconfined.run env exec self question files w
  = let (r, w') :=
      Unconfined.run_guarded env exec
        (build_prompt (file_list_str files) question)
        (set_cwd (resolve w (work_dir self)) w) in
    if is_dir (fs w') (cwd w)
    then (r, set_cwd (cwd w) w')
    else (Raise (new_exn FileNotFoundError
                   ("[Errno 2] No such file or directory: "
                    +:+ path_str {| absolute := true; parts := cwd w |})),
          w').
Proof.
  intros Hcwd Hwork. unfold Unconfined.run, bind at 1, os_getcwd.
  rewrite Hcwd.
  unfold bind at 1, os_chdir at 1. rewrite Hwork. cbv zeta.
  unfold bind, try_finally.
  destruct (Unconfined.run_guarded env exec _ _) as [r w'].
  unfold os_chdir, resolve. simpl.
  destruct (is_dir (fs w') (cwd w)); [destruct r|]; reflexivity.
Qed.

(** Where the switch to the scratch directory fails, nothing has changed. *)
Lemma unconfined_run_no_switch (self : DataAnalystAgent) (question : string)
    (files : list string) (w : World) :
  is_dir (fs w) (cwd w) && is_dir (fs w) (resolve w (work_dir self)) = false ->
  snd (Unconfined.run env exec self question files w) = w.
Proof.
  intros H. unfold Unconfined.run, bind at 1, os_getcwd.
  destruct (is_dir (fs w) (cwd w)); [|reflexivity].
  unfold bind at 1, os_chdir at 1. simpl in H. rewrite H. reflexivity.
Qed.

End UnconfinedRunFacts.

Section UnconfinedRunClaims.

Variable env : Env.
Variable exec : Unconfined.interpreter.
Variable self : DataAnalystAgent.
Variable question : string.
Variable files : list string.

(** C9, as amended.  Whenever the directory in which [run] was called is
    still a directory when the guarded block ends, [run] leaves the
    working directory as it found it, whatever way it ends; and when both
    directories exist at the start, the guarded block runs in the state
    whose working directory is the scratch directory, and [run] ends as
    that block ends, in the block's final state with the working
    directory set back. *)
Theorem run_restores_cwd_if_there (w : World) :
  is_dir (fs (Unconfined.before_chdir_back env exec self question files w))
    (cwd w) = true ->
  cwd (snd (Unconfined.run env exec self question files w)) = cwd w
  /\ (is_dir (fs w) (cwd w) = true ->
      is_dir (fs w) (resolve w (work_dir self)) = true ->
      Unconfined.run env exec self question files w
      = (fst (Unconfined.run_guarded env exec
                (build_prompt (file_list_str files) question)
                (set_cwd (resolve w (work_dir self)) w)),
         set_cwd (cwd w)
           (Unconfined.before_chdir_back env exec self question files w))).
Proof.
  intros Hthere. unfold Unconfined.before_chdir_back in *.
  assert (is_dir (fs w) (cwd w) = true ->
          is_dir (fs w) (resolve w (work_dir self)) = true ->
          Unconfined.run env exec self question files w
          = (fst (Unconfined.run_guarded env exec
                    (build_prompt (file_list_str files) question)
                    (set_cwd (resolve w (work_dir self)) w)),
             set_cwd (cwd w)
               (snd (Unconfined.run_guarded env exec
                       (build_prompt (file_list_str files) question)
                       (set_cwd (resolve w (work_dir self)) w))))) as Heq.
  { intros H1 H2. rewrite (unconfined_run_unfold env exec _ _ _ _ H1 H2).
    destruct (Unconfined.run_guarded env exec _ _) as [r w'].
    simpl in Hthere. rewrite Hthere. reflexivity. }
  split; [|exact Heq].
  destruct (is_dir (fs w) (cwd w) && is_dir (fs w) (resolve w (work_dir self)))
    eqn:H.
  - apply andb_true_iff in H as [H1 H2]. rewrite (Heq H1 H2). reflexivity.
  - rewrite (unconfined_run_no_switch env exec _ _ _ _ H). reflexivity.
Qed.

End UnconfinedRunClaims.

Lemma run_restores_cwd_if_there_witness :
  cwd (snd (Unconfined.run (Demo.service Demo.script_moves)
              (Demo.interpreter Demo.script_moves Demo.moves)
              Demo.agent "How many rows?" [] Demo.world_with_scratch))
  = ["srv"]
  /\ fst (Unconfined.run (Demo.service Demo.script_moves)
            (Demo.interpreter Demo.script_moves Demo.moves)
            Demo.agent "How many rows?" [] Demo.world_with_scratch)
     = Ok "[1]".
Proof.
  assert (is_dir (fs (Unconfined.before_chdir_back
                        (Demo.service Demo.script_moves)
                        (Demo.interpreter Demo.script_moves Demo.moves)
                        Demo.agent "How many rows?" [] Demo.world_with_scratch))
            (cwd Demo.world_with_scratch) = true) as H
    by (vm_compute; reflexivity).
  split.
  - exact (proj1 (run_restores_cwd_if_there
                    (Demo.service Demo.script_moves)
                    (Demo.interpreter Demo.script_moves Demo.moves)
                    Demo.agent "How many rows?" [] Demo.world_with_scratch H)).
  - vm_compute. reflexivity.
Defined.

(** A script that gives the directory of the server another name:
    [os.chdir(original_dir)] in the [finally] clause raises
    [FileNotFoundError], and the working directory stays the scratch
    directory, under its new name. *)
Lemma run_renamed_counterexample :
  cwd Demo.world_with_scratch = ["srv"]
  /\ fst (Unconfined.run (Demo.service Demo.script_renames)
            (Demo.interpreter Demo.script_renames Demo.renames)
            Demo.agent "How many rows?" [] Demo.world_with_scratch)
     = Raise Demo.server_gone
  /\ cwd (snd (Unconfined.run (Demo.service Demo.script_renames)
                 (Demo.interpreter Demo.script_renames Demo.renames)
                 Demo.agent "How many rows?" [] Demo.world_with_scratch))
     = ["old"; "temp"; "r1"].
Proof. vm_compute. repeat split. Qed.

(** ** The view *)

Section UnconfinedHandleFacts.

Variable env : Env.
Variable exec : Unconfined.interpreter.

(** The view, for a configured key and a request with its question part. *)
Lemma unconfined_handle_unfold (c : ascii) (k request_id : string)
    (files : Files) (w : World) :
  has_part "questions.txt" files = true ->
  Unconfined.handle_analysis_request env exec (Some (String c k)) request_id
    files w
  = (handle_prefix request_id ;;
     let* (response, _) :=
       try_finally (Unconfined.handle_guarded env exec (String c k) request_id
                      files)
         (cleanup (scratch request_id)) in
     ret response) w.
Proof.
  intros H. unfold Unconfined.handle_analysis_request, handle_prefix,
    Unconfined.handle_guarded.
  rewrite H. simpl negb. cbv iota.
  unfold bind. rewrite print_unfold.
  destruct (os_makedirs (scratch request_id) _) as [[[]|e] w1]; [|reflexivity].
  rewrite print_unfold. reflexivity.
Qed.

(** Once the scratch directory is made, the view ends as its [finally]
    clause lets it: with the outcome of the guarded block, or with what
    the clause raised. *)
Lemma unconfined_handle_ends (c : ascii) (k request_id : string)
    (files : Files) (w : World) :
  has_part "questions.txt" files = true ->
  fst (os_makedirs (scratch request_id) w) = Ok tt ->
  Unconfined.handle_analysis_request env exec (Some (String c k)) request_id
    files w
  = match cleanup (scratch request_id)
            (Unconfined.before_cleanup env exec (String c k) request_id files w)
    with
    | (Ok _, w3) =>
        (fst (Unconfined.handle_guarded env exec (String c k) request_id files
                (snd (handle_prefix request_id w))), w3)
    | (Raise e, w3) => (Raise e, w3)
    end.
Proof.
  intros Hpart Hmk. rewrite (unconfined_handle_unfold _ _ _ _ _ Hpart).
  destruct (handle_prefix_Ok _ _ Hmk) as (Hok & _).
  unfold Unconfined.before_cleanup. unfold bind at 1.
  destruct (handle_prefix request_id w) as [[u|e] w1]; simpl in Hok;
    [|discriminate].
  simpl snd. unfold bind, try_finally.
  destruct (Unconfined.handle_guarded env exec (String c k) request_id files w1)
    as [r w2].
  simpl snd. simpl fst.
  destruct (cleanup (scratch request_id) w2) as [[[]|e] w3]; [|reflexivity].
  destruct r; reflexivity.
Qed.


End UnconfinedHandleFacts.

Section UnconfinedHandleClaims.

Variable env : Env.
Variable exec : Unconfined.interpreter.
Variable request_id : string.
Variable files : Files.

(** C5, as amended.  For every request for which the scratch directory is
    made (the key is configured, the question part is there,
    [os.makedirs] succeeds): whenever, at the [finally] clause, the
    working directory is the one the request started in and the scratch
    path names a directory, the view ends as its guarded block ends --
    with a response (200, 503 or 500) or with an exception that is let
    through -- and nothing exists at or below the scratch path when the
    view is left. *)
Theorem scratch_removed_if_in_place (key : string) (w : World) :
  configured (Some key) = true ->
  has_part "questions.txt" files = true ->
  fst (os_makedirs (scratch request_id) w) = Ok tt ->
  cwd (Unconfined.before_cleanup env exec key request_id files w) = cwd w ->
  is_dir (fs (Unconfined.before_cleanup env exec key request_id files w))
    (resolve w (scratch request_id)) = true ->
  fst (Unconfined.handle_analysis_request env exec (Some key) request_id
         files w)
  = fst (Unconfined.handle_guarded env exec key request_id files
           (snd (handle_prefix request_id w)))
  /\ forall p, below (resolve w (scratch request_id)) p = true ->
       fs (snd (Unconfined.handle_analysis_request env exec (Some key)
                  request_id files w)) !! p = None.
Proof.
  intros Hkey Hpart Hmk Hcwd Hdir.
  destruct key as [|c k]; [discriminate Hkey|].
  rewrite (unconfined_handle_ends env exec _ _ _ _ _ Hpart Hmk).
  remember (Unconfined.before_cleanup env exec (String c k) request_id files w)
    as w2 eqn:E. clear E.
  assert (resolve w2 (scratch request_id) = resolve w (scratch request_id))
    as Hr by (unfold resolve; simpl; rewrite Hcwd; reflexivity).
  rewrite <- Hr in Hdir. destruct (cleanup_removes _ _ Hdir) as [Hok Hgone].
  rewrite Hr in Hgone.
  destruct (cleanup (scratch request_id) w2) as [[[]|e] w3]; simpl in Hok;
    [|discriminate].
  split; [reflexivity | exact Hgone].
Qed.


End UnconfinedHandleClaims.

Lemma scratch_removed_if_in_place_witness :
  fst (Unconfined.handle_analysis_request (Demo.service Demo.script_moves)
         (Demo.interpreter Demo.script_moves Demo.moves)
         (Some "key") "r1" Demo.request Demo.world)
  = Ok {| status := 200; body := JArray [JNumber "1"] |}
  /\ fs (snd (Unconfined.handle_analysis_request
                (Demo.service Demo.script_moves)
                (Demo.interpreter Demo.script_moves Demo.moves)
                (Some "key") "r1" Demo.request Demo.world))
     !! ["srv"; "temp"; "r1"; "data.csv"] = None.
Proof.
  assert (cwd (Unconfined.before_cleanup (Demo.service Demo.script_moves)
                 (Demo.interpreter Demo.script_moves Demo.moves)
                 "key" "r1" Demo.request Demo.world)
          = cwd Demo.world) as H1 by (vm_compute; reflexivity).
  assert (is_dir (fs (Unconfined.before_cleanup (Demo.service Demo.script_moves)
                        (Demo.interpreter Demo.script_moves Demo.moves)
                        "key" "r1" Demo.request Demo.world))
            (resolve Demo.world (scratch "r1")) = true) as H2
    by (vm_compute; reflexivity).
  pose proof (scratch_removed_if_in_place (Demo.service Demo.script_moves)
                (Demo.interpreter Demo.script_moves Demo.moves)
                "r1" Demo.request "key" Demo.world
                eq_refl eq_refl eq_refl H1 H2) as [Hres Hgone].
  split.
  - rewrite Hres. vm_compute. reflexivity.
  - exact (Hgone ["srv"; "temp"; "r1"; "data.csv"] eq_refl).
Defined.

(** A script that gives the directory of the server another name: [run]
    cannot go back, the view answers 500, its [finally] clause looks for
    the scratch path from the directory it is left in and finds nothing
    to remove, and the scratch directory is still there after the
    response, with the uploads in it.  And a script that puts a file where
    its scratch directory was: [shutil.rmtree] raises in the [finally]
    clause, and the file is still at the scratch path when the view is
    left. *)
Lemma scratch_renamed_counterexample :
  fst (os_makedirs (scratch "r1") Demo.world) = Ok tt
  /\ (fst (Unconfined.handle_analysis_request
             (Demo.service Demo.script_renames)
             (Demo.interpreter Demo.script_renames Demo.renames)
             (Some "key") "r1" Demo.request Demo.world)
      = Ok {| status := 500;
              body := error_details_body "An internal server error occurred."
                        (exn_msg Demo.server_gone) |}
      /\ is_dir (fs (snd (Unconfined.handle_analysis_request
                            (Demo.service Demo.script_renames)
                            (Demo.interpreter Demo.script_renames Demo.renames)
                            (Some "key") "r1" Demo.request Demo.world)))
           ["old"; "temp"; "r1"] = true
      /\ fs (snd (Unconfined.handle_analysis_request
                    (Demo.service Demo.script_renames)
                    (Demo.interpreter Demo.script_renames Demo.renames)
                    (Some "key") "r1" Demo.request Demo.world))
         !! ["old"; "temp"; "r1"; "data.csv"] = Some (File "a,b"))
  /\ (fst (Unconfined.handle_analysis_request
             (Demo.service Demo.script_replaces)
             (Demo.interpreter Demo.script_replaces Demo.replaces)
             (Some "key") "r1" Demo.request Demo.world)
      = Raise Demo.not_a_directory
      /\ below (resolve Demo.world (scratch "r1")) ["srv"; "temp"; "r1"] = true
      /\ fs (snd (Unconfined.handle_analysis_request
                    (Demo.service Demo.script_replaces)
                    (Demo.interpreter Demo.script_replaces Demo.replaces)
                    (Some "key") "r1" Demo.request Demo.world))
         !! ["srv"; "temp"; "r1"] = Some (File "")).
Proof. vm_compute. repeat split. Qed.


(** ** Scripts that are lists of events

    On the interpreter [exec_code env], whose scripts write to the
    streams, change directory and create files and directories, the
    functions of [Unconfined] are the functions of the first part: such a
    script leaves the two [io.StringIO] objects in place, so [getvalue]
    does not fail. *)

Section Agreement.

Variable env : Env.

Lemma bind_ext {A B : Type} (m m' : M A) (k k' : A -> M B) :
  (forall w, m w = m' w) -> (forall a w, k a w = k' a w) ->
  forall w, bind m k w = bind m' k' w.
Proof.
  intros Hm Hk w. unfold bind. rewrite Hm.
  destruct (m' w) as [[a|e] w']; [apply Hk | reflexivity].
Qed.

Lemma try_except_ext {A : Type} (m m' : M A)
    (handlers : list ((exn -> bool) * (exn -> M A))) :
  (forall w, m w = m' w) ->
  forall w, try_except m handlers w = try_except m' handlers w.
Proof. intros Hm w. unfold try_except. rewrite Hm. reflexivity. Qed.

Lemma try_finally_ext {A B : Type} (m m' : M A) (final : M B) :
  (forall w, m w = m' w) ->
  forall w, try_finally m final w = try_finally m' final w.
Proof. intros Hm w. unfold try_finally. rewrite Hm. reflexivity. Qed.

Lemma stream_write_buffers (h : nat) (s : string) :
  preserves buffers_kept (stream_write h s).
Proof. intros w. reflexivity. Qed.

Lemma os_chdir_buffers (p : ospath) : preserves buffers_kept (os_chdir p).
Proof. intros w. unfold os_chdir. destruct (is_dir _ _); reflexivity. Qed.

Lemma os_mkdir_buffers (p : ospath) : preserves buffers_kept (os_mkdir p).
Proof.
  intros w. unfold os_mkdir.
  destruct (fs w !! resolve w p); [reflexivity|].
  destruct (fs w !! removelast (resolve w p)) as [[|c]|]; try reflexivity.
  destruct (plain_name _); reflexivity.
Qed.

Lemma write_file_buffers (p : ospath) (content : string) :
  preserves buffers_kept (write_file p content).
Proof.
  intros w. unfold write_file.
  destruct (_ || _); [reflexivity|].
  destruct (is_dir _ _); reflexivity.
Qed.

#[local] Hint Resolve stream_write_buffers os_chdir_buffers os_mkdir_buffers
  write_file_buffers : frame.

Lemma perform_buffers (ev : event) : preserves buffers_kept (perform ev).
Proof. destruct ev; simpl; frame. Qed.

#[local] Hint Resolve perform_buffers : frame.

Lemma perform_all_buffers (evs : list event) :
  preserves buffers_kept (perform_all evs).
Proof. induction evs; simpl; frame. Qed.

#[local] Hint Resolve perform_all_buffers : frame.

Lemma exec_code_buffers (code : string) :
  preserves buffers_kept (exec_code env code).
Proof.
  intros w. unfold exec_code.
  generalize (python_exec env code w). intros b. revert w.
  change (preserves buffers_kept
            (perform_all (events b) ;;
             match outcome b with
             | Completes => ret tt
             | Raises e => raise e
             end)).
  frame.
Qed.

#[local] Hint Resolve exec_code_buffers : frame.

(** A script of events ends with the streams bound to the two
    [io.StringIO] objects of the redirection. *)
Lemma events_keep_buffers (code : string) (w : World) :
  sys_stdout (snd (Unconfined.script_guarded (exec_code env) code (redirected w)))
  ∈ buffers (snd (Unconfined.script_guarded (exec_code env) code (redirected w)))
  /\ sys_stderr (snd (Unconfined.script_guarded (exec_code env) code
                        (redirected w)))
     ∈ buffers (snd (Unconfined.script_guarded (exec_code env) code
                       (redirected w))).
Proof.
  assert (preserves std_kept (Unconfined.script_guarded (exec_code env) code))
    as Hstd by (unfold Unconfined.script_guarded; frame).
  assert (preserves buffers_kept
            (Unconfined.script_guarded (exec_code env) code))
    as Hbuf by (unfold Unconfined.script_guarded; frame).
  destruct (Hstd (redirected w)) as [H1 H2].
  pose proof (Hbuf (redirected w)) as H3. unfold buffers_kept in H3.
  rewrite H1, H2, H3. clear Hstd Hbuf H1 H2 H3.
  destruct (redirected_streams w) as (h1 & h2 & Hw & _).
  rewrite Hw. simpl. set_solver.
Qed.

Lemma execute_python_code_events (code : string) (w : World) :
  Unconfined.execute_python_code (exec_code env) code w
  = execute_python_code env code w.
Proof.
  rewrite unconfined_execute_unfold, execute_python_code_unfold.
  destruct (events_keep_buffers code w) as [H1 H2].
  change (try_except (exec_code env code)
            [(is_Exception,
              fun e => let* err := get sys_stderr in
                       stream_write err (format_exc e))])
    with (Unconfined.script_guarded (exec_code env) code).
  destruct (Unconfined.script_guarded (exec_code env) code (redirected w))
    as [res w4].
  simpl in H1, H2. rewrite !bool_decide_eq_true_2 by assumption.
  reflexivity.
Qed.

Lemma run_guarded_events (prompt : string) (w : World) :
  Unconfined.run_guarded env (exec_code env) prompt w
  = run_guarded env prompt w.
Proof.
  revert w. apply try_except_ext.
  apply bind_ext; [reflexivity|]. intros code.
  apply bind_ext; [apply execute_python_code_events | reflexivity].
Qed.

(** [run] on a script of events. *)
Lemma run_events (self : DataAnalystAgent) (question : string)
    (files : list string) (w : World) :
  Unconfined.run env (exec_code env) self question files w
  = run env self question files w.
Proof.
  revert w. apply bind_ext; [reflexivity|]. intros original_dir.
  apply bind_ext; [reflexivity|]. intros _.
  apply bind_ext; [|reflexivity].
  apply try_finally_ext, run_guarded_events.
Qed.

Lemma handle_try_events (key : string) (temp_dir : ospath) (files : Files)
    (w : World) :
  Unconfined.handle_try env (exec_code env) key temp_dir files w
  = handle_try env key temp_dir files w.
Proof.
  revert w. apply bind_ext; [reflexivity|]. intros uploaded_files.
  apply bind_ext; [reflexivity|]. intros raw.
  apply bind_ext; [reflexivity|]. intros question_content.
  apply bind_ext; [apply run_events | reflexivity].
Qed.

(** The view on a script of events. *)
Lemma handle_analysis_request_events (key : option string)
    (request_id : string) (files : Files) (w : World) :
  Unconfined.handle_analysis_request env (exec_code env) key request_id
    files w
  = handle_analysis_request env key request_id files w.
Proof.
  revert w. apply bind_ext; [reflexivity|]. intros _.
  destruct key as [[|c k]|]; try reflexivity.
  destruct (negb (has_part "questions.txt" files)); [reflexivity|].
  cbv zeta.
  apply bind_ext; [reflexivity|]. intros _.
  apply bind_ext; [reflexivity|]. intros _.
  apply bind_ext; [|reflexivity].
  apply try_finally_ext, try_except_ext, handle_try_events.
Qed.

End Agreement.

(** ** Scripts that leave the directories in place *)

Section KeptDirectories.

Variable env : Env.
Variable exec : Unconfined.interpreter.

(** Whatever else the script does, every directory is still a directory
    when it ends. *)
Hypothesis exec_dirs : forall code, preserves dirs_kept (exec code).

Lemma stream_getvalue_any (R : relation World) `{!PreOrder R} (h : nat) :
  preserves R (Unconfined.stream_getvalue h).
Proof.
  intros w. unfold Unconfined.stream_getvalue.
  destruct (bool_decide _); reflexivity.
Qed.

#[local] Hint Resolve stream_getvalue_any print_dirs print_cwd print_exc_dirs
  print_exc_cwd generate_script_dirs check_result_dirs save_uploads_dirs
  save_uploads_cwd : frame.

Lemma unconfined_execute_dirs (code : string) :
  preserves dirs_kept (Unconfined.execute_python_code exec code).
Proof. unfold Unconfined.execute_python_code. frame. Qed.

#[local] Hint Resolve unconfined_execute_dirs : frame.

Lemma unconfined_run_guarded_dirs (prompt : string) :
  preserves dirs_kept (Unconfined.run_guarded env exec prompt).
Proof.
  unfold Unconfined.run_guarded, Unconfined.run_try, run_handlers. frame.
Qed.

#[local] Hint Resolve unconfined_run_guarded_dirs : frame.

Lemma unconfined_run_dirs (self : DataAnalystAgent) (question : string)
    (files : list string) :
  preserves dirs_kept (Unconfined.run env exec self question files).
Proof. unfold Unconfined.run. frame. Qed.

Lemma unconfined_run_cwd (self : DataAnalystAgent) (question : string)
    (files : list string) :
  preserves cwd_kept (Unconfined.run env exec self question files).
Proof.
  intros w. unfold cwd_kept.
  destruct (is_dir (fs w) (cwd w) && is_dir (fs w) (resolve w (work_dir self)))
    eqn:H.
  - apply andb_true_iff in H as [H1 H2].
    rewrite (unconfined_run_unfold env exec _ _ _ _ H1 H2).
    pose proof (unconfined_run_guarded_dirs
                  (build_prompt (file_list_str files) question)
                  (set_cwd (resolve w (work_dir self)) w) (cwd w) H1) as Hkept.
    destruct (Unconfined.run_guarded env exec _ _) as [r w'].
    simpl in Hkept. rewrite Hkept. reflexivity.
  - rewrite (unconfined_run_no_switch env exec _ _ _ _ H). reflexivity.
Qed.

#[local] Hint Resolve unconfined_run_dirs unconfined_run_cwd : frame.

Lemma unconfined_handle_guarded_dirs (key request_id : string)
    (files : Files) :
  preserves dirs_kept (Unconfined.handle_guarded env exec key request_id files).
Proof.
  unfold Unconfined.handle_guarded, Unconfined.handle_try, handle_handlers.
  frame.
Qed.

Lemma unconfined_handle_guarded_cwd (key request_id : string)
    (files : Files) :
  preserves cwd_kept (Unconfined.handle_guarded env exec key request_id files).
Proof.
  unfold Unconfined.handle_guarded, Unconfined.handle_try, handle_handlers.
  frame.
Qed.

(** For a script that leaves every directory in place -- it may bind the
    streams to other objects, remove files, or fail in any way -- [run]
    leaves the working directory as it found it, whatever way it ends;
    and when both directories exist at the start, [run] ends as its
    guarded block ends, in the block's final state with the working
    directory set back. *)
Theorem kept_directories_restore_cwd (self : DataAnalystAgent)
    (question : string) (files : list string) (w : World) :
  cwd (snd (Unconfined.run env exec self question files w)) = cwd w
  /\ (is_dir (fs w) (cwd w) = true ->
      is_dir (fs w) (resolve w (work_dir self)) = true ->
      Unconfined.run env exec self question files w
      = (fst (Unconfined.run_guarded env exec
                (build_prompt (file_list_str files) question)
                (set_cwd (resolve w (work_dir self)) w)),
         set_cwd (cwd w)
           (Unconfined.before_chdir_back env exec self question files w))).
Proof.
  split; [apply unconfined_run_cwd|].
  intros H1 H2. rewrite (unconfined_run_unfold env exec _ _ _ _ H1 H2).
  unfold Unconfined.before_chdir_back.
  pose proof (unconfined_run_guarded_dirs
                (build_prompt (file_list_str files) question)
                (set_cwd (resolve w (work_dir self)) w) (cwd w) H1) as Hkept.
  destruct (Unconfined.run_guarded env exec _ _) as [r w'].
  simpl in Hkept. rewrite Hkept. reflexivity.
Qed.

(** For a script that leaves every directory in place, and a request for
    which the scratch directory is made, the view ends as its guarded
    block ends and nothing exists at or below the scratch path when it is
    left. *)
Theorem kept_directories_remove_scratch (key request_id : string)
    (files : Files) (w : World) :
  configured (Some key) = true ->
  has_part "questions.txt" files = true ->
  fst (os_makedirs (scratch request_id) w) = Ok tt ->
  fst (Unconfined.handle_analysis_request env exec (Some key) request_id
         files w)
  = fst (Unconfined.handle_guarded env exec key request_id files
           (snd (handle_prefix request_id w)))
  /\ forall p, below (resolve w (scratch request_id)) p = true ->
       fs (snd (Unconfined.handle_analysis_request env exec (Some key)
                  request_id files w)) !! p = None.
Proof.
  intros Hkey Hpart Hmk. destruct key as [|c k]; [discriminate Hkey|].
  rewrite (unconfined_handle_ends env exec _ _ _ _ _ Hpart Hmk).
  destruct (handle_prefix_Ok _ _ Hmk) as (_ & Hd & Hc).
  unfold Unconfined.before_cleanup.
  pose proof (unconfined_handle_guarded_dirs (String c k) request_id files
                (snd (handle_prefix request_id w)) _ Hd) as Hd2.
  pose proof (unconfined_handle_guarded_cwd (String c k) request_id files
                (snd (handle_prefix request_id w))) as Hc2.
  unfold cwd_kept in Hc2.
  remember (snd (Unconfined.handle_guarded env exec (String c k) request_id
                   files (snd (handle_prefix request_id w)))) as w2 eqn:E.
  clear E.
  assert (resolve w2 (scratch request_id) = resolve w (scratch request_id))
    as Hr by (unfold resolve; simpl; rewrite Hc2, Hc; reflexivity).
  rewrite <- Hr in Hd2. destruct (cleanup_removes _ _ Hd2) as [Hok Hgone].
  rewrite Hr in Hgone.
  destruct (cleanup (scratch request_id) w2) as [[[]|e] w3]; simpl in Hok;
    [|discriminate].
  split; [reflexivity | exact Hgone].
Qed.

End KeptDirectories.

Lemma rebinds_dirs (code : string) :
  preserves dirs_kept (Demo.interpreter Demo.script_rebinds Demo.rebinds code).
Proof.
  unfold Demo.interpreter.
  destruct (String.eqb code Demo.script_rebinds); intros w p H; exact H.
Qed.

Lemma kept_directories_restore_cwd_witness :
  fst (Unconfined.run (Demo.service Demo.script_rebinds)
         (Demo.interpreter Demo.script_rebinds Demo.rebinds)
         Demo.agent "How many rows?" [] Demo.world_with_scratch)
  = Raise Unconfined.no_getvalue
  /\ cwd (snd (Unconfined.run (Demo.service Demo.script_rebinds)
                 (Demo.interpreter Demo.script_rebinds Demo.rebinds)
                 Demo.agent "How many rows?" [] Demo.world_with_scratch))
     = ["srv"].
Proof.
  split; [vm_compute; reflexivity|].
  exact (proj1 (kept_directories_restore_cwd
                  (Demo.service Demo.script_rebinds)
                  (Demo.interpreter Demo.script_rebinds Demo.rebinds)
                  rebinds_dirs
                  Demo.agent "How many rows?" [] Demo.world_with_scratch)).
Defined.

Lemma kept_directories_remove_scratch_witness :
  fst (Unconfined.handle_analysis_request (Demo.service Demo.script_rebinds)
         (Demo.interpreter Demo.script_rebinds Demo.rebinds)
         (Some "key") "r1" Demo.request Demo.world)
  = Ok {| status := 500;
          body := error_details_body "An internal server error occurred."
                    (exn_msg Unconfined.no_getvalue) |}
  /\ fs (snd (Unconfined.handle_analysis_request
                (Demo.service Demo.script_rebinds)
                (Demo.interpreter Demo.script_rebinds Demo.rebinds)
                (Some "key") "r1" Demo.request Demo.world))
     !! ["srv"; "temp"; "r1"; "data.csv"] = None.
Proof.
  pose proof (kept_directories_remove_scratch
                (Demo.service Demo.script_rebinds)
                (Demo.interpreter Demo.script_rebinds Demo.rebinds)
                rebinds_dirs "key" "r1" Demo.request Demo.world
                eq_refl eq_refl eq_refl) as [Hres Hgone].
  split.
  - rewrite Hres. vm_compute. reflexivity.
  - exact (Hgone ["srv"; "temp"; "r1"; "data.csv"] eq_refl).
Defined.
